(** * Data validation stage of the Network Security pipeline

    A shallow embedding of [networksecurity/components/data_validation.py]
    (class [DataValidation]) and of the [DataValidationArtifact] record of
    [networksecurity/entity/artifact_entity.py], followed by the properties of
    the structural checks, of the drift detector and of the orchestrator.

    Python floats are IEEE binary64 numbers: they are Rocq's primitive
    floats.  Dictionaries whose order is irrelevant are [gmap]s; the drift
    report, whose insertion order is observable, is an association list with
    Python's [dict.update] semantics.  Effects (file system, logging,
    exceptions) are threaded through a state-and-exception monad whose state
    also records the sequence of calls the run makes. *)

From Stdlib Require Import Floats Ascii String.
From stdpp Require Import gmap strings list fin_maps.

Local Open Scope string_scope.
Local Open Scope list_scope.

(** * Model *)

(** ** Python floats and their comparisons *)

Module PyFloat.

(** [a >= b] on Python floats is IEEE [b <= a]; false when either is NaN. *)
Definition ge (a b : float) : bool := PrimFloat.leb b a.

(** [a < b] on Python floats. *)
Definition lt (a b : float) : bool := PrimFloat.ltb a b.

(** [a == b] on Python floats. *)
Definition eq (a b : float) : bool := PrimFloat.eqb a b.

End PyFloat.

(** ** POSIX path helpers ([os.path.dirname], [os.path.basename]) *)

Module PosixPath.

Definition sep : ascii := "/"%char.

(** Splits [p] after its last separator: [Some (p[:i], p[i:])] with
    [i = p.rfind('/') + 1], or [None] when [p] has no separator. *)
Fixpoint rsplit (p : string) : option (string * string) :=
  match p with
  | EmptyString => None
  | String c r =>
      match rsplit r with
      | Some (h, t) => Some (String c h, t)
      | None =>
          if Ascii.eqb c sep then Some (String c EmptyString, r) else None
      end
  end.

Fixpoint all_sep (s : string) : bool :=
  match s with
  | EmptyString => true
  | String c r => Ascii.eqb c sep && all_sep r
  end.

(** [s.rstrip('/')] *)
Fixpoint rstrip (s : string) : string :=
  match s with
  | EmptyString => EmptyString
  | String c r =>
      match rstrip r with
      | EmptyString => if Ascii.eqb c sep then EmptyString else String c EmptyString
      | r' => String c r'
      end
  end.

Definition dirname (p : string) : string :=
  match rsplit p with
  | None => ""
  | Some (head, _) => if all_sep head then head else rstrip head
  end.

Definition basename (p : string) : string :=
  match rsplit p with
  | None => p
  | Some (_, tail) => tail
  end.

End PosixPath.

(** ** Data model *)

(** A scalar of a table read by pandas. *)
Inductive cell :=
| CInt (z : Z)
| CFloat (f : float)
| CStr (s : string).

Definition Series := list cell.

(** A [pandas.DataFrame], column by column, in column order. *)
Definition DataFrame := list (string * Series).

(** [dataframe.columns] *)
Definition columns (df : DataFrame) : list string := df.*1.

(** What [df[column]] evaluates to: a [Series] when the label is unique, a
    sub-frame when several columns carry it. *)
Inductive selection :=
| SelSeries (s : Series)
| SelFrame (cols : list Series).

(** The result object of [scipy.stats.ks_2samp]. *)
Record KstestResult := { statistic : float; pvalue : float }.

(** One entry of the drift report: [{"p_value": ..., "drift_status": ...}]. *)
Record drift_entry := { p_value : float; drift_status : bool }.

(** A Python [dict] from column names to report entries, in insertion order. *)
Definition report_dict := list (string * drift_entry).

(** [d.update({k: v})]: an existing key keeps its position and takes the new
    value; a new key goes last. *)
Fixpoint dict_update (d : report_dict) (k : string) (v : drift_entry) : report_dict :=
  match d with
  | [] => [(k, v)]
  | (k', v') :: d' =>
      if String.eqb k' k then (k, v) :: d' else (k', v') :: dict_update d' k v
  end.

(** [d[k]] as an option. *)
Fixpoint dict_get (d : report_dict) (k : string) : option drift_entry :=
  match d with
  | [] => None
  | (k', v') :: d' => if String.eqb k' k then Some v' else dict_get d' k
  end.

(** The values found under the keys of the schema file: [columns] is a
    sequence of single-key mappings (column name to type name),
    [numerical_columns] a sequence of names. *)
Inductive schema_value :=
| YColumns (l : list (string * string))
| YNames (l : list string).

(** [len(v)] *)
Definition py_len (v : schema_value) : nat :=
  match v with
  | YColumns l => length l
  | YNames l => length l
  end.

(** [networksecurity.entity.artifact_entity.DataIngestionArtifact] *)
Record DataIngestionArtifact := {
  trained_file_path : string;
  test_file_path : string
}.

(** The fields of [DataValidationConfig] that the component reads. *)
Record DataValidationConfig := {
  valid_data_dir : string;
  invalid_data_dir : string;
  valid_train_file_path : string;
  valid_test_file_path : string;
  invalid_train_file_path : string;
  invalid_test_file_path : string;
  drift_report_file_path : string
}.

(** [networksecurity.entity.artifact_entity.DataValidationArtifact] *)
Record DataValidationArtifact := {
  validation_status : bool;
  art_valid_train_file_path : string;
  art_valid_test_file_path : string;
  art_invalid_train_file_path : string;
  art_invalid_test_file_path : string;
  art_drift_report_file_path : string
}.

(** The attributes of a [DataValidation] object. *)
Record DataValidation := {
  data_ingestion_artifact : DataIngestionArtifact;
  data_validation_config : DataValidationConfig;
  _schema_config : gmap string schema_value
}.

(** ** Exceptions *)

Inductive exn :=
| KeyError (key : string)
| TypeError (msg : string)
| FileNotFoundError (path : string)
| ParserError (path : string)
| OSError (msg : string)
| ValueError (msg : string)
| NetworkSecurityException (error : exn).

(** ** The world: file system and the calls made so far *)

Inductive file_content :=
| CsvFile (df : DataFrame)
| YamlFile (content : report_dict).

(** Messages passed to [logging.info]. *)
Inductive log_record :=
| LogRequiredColumns (n : nat)
| LogDataframeColumns (n : nat)
| LogMissingNumerical (missing : list string)
| LogArtifact (a : DataValidationArtifact).

(** Entries into the methods of [DataValidation].  The source logs nothing
    there: the trace keeps them so that properties can say which methods a
    run invoked, and on what. *)
Inductive call :=
| CallReadData (file_path : string)
| CallValidateNumberOfColumns (dataframe : DataFrame)
| CallIsNumericalColumnExist (dataframe : DataFrame)
| CallDetectDatasetDrift (base_df current_df : DataFrame) (threshold : float).

(** The calls of a run, in the order they are made. *)
Inductive event :=
| EvEnter (c : call)
| EvLog (r : log_record)
| EvReadCsv (path : string)
| EvKs2samp (d1 d2 : selection)
| EvMakedirs (path : string)
| EvWriteYaml (path : string) (content : report_dict)
| EvToCsv (path : string) (df : DataFrame).

(** The files and directories on disk, and the calls made so far. *)
Record world := World {
  files : gmap string file_content;
  dirs : gset string;
  trace : list event
}.

(** ** State-and-exception monad *)

(** The outcome of a call: a value, or a raised exception. *)
Inductive result (A : Type) :=
| Ok (a : A)
| Raise (e : exn).
Arguments Ok {A} a.
Arguments Raise {A} e.

(** A computation changes the world and returns or raises; what it did to
    the world before raising stays done. *)
Definition M (A : Type) : Type := world -> result A * world.

#[global] Instance M_ret : MRet M := fun A a w => (Ok a, w).

#[global] Instance M_bind : MBind M := fun A B f m w =>
  match m w with
  | (Ok a, w') => f a w'
  | (Raise e, w') => (Raise e, w')
  end.

Definition raise {A} (e : exn) : M A := fun w => (Raise e, w).

(** [try: body except Exception as e: raise NetworkSecurityException(e, sys)] *)
Definition try_wrap {A} (body : M A) : M A := fun w =>
  match body w with
  | (Ok a, w') => (Ok a, w')
  | (Raise e, w') => (Raise (NetworkSecurityException e), w')
  end.

(** The world after one more call. *)
Definition record (ev : event) (w : world) : world :=
  World (files w) (dirs w) (trace w ++ [ev]).

Definition get_world : M world := fun w => (Ok w, w).

Definition modify (f : world -> world) : M unit := fun w => (Ok tt, f w).

Definition emit (ev : event) : M unit := modify (record ev).

(** The world with one more directory. *)
Definition add_dir (path : string) (w : world) : world :=
  World (files w) ({[path]} ∪ dirs w) (trace w).

(** The world with the file at [path] created or replaced. *)
Definition put_file (path : string) (c : file_content) (w : world) : world :=
  World (<[path := c]> (files w)) (dirs w) (trace w).

(** ** The component *)

(** What iterating over a schema value yields: names for a sequence of
    names, one-key dictionaries for a sequence of mappings. *)
Inductive py_item :=
| ItemStr (s : string)
| ItemDict (k v : string).

Definition py_iter (v : schema_value) : list py_item :=
  match v with
  | YColumns l => (fun kv => ItemDict kv.1 kv.2) <$> l
  | YNames l => ItemStr <$> l
  end.

(** The default of the [threshold] parameter, [0.05] as a binary64 number. *)
Definition default_threshold : float := 0x1.999999999999ap-5%float.

Section Component.

(** [scipy.stats.ks_2samp]: a result, or the exception it raises. *)
Variable ks_2samp : selection -> selection -> result KstestResult.

(** The environment: given the calls made so far and the call being made,
    the exception the call fails with, if it fails. *)
Variable fault : list event -> event -> option exn.

(** A call into the environment: recorded, and failing when the
    environment says so. *)
Definition extern (ev : event) : M unit := fun w =>
  match fault (trace w) ev with
  | Some e => (Raise e, record ev w)
  | None => (Ok tt, record ev w)
  end.

(** [logging.info(msg)] *)
Definition logging_info (r : log_record) : M unit := emit (EvLog r).

(** [pd.read_csv(file_path)] *)
Definition pd_read_csv (file_path : string) : M DataFrame :=
  extern (EvReadCsv file_path);;
  w ← get_world;
  match files w !! file_path with
  | Some (CsvFile df) => mret df
  | Some (YamlFile _) => raise (ParserError file_path)
  | None => raise (FileNotFoundError file_path)
  end.

(** [os.makedirs(path, exist_ok=True)]; the empty path is refused. *)
Definition os_makedirs (path : string) : M unit :=
  extern (EvMakedirs path);;
  if String.eqb path "" then raise (FileNotFoundError path)
  else modify (add_dir path).

(** [df.to_csv(path, index=False, header=True)] *)
Definition to_csv (df : DataFrame) (path : string) : M unit :=
  extern (EvToCsv path df);;
  modify (put_file path (CsvFile df)).

(** [write_yaml_file(file_path=..., content=...)] *)
Definition write_yaml_file (file_path : string) (content : report_dict) : M unit :=
  extern (EvWriteYaml file_path content);;
  modify (put_file file_path (YamlFile content)).

(** [ks_2samp(d1, d2)] *)
Definition call_ks_2samp (d1 d2 : selection) : M KstestResult :=
  emit (EvKs2samp d1 d2);;
  match ks_2samp d1 d2 with
  | Ok r => mret r
  | Raise e => raise e
  end.

(** [df[column]] *)
Definition getitem (df : DataFrame) (column : string) : M selection :=
  match List.filter (fun c => String.eqb c.1 column) df with
  | [] => raise (KeyError column)
  | [c] => mret (SelSeries c.2)
  | l => mret (SelFrame l.*2)
  end.

(** [key in dataframe.columns]: hashes the key first. *)
Definition index_contains (idx : list string) (key : py_item) : M bool :=
  match key with
  | ItemStr s => mret (bool_decide (s ∈ idx))
  | ItemDict _ _ => raise (TypeError "unhashable type: 'dict'")
  end.

(** [self._schema_config[key]] *)
Definition schema_getitem (self : DataValidation) (key : string) : M schema_value :=
  match _schema_config self !! key with
  | Some v => mret v
  | None => raise (KeyError key)
  end.

Definition read_data (file_path : string) : M DataFrame :=
  emit (EvEnter (CallReadData file_path));;
  try_wrap (pd_read_csv file_path).

Definition validate_number_of_columns (self : DataValidation)
    (dataframe : DataFrame) : M bool :=
  emit (EvEnter (CallValidateNumberOfColumns dataframe));;
  try_wrap (
    cols ← schema_getitem self "columns";
    let number_of_columns := py_len cols in
    logging_info (LogRequiredColumns number_of_columns);;
    logging_info (LogDataframeColumns (length (columns dataframe)));;
    if Nat.eqb (length (columns dataframe)) number_of_columns
    then mret true
    else mret false).

(** The [for column in numerical_columns] loop. *)
Fixpoint missing_loop (dataframe_columns : list string)
    (numerical_columns : list py_item)
    (missing_numerical_columns : list string) : M (list string) :=
  match numerical_columns with
  | [] => mret missing_numerical_columns
  | column :: rest =>
      present ← index_contains dataframe_columns column;
      let missing_numerical_columns :=
        match column with
        | ItemStr s =>
            if negb present then (missing_numerical_columns ++ [s])%list
            else missing_numerical_columns
        | ItemDict _ _ => missing_numerical_columns
        end in
      missing_loop dataframe_columns rest missing_numerical_columns
  end.

Definition is_numerical_column_exist (self : DataValidation)
    (dataframe : DataFrame) : M bool :=
  emit (EvEnter (CallIsNumericalColumnExist dataframe));;
  try_wrap (
    numerical_columns ← schema_getitem self "numerical_columns";
    let dataframe_columns := columns dataframe in
    missing_numerical_columns ←
      missing_loop dataframe_columns (py_iter numerical_columns) [];
    if Nat.ltb 0 (length missing_numerical_columns) then
      logging_info (LogMissingNumerical missing_numerical_columns);;
      mret false
    else mret true).

(** The [for column in base_df.columns] loop, on the pair
    [(drift_status, report)]. *)
Fixpoint drift_loop (base_df current_df : DataFrame) (threshold : float)
    (cols : list string) (drift : bool) (report : report_dict)
    : M (bool * report_dict) :=
  match cols with
  | [] => mret (drift, report)
  | column :: rest =>
      d1 ← getitem base_df column;
      d2 ← getitem current_df column;
      is_same_dist ← call_ks_2samp d1 d2;
      let '(is_found, drift) :=
        if PyFloat.ge (pvalue is_same_dist) threshold
        then (false, drift)
        else (true, true) in
      let report :=
        dict_update report column
          {| p_value := pvalue is_same_dist; drift_status := is_found |} in
      drift_loop base_df current_df threshold rest drift report
  end.

Definition detect_dataset_drift (self : DataValidation)
    (base_df current_df : DataFrame) (threshold : float) : M bool :=
  emit (EvEnter (CallDetectDatasetDrift base_df current_df threshold));;
  try_wrap (
    '(drift, report) ←
      drift_loop base_df current_df threshold (columns base_df) false [];
    let drift_report_file_path :=
      drift_report_file_path (data_validation_config self) in
    let dir_path := PosixPath.dirname drift_report_file_path in
    os_makedirs dir_path;;
    write_yaml_file drift_report_file_path report;;
    mret drift).

Definition initiate_data_validation (self : DataValidation)
    : M DataValidationArtifact :=
  try_wrap (
    let train_file_path := trained_file_path (data_ingestion_artifact self) in
    let test_file_path := test_file_path (data_ingestion_artifact self) in
    train_dataframe ← read_data train_file_path;
    test_dataframe ← read_data test_file_path;
    let validation_status := true in
    status ← validate_number_of_columns self train_dataframe;
    let validation_status := if negb status then false else validation_status in
    status ← validate_number_of_columns self test_dataframe;
    let validation_status := if negb status then false else validation_status in
    status ← is_numerical_column_exist self train_dataframe;
    let validation_status := if negb status then false else validation_status in
    status ← is_numerical_column_exist self test_dataframe;
    let validation_status := if negb status then false else validation_status in
    (if validation_status
     then detect_dataset_drift self train_dataframe test_dataframe
            default_threshold;; mret tt
     else mret tt);;
    let cfg := data_validation_config self in
    let dir_path :=
      if validation_status then valid_data_dir cfg else invalid_data_dir cfg in
    os_makedirs dir_path;;
    let train_filename := PosixPath.basename train_file_path in
    let test_filename := PosixPath.basename test_file_path in
    (if validation_status then
       to_csv train_dataframe (valid_train_file_path cfg);;
       to_csv test_dataframe (valid_test_file_path cfg)
     else
       to_csv train_dataframe (invalid_train_file_path cfg);;
       to_csv test_dataframe (invalid_test_file_path cfg));;
    let data_validation_artifact :=
      {| validation_status := validation_status;
         art_valid_train_file_path := valid_train_file_path cfg;
         art_valid_test_file_path := valid_test_file_path cfg;
         art_invalid_train_file_path := invalid_train_file_path cfg;
         art_invalid_test_file_path := invalid_test_file_path cfg;
         art_drift_report_file_path := drift_report_file_path cfg |} in
    logging_info (LogArtifact data_validation_artifact);;
    mret data_validation_artifact).

End Component.

(** ** Reading the model: pure counterparts of the checks *)

(** [len(dataframe.columns) == len(schema['columns'])] *)
Definition column_count_matches (cols : schema_value) (df : DataFrame) : bool :=
  Nat.eqb (length (columns df)) (py_len cols).

(** The names of [numerical] that are not column labels of [df], in the
    order of [numerical]. *)
Definition missing_columns (numerical : list string) (df : DataFrame) : list string :=
  List.filter (fun s => negb (bool_decide (s ∈ columns df))) numerical.

(** Every name of [numerical] is a column label of [df]. *)
Definition numerical_columns_present (numerical : list string) (df : DataFrame) : bool :=
  forallb (fun s => bool_decide (s ∈ columns df)) numerical.

(** The names a schema value yields when iterated for membership tests, when
    each of its items can be hashed. *)
Definition hashable_items (v : schema_value) : option (list string) :=
  match v with
  | YNames l => Some l
  | YColumns [] => Some []
  | YColumns (_ :: _) => None
  end.

(** The world after the calls [evs] have been recorded. *)
Definition records (evs : list event) (w : world) : world :=
  World (files w) (dirs w) (trace w ++ evs).

(** The calls that can fail, and whether they did: environment calls fail as
    [fault] says, the KS test as [ks_2samp] says. *)
Definition call_failed (ks_2samp : selection -> selection -> result KstestResult)
    (fault : list event -> event -> option exn)
    (hist : list event) (ev : event) : option exn :=
  match ev with
  | EvEnter _ | EvLog _ => None
  | EvKs2samp d1 d2 =>
      match ks_2samp d1 d2 with
      | Ok _ => None
      | Raise e => Some e
      end
  | EvReadCsv _ | EvMakedirs _ | EvWriteYaml _ _ | EvToCsv _ _ => fault hist ev
  end.

(** None of the calls [evs], made in this order after [hist], failed. *)
Fixpoint no_failure (ks_2samp : selection -> selection -> result KstestResult)
    (fault : list event -> event -> option exn)
    (hist evs : list event) : Prop :=
  match evs with
  | [] => True
  | ev :: rest =>
      call_failed ks_2samp fault hist ev = None ∧
      no_failure ks_2samp fault (hist ++ [ev]) rest
  end.

Definition is_check_call (ev : event) : bool :=
  match ev with
  | EvEnter (CallValidateNumberOfColumns _)
  | EvEnter (CallIsNumericalColumnExist _) => true
  | _ => false
  end.

Definition is_drift_event (ev : event) : bool :=
  match ev with
  | EvEnter (CallDetectDatasetDrift _ _ _)
  | EvKs2samp _ _
  | EvWriteYaml _ _ => true
  | _ => false
  end.

Definition is_detect_call (ev : event) : bool :=
  match ev with
  | EvEnter (CallDetectDatasetDrift _ _ _) => true
  | _ => false
  end.

Definition is_write_yaml (ev : event) : bool :=
  match ev with
  | EvWriteYaml _ _ => true
  | _ => false
  end.

Definition is_to_csv (ev : event) : bool :=
  match ev with
  | EvToCsv _ _ => true
  | _ => false
  end.

Definition is_makedirs (ev : event) : bool :=
  match ev with
  | EvMakedirs _ => true
  | _ => false
  end.

(** The paths a run writes a file at, in order. *)
Definition written_paths (evs : list event) : list string :=
  omap (fun ev =>
          match ev with
          | EvToCsv p _ | EvWriteYaml p _ => Some p
          | _ => None
          end) evs.

(** Method entries and log messages cannot fail. *)
Definition silent (ev : event) : bool :=
  match ev with
  | EvEnter _ | EvLog _ => true
  | _ => false
  end.

(** ** The drift loop without the world *)

(** [df[column]] without the world. *)
Definition select (df : DataFrame) (column : string) : result selection :=
  match List.filter (fun c => String.eqb c.1 column) df with
  | [] => Raise (KeyError column)
  | [c] => Ok (SelSeries c.2)
  | l => Ok (SelFrame l.*2)
  end.

Section DriftLoop.

Variable ks_2samp : selection -> selection -> result KstestResult.
Variable fault : list event -> event -> option exn.
Variables base_df current_df : DataFrame.
Variable threshold : float.

(** The report entry of one column, or the exception that comparing it
    raises. *)
Definition compare_column (column : string) : result drift_entry :=
  match select base_df column with
  | Raise e => Raise e
  | Ok d1 =>
      match select current_df column with
      | Raise e => Raise e
      | Ok d2 =>
          match ks_2samp d1 d2 with
          | Raise e => Raise e
          | Ok r =>
              Ok {| p_value := pvalue r;
                    drift_status := negb (PyFloat.ge (pvalue r) threshold) |}
          end
      end
  end.

(** The loop without the world. *)
Fixpoint drift_fold (cols : list string) (drift : bool) (report : report_dict)
    : result (bool * report_dict) :=
  match cols with
  | [] => Ok (drift, report)
  | column :: rest =>
      match compare_column column with
      | Raise e => Raise e
      | Ok entry =>
          drift_fold rest (drift || drift_status entry)
            (dict_update report column entry)
      end
  end.

(** The KS calls of the loop, up to and including the first that fails. *)
Fixpoint drift_events (cols : list string) : list event :=
  match cols with
  | [] => []
  | column :: rest =>
      match select base_df column, select current_df column with
      | Ok d1, Ok d2 =>
          EvKs2samp d1 d2 ::
          match ks_2samp d1 d2 with
          | Ok _ => drift_events rest
          | Raise _ => []
          end
      | _, _ => []
      end
  end.

End DriftLoop.

(** ** The calls and files of a run *)

Section Runs.

Variable ks_2samp : selection -> selection -> result KstestResult.
Variable fault : list event -> event -> option exn.
Variable self : DataValidation.

Let cfg := data_validation_config self.

(** The calls of a completed detector run. *)
Definition detect_events (base_df current_df : DataFrame) (threshold : float)
    (report : report_dict) : list event :=
  EvEnter (CallDetectDatasetDrift base_df current_df threshold) ::
  drift_events ks_2samp base_df current_df (columns base_df) ++
  [EvMakedirs (PosixPath.dirname (drift_report_file_path cfg));
   EvWriteYaml (drift_report_file_path cfg) report].

End Runs.

Section Orchestrator.

Variable ks_2samp : selection -> selection -> result KstestResult.
Variable fault : list event -> event -> option exn.
Variable self : DataValidation.

Let cfg := data_validation_config self.
Let train_file_path := trained_file_path (data_ingestion_artifact self).
Let test_file_path := test_file_path (data_ingestion_artifact self).

(** The conjunction of the four structural checks. *)
Definition structural_checks (cols : schema_value) (numerical : list string)
    (train test : DataFrame) : bool :=
  column_count_matches cols train && column_count_matches cols test &&
  numerical_columns_present numerical train &&
  numerical_columns_present numerical test.

(** The artifact of a run whose checks gave [status]. *)
Definition artifact_of (status : bool) : DataValidationArtifact :=
  {| validation_status := status;
     art_valid_train_file_path := valid_train_file_path cfg;
     art_valid_test_file_path := valid_test_file_path cfg;
     art_invalid_train_file_path := invalid_train_file_path cfg;
     art_invalid_test_file_path := invalid_test_file_path cfg;
     art_drift_report_file_path := drift_report_file_path cfg |}.

Definition load_events : list event :=
  [EvEnter (CallReadData train_file_path); EvReadCsv train_file_path;
   EvEnter (CallReadData test_file_path); EvReadCsv test_file_path].

Definition count_events (cols : schema_value) (df : DataFrame) : list event :=
  [EvEnter (CallValidateNumberOfColumns df);
   EvLog (LogRequiredColumns (py_len cols));
   EvLog (LogDataframeColumns (length (columns df)))].

Definition numerical_events (numerical : list string) (df : DataFrame)
    : list event :=
  EvEnter (CallIsNumericalColumnExist df) ::
  match missing_columns numerical df with
  | [] => []
  | missing => [EvLog (LogMissingNumerical missing)]
  end.

Definition check_events (cols : schema_value) (numerical : list string)
    (train test : DataFrame) : list event :=
  count_events cols train ++ count_events cols test ++
  numerical_events numerical train ++ numerical_events numerical test.

(** The calls after the checks: making the destination directory, writing
    the two datasets, logging the artifact. *)
Definition persist_events (status : bool) (train test : DataFrame)
    : list event :=
  if status then
    [EvMakedirs (valid_data_dir cfg);
     EvToCsv (valid_train_file_path cfg) train;
     EvToCsv (valid_test_file_path cfg) test;
     EvLog (LogArtifact (artifact_of status))]
  else
    [EvMakedirs (invalid_data_dir cfg);
     EvToCsv (invalid_train_file_path cfg) train;
     EvToCsv (invalid_test_file_path cfg) test;
     EvLog (LogArtifact (artifact_of status))].

Definition persist_files (status : bool) (train test : DataFrame)
    (fs : gmap string file_content) : gmap string file_content :=
  if status then
    <[valid_test_file_path cfg := CsvFile test]>
      (<[valid_train_file_path cfg := CsvFile train]> fs)
  else
    <[invalid_test_file_path cfg := CsvFile test]>
      (<[invalid_train_file_path cfg := CsvFile train]> fs).

(** What the detector contributes to a completed run: nothing when the
    checks failed, a report and its calls otherwise. *)
Definition stage_events (status : bool) (train test : DataFrame)
    (report : report_dict) : list event :=
  if status
  then detect_events ks_2samp self train test default_threshold report
  else [].

Definition stage_files (status : bool) (report : report_dict)
    (fs : gmap string file_content) : gmap string file_content :=
  if status
  then <[drift_report_file_path cfg := YamlFile report]> fs
  else fs.

(** The calls of a completed run, in order. *)
Definition run_events (cols : schema_value) (numerical : list string)
    (train test : DataFrame) (report : report_dict) : list event :=
  let status := structural_checks cols numerical train test in
  load_events ++ check_events cols numerical train test ++
  stage_events status train test report ++
  persist_events status train test.

End Orchestrator.

(** ** Calls a computation can make *)

(** Whatever its outcome, [m] only adds calls satisfying [P] to the trace. *)
Definition appends {A} (P : event -> Prop) (m : M A) : Prop :=
  forall w r w',
    m w = (r, w') -> exists evs, trace w' = trace w ++ evs ∧ Forall P evs.

(** ** Sample data *)

Module Sample.

(** A KS test that always answers with the p-value [p]. *)
Definition ks_const (p : float) : selection -> selection -> result KstestResult :=
  fun _ _ => Ok {| statistic := 0%float; pvalue := p |}.

(** Whether a sample holds a NaN. *)
Definition has_nan (d : selection) : bool :=
  let cell_nan (c : cell) :=
    match c with
    | CFloat f => is_nan f
    | _ => false
    end in
  match d with
  | SelSeries s => existsb cell_nan s
  | SelFrame cols => existsb (existsb cell_nan) cols
  end.

(** A KS test that answers with the p-value [p], and with NaN when a sample
    holds a NaN, as [ks_2samp] does under its default
    [nan_policy='propagate']. *)
Definition ks_propagate (p : float)
    : selection -> selection -> result KstestResult :=
  fun d1 d2 =>
    if has_nan d1 || has_nan d2
    then Ok {| statistic := nan; pvalue := nan |}
    else Ok {| statistic := 0%float; pvalue := p |}.

(** An environment in which no call fails. *)
Definition no_fault : list event -> event -> option exn := fun _ _ => None.

Definition schema : gmap string schema_value :=
  <["columns" := YColumns [("a", "int64"); ("b", "int64")]]>
    (<["numerical_columns" := YNames ["a"]]> ∅).

Definition config : DataValidationConfig :=
  {| valid_data_dir := "artifacts/validated";
     invalid_data_dir := "artifacts/invalid";
     valid_train_file_path := "artifacts/validated/train.csv";
     valid_test_file_path := "artifacts/validated/test.csv";
     invalid_train_file_path := "artifacts/invalid/train.csv";
     invalid_test_file_path := "artifacts/invalid/test.csv";
     drift_report_file_path := "artifacts/drift_report/report.yaml" |}.

Definition self : DataValidation :=
  {| data_ingestion_artifact :=
       {| trained_file_path := "ingested/part1.csv";
          test_file_path := "ingested/part2.csv" |};
     data_validation_config := config;
     _schema_config := schema |}.

(** Two columns [a], [b], one row. *)
Definition frame_ab : DataFrame := [("a", [CInt 0]); ("b", [CInt 0])].

(** Column [a] has a missing value, read by pandas as NaN. *)
Definition frame_missing_value : DataFrame :=
  [("a", [CFloat 1; CFloat nan]); ("b", [CInt 0; CInt 1])].

(** Same count, other labels. *)
Definition frame_xy : DataFrame := [("x", [CInt 1]); ("y", [CInt 2])].

(** One extra column. *)
Definition frame_abc : DataFrame :=
  [("a", [CInt 0]); ("b", [CInt 0]); ("c", [CInt 5])].

(** A column that only this frame has. *)
Definition frame_ab_extra : DataFrame :=
  [("a", [CInt 3]); ("b", [CInt 4]); ("z", [CInt 7])].

Definition world_of (train test : DataFrame) : world :=
  World (<["ingested/part1.csv" := CsvFile train]>
           (<["ingested/part2.csv" := CsvFile test]> ∅)) ∅ [].

(** Column [a] as in [frame_ab], but [q] where it has [b]. *)
Definition frame_aq : DataFrame := [("a", [CInt 0]); ("q", [CInt 0])].

(** An environment in which every dataset write fails. *)
Definition disk_full : list event -> event -> option exn :=
  fun _ ev =>
    match ev with
    | EvToCsv _ _ => Some (OSError "No space left on device")
    | _ => None
    end.

(** The same component, with a report path that has no directory part. *)
Definition self_flat_report : DataValidation :=
  {| data_ingestion_artifact := data_ingestion_artifact self;
     data_validation_config :=
       {| valid_data_dir := "artifacts/validated";
          invalid_data_dir := "artifacts/invalid";
          valid_train_file_path := "artifacts/validated/train.csv";
          valid_test_file_path := "artifacts/validated/test.csv";
          invalid_train_file_path := "artifacts/invalid/train.csv";
          invalid_test_file_path := "artifacts/invalid/test.csv";
          drift_report_file_path := "report.yaml" |};
     _schema_config := schema |}.

(** The train dataset has one column too many. *)
Definition rejected_world : world := world_of frame_abc frame_ab.

(** Both datasets conform to the schema. *)
Definition accepted_world : world := world_of frame_ab frame_ab.

Definition rejected_run : result DataValidationArtifact * world :=
  initiate_data_validation (ks_const 1%float) no_fault self rejected_world.

Definition accepted_run : result DataValidationArtifact * world :=
  initiate_data_validation (ks_const 1%float) no_fault self accepted_world.

(** A detector run on a dataset with a missing value in column [a]. *)
Definition nan_drift_run : result bool * world :=
  detect_dataset_drift (ks_propagate 1%float) no_fault self
    frame_missing_value frame_missing_value default_threshold accepted_world.

(** A detector run in which every p-value equals the threshold. *)
Definition boundary_drift_run : result bool * world :=
  detect_dataset_drift (ks_const default_threshold) no_fault self frame_ab
    frame_ab default_threshold accepted_world.

(** A detector run whose current dataset has a column the base lacks. *)
Definition extra_column_drift_run : result bool * world :=
  detect_dataset_drift (ks_const 1%float) no_fault self frame_ab
    frame_ab_extra default_threshold accepted_world.

End Sample.

(** ** Two claims read literally *)

(** The routing of C3 read literally: every dataset a completed run writes
    goes into the directory selected by [validation_status], under the base
    name of one of the two input files. *)
Definition writes_under_input_basenames
    (ks_2samp : selection -> selection -> result KstestResult)
    (fault : list event -> event -> option exn)
    (self : DataValidation) (w : world) : Prop :=
  forall art w' evs,
    initiate_data_validation ks_2samp fault self w = (Ok art, w') ->
    trace w' = trace w ++ evs ->
    forall path df,
      EvToCsv path df ∈ evs ->
      PosixPath.dirname path =
        (if validation_status art
         then valid_data_dir (data_validation_config self)
         else invalid_data_dir (data_validation_config self)) ∧
      (PosixPath.basename path =
         PosixPath.basename (trained_file_path (data_ingestion_artifact self)) ∨
       PosixPath.basename path =
         PosixPath.basename (test_file_path (data_ingestion_artifact self))).

(** The decision rule of C2 read literally: in the report of a completed
    detector run every entry has [drift_status = (p_value < threshold)]. *)
Definition drift_status_is_less_than
    (ks_2samp : selection -> selection -> result KstestResult)
    (fault : list event -> event -> option exn)
    (self : DataValidation) (base_df current_df : DataFrame)
    (threshold : float) (w : world) : Prop :=
  forall drift w' report,
    detect_dataset_drift ks_2samp fault self base_df current_df threshold w
      = (Ok drift, w') ->
    files w' !! drift_report_file_path (data_validation_config self)
      = Some (YamlFile report) ->
    forall c e,
      dict_get report c = Some e ->
      drift_status e = PyFloat.lt (p_value e) threshold.

(** ** Relations a computation keeps between the worlds before and after *)

(** Whatever its outcome, [m] takes a world to one related to it by [R]. *)
Definition keeps {A} (R : world -> world -> Prop) (m : M A) : Prop :=
  forall w r w', m w = (r, w') -> R w w'.

(** Outside the paths [allowed] every file is as it was, and no file that
    existed is gone. *)
Definition writes_within (allowed : list string) (w w' : world) : Prop :=
  (forall p, p ∉ allowed -> files w' !! p = files w !! p) ∧
  (forall p, is_Some (files w !! p) -> is_Some (files w' !! p)).

(** The directories are those there were, and possibly some of [allowed]. *)
Definition creates_within (allowed : list string) (w w' : world) : Prop :=
  dirs w ⊆ dirs w' ∧ forall d, d ∈ dirs w' -> d ∈ dirs w ∨ d ∈ allowed.

(** Files outside [paths] and directories outside [folders] are left as
    they were; nothing is removed. *)
Definition within (paths folders : list string) (w w' : world) : Prop :=
  writes_within paths w w' ∧ creates_within folders w w'.

(** The five paths a validation run may write, and the three directories it
    may create. *)
Definition output_paths (cfg : DataValidationConfig) : list string :=
  [drift_report_file_path cfg; valid_train_file_path cfg;
   valid_test_file_path cfg; invalid_train_file_path cfg;
   invalid_test_file_path cfg].

Definition output_dirs (cfg : DataValidationConfig) : list string :=
  [PosixPath.dirname (drift_report_file_path cfg); valid_data_dir cfg;
   invalid_data_dir cfg].

(** The columns of [df] whose label is one of [labels]. *)
Definition restricted_to (labels : list string) (df : DataFrame) : DataFrame :=
  List.filter (fun c => bool_decide (c.1 ∈ labels)) df.

Definition is_ks_call (ev : event) : bool :=
  match ev with
  | EvKs2samp _ _ => true
  | _ => false
  end.

Definition is_read_csv (ev : event) : bool :=
  match ev with
  | EvReadCsv _ => true
  | _ => false
  end.

(** ** The ingestion component ([data_ingestion.py]) *)

(** The fields of [DataIngestionConfig] that the component reads. *)
Record DataIngestionConfig := {
  database_name : string;
  collection_name : string;
  feature_store_file_path : string;
  training_file_path : string;
  testing_file_path : string;
  train_test_split_ratio : float
}.

(** The attributes of a [DataIngestion] object. *)
Record DataIngestion := {
  data_ingestion_config : DataIngestionConfig
}.

(** Messages the ingestion component passes to [logging.info]; those that
    show the shape of a frame carry the frame. *)
Inductive ingestion_log :=
| LogInitialized
| LogExportingCollection
| LogConnected (database collection : string)
| LogExported (df : DataFrame)
| LogExportingFeatureStore
| LogFeatureStoreSaved (path : string)
| LogSplitting
| LogSplitShapes (train_set test_set : DataFrame)
| LogTrainSaved (path : string)
| LogTestSaved (path : string)
| LogRule
| LogIngestionStarting
| LogIngestionCompleted
| LogIngestionArtifact (a : DataIngestionArtifact).

(** The world of an ingestion run: the disk, with its calls, and the
    component's own log. *)
Record ingestion_world := IngestionWorld {
  disk : world;
  journal : list ingestion_log
}.

Definition MI (A : Type) : Type :=
  ingestion_world -> result A * ingestion_world.

#[global] Instance MI_ret : MRet MI := fun A a iw => (Ok a, iw).

#[global] Instance MI_bind : MBind MI := fun A B f m iw =>
  match m iw with
  | (Ok a, iw') => f a iw'
  | (Raise e, iw') => (Raise e, iw')
  end.

(** [try: body except Exception as e: raise NetworkSecurityException(e, sys)] *)
Definition try_wrap_i {A} (body : MI A) : MI A := fun iw =>
  match body iw with
  | (Ok a, iw') => (Ok a, iw')
  | (Raise e, iw') => (Raise (NetworkSecurityException e), iw')
  end.

(** A file-system operation, run on the disk. *)
Definition on_disk {A} (m : M A) : MI A := fun iw =>
  match m (disk iw) with
  | (r, w') => (r, IngestionWorld w' (journal iw))
  end.

(** The outcome of a call that leaves the disk alone. *)
Definition outcome {A} (r : result A) : MI A := fun iw => (r, iw).

(** [logging.info(msg)] *)
Definition ingestion_info (msg : ingestion_log) : MI unit := fun iw =>
  (Ok tt, IngestionWorld (disk iw) (journal iw ++ [msg])).

(** [df.drop(columns=labels, axis=1)], for labels that are present. *)
Definition drop_columns (labels : list string) (df : DataFrame) : DataFrame :=
  List.filter (fun c => negb (bool_decide (c.1 ∈ labels))) df.

(** One cell under [df.replace({"na": np.nan})]. *)
Definition replace_na_cell (c : cell) : cell :=
  match c with
  | CStr s => if String.eqb s "na" then CFloat nan else c
  | _ => c
  end.

(** [df.replace({"na": np.nan}, inplace=True)] *)
Definition replace_na (df : DataFrame) : DataFrame :=
  List.map (fun c : string * Series => (c.1, List.map replace_na_cell c.2)) df.

Section IngestionComponent.

(** [pymongo.MongoClient(os.getenv("MONGO_DB_URL"), tlsCAFile=ca)]: success,
    or the exception it raises. *)
Variable mongo_connect : result unit.

(** [pd.DataFrame(list(mongo_client[database][collection].find()))]: the
    frame, or the exception raised on the way. *)
Variable mongo_find : string -> string -> result DataFrame.

(** [sklearn.model_selection.train_test_split(df, test_size=ratio,
    random_state=42)]: the two parts, or the exception it raises. *)
Variable train_test_split : DataFrame -> float -> result (DataFrame * DataFrame).

Variable fault : list event -> event -> option exn.

Definition DataIngestion_init (data_ingestion_config : DataIngestionConfig)
    : MI DataIngestion :=
  try_wrap_i (
    let self := {| data_ingestion_config := data_ingestion_config |} in
    ingestion_info LogInitialized;;
    mret self).

Definition export_collection_as_dataframe (self : DataIngestion)
    : MI DataFrame :=
  try_wrap_i (
    ingestion_info LogExportingCollection;;
    let database_name := database_name (data_ingestion_config self) in
    let collection_name := collection_name (data_ingestion_config self) in
    outcome mongo_connect;;
    ingestion_info (LogConnected database_name collection_name);;
    df ← outcome (mongo_find database_name collection_name);
    let df :=
      if bool_decide ("_id" ∈ columns df)
      then drop_columns ["_id"] df
      else df in
    let df := replace_na df in
    ingestion_info (LogExported df);;
    mret df).

Definition export_data_into_feature_store (self : DataIngestion)
    (dataframe : DataFrame) : MI DataFrame :=
  try_wrap_i (
    ingestion_info LogExportingFeatureStore;;
    let feature_store_file_path :=
      feature_store_file_path (data_ingestion_config self) in
    let dir_path := PosixPath.dirname feature_store_file_path in
    on_disk (os_makedirs fault dir_path);;
    on_disk (to_csv fault dataframe feature_store_file_path);;
    ingestion_info (LogFeatureStoreSaved feature_store_file_path);;
    mret dataframe).

Definition split_data_as_train_test (self : DataIngestion)
    (dataframe : DataFrame) : MI unit :=
  try_wrap_i (
    ingestion_info LogSplitting;;
    '(train_set, test_set) ←
      outcome (train_test_split dataframe
                 (train_test_split_ratio (data_ingestion_config self)));
    ingestion_info (LogSplitShapes train_set test_set);;
    let dir_path :=
      PosixPath.dirname (training_file_path (data_ingestion_config self)) in
    on_disk (os_makedirs fault dir_path);;
    on_disk (to_csv fault train_set
               (training_file_path (data_ingestion_config self)));;
    on_disk (to_csv fault test_set
               (testing_file_path (data_ingestion_config self)));;
    ingestion_info
      (LogTrainSaved (training_file_path (data_ingestion_config self)));;
    ingestion_info
      (LogTestSaved (testing_file_path (data_ingestion_config self)));;
    mret tt).

Definition initiate_data_ingestion (self : DataIngestion)
    : MI DataIngestionArtifact :=
  try_wrap_i (
    ingestion_info LogRule;;
    ingestion_info LogIngestionStarting;;
    ingestion_info LogRule;;
    dataframe ← export_collection_as_dataframe self;
    dataframe ← export_data_into_feature_store self dataframe;
    split_data_as_train_test self dataframe;;
    ingestion_info LogIngestionCompleted;;
    ingestion_info LogRule;;
    let data_ingestion_artifact :=
      {| trained_file_path := training_file_path (data_ingestion_config self);
         test_file_path := testing_file_path (data_ingestion_config self) |} in
    ingestion_info (LogIngestionArtifact data_ingestion_artifact);;
    mret data_ingestion_artifact).

End IngestionComponent.

(** The frame [export_collection_as_dataframe] makes of the frame of the
    documents found. *)
Definition cleaned (raw : DataFrame) : DataFrame :=
  replace_na
    (if bool_decide ("_id" ∈ columns raw)
     then drop_columns ["_id"] raw
     else raw).

(** The cells of a frame. *)
Definition cells (df : DataFrame) : list cell := concat df.*2.

(** The files an ingestion run may write and the directories it may
    create. *)
Definition ingestion_paths (cfg : DataIngestionConfig) : list string :=
  [feature_store_file_path cfg; training_file_path cfg; testing_file_path cfg].

Definition ingestion_dirs (cfg : DataIngestionConfig) : list string :=
  [PosixPath.dirname (feature_store_file_path cfg);
   PosixPath.dirname (training_file_path cfg)].

(** The validation component built on the artifact of an ingestion run. *)
Definition validation_of (art : DataIngestionArtifact)
    (config : DataValidationConfig) (schema : gmap string schema_value)
    : DataValidation :=
  {| data_ingestion_artifact := art;
     data_validation_config := config;
     _schema_config := schema |}.

(** ** Further sample data *)

Module Cases.

(** A schema file without the [numerical_columns] key. *)
Definition self_no_numerical : DataValidation :=
  {| data_ingestion_artifact := data_ingestion_artifact Sample.self;
     data_validation_config := Sample.config;
     _schema_config :=
       <["columns" := YColumns [("a", "int64"); ("b", "int64")]]> ∅ |}.

Definition ingestion_config : DataIngestionConfig :=
  {| database_name := "SECURITY";
     collection_name := "NetworkData";
     feature_store_file_path := "artifacts/feature_store/phisingData.csv";
     training_file_path := "ingested/part1.csv";
     testing_file_path := "ingested/part2.csv";
     train_test_split_ratio := 0x1.999999999999ap-3%float |}.

Definition ingestion : DataIngestion :=
  {| data_ingestion_config := ingestion_config |}.

(** The same component, with a training path that has no directory part. *)
Definition ingestion_flat : DataIngestion :=
  {| data_ingestion_config :=
       {| database_name := "SECURITY";
          collection_name := "NetworkData";
          feature_store_file_path := "artifacts/feature_store/phisingData.csv";
          training_file_path := "part1.csv";
          testing_file_path := "ingested/part2.csv";
          train_test_split_ratio := 0x1.999999999999ap-3%float |} |}.

(** Three documents with the identifier MongoDB adds and one [na] entry. *)
Definition documents : DataFrame :=
  [("_id", [CStr "65a1"; CStr "65a2"; CStr "65a3"]);
   ("a", [CInt 0; CInt 1; CInt 0]);
   ("b", [CInt 1; CStr "na"; CInt 1])].

Definition mongo_up : result unit := Ok tt.

Definition mongo_down : result unit :=
  Raise (OSError "connection refused").

Definition find_documents : string -> string -> result DataFrame :=
  fun _ _ => Ok documents.

(** A split that puts the last row aside as test set, and refuses a frame
    with fewer than two rows. *)
Definition split_last_row (df : DataFrame) (ratio : float)
    : result (DataFrame * DataFrame) :=
  match df with
  | (_, _ :: _ :: _) :: _ =>
      Ok (List.map (fun c : string * Series =>
                      (c.1, take (length c.2 - 1) c.2)) df,
          List.map (fun c : string * Series =>
                      (c.1, drop (length c.2 - 1) c.2)) df)
  | _ => Raise (ValueError "the resulting train set will be empty")
  end.

(** An environment in which writing the test file fails. *)
Definition test_write_fails : list event -> event -> option exn :=
  fun _ ev =>
    match ev with
    | EvToCsv "ingested/part2.csv" _ => Some (OSError "No space left on device")
    | _ => None
    end.

Definition empty_disk : ingestion_world := IngestionWorld (World ∅ ∅ []) [].

Definition ingestion_run : result DataIngestionArtifact * ingestion_world :=
  initiate_data_ingestion mongo_up find_documents split_last_row
    Sample.no_fault ingestion empty_disk.

Definition ingestion_run_artifact : DataIngestionArtifact :=
  {| trained_file_path := "ingested/part1.csv";
     test_file_path := "ingested/part2.csv" |}.

End Cases.

(** * Properties *)

(** ** Float comparisons *)

Module PyFloatFacts.

Import PyFloat.

Lemma SFcompare_swap (x y : spec_float) :
  SFcompare y x = CompOpp <$> SFcompare x y.
Proof.
  destruct x as [sx| sx| |sx mx ex], y as [sy| sy| |sy my ey]; simpl;
    try reflexivity;
    try (destruct sx; reflexivity);
    try (destruct sy; reflexivity);
    try (destruct sx, sy; reflexivity).
  change (PosDef.Pos.compare_cont Eq my mx) with (my ?= mx)%positive.
  change (PosDef.Pos.compare_cont Eq mx my) with (mx ?= my)%positive.
  change (IntDef.Z.compare ey ex) with (ey ?= ex)%Z.
  change (IntDef.Z.compare ex ey) with (ex ?= ey)%Z.
  rewrite (Z.compare_antisym ex ey), (Pos.compare_antisym mx my).
  destruct sx, sy; simpl; try reflexivity;
    destruct (ex ?= ey)%Z; simpl; try reflexivity;
    destruct (mx ?= my)%positive; reflexivity.
Qed.

Lemma is_nan_spec (x : float) :
  is_nan x = false -> Prim2SF x <> S754_nan.
Proof.
  unfold is_nan. rewrite FloatAxioms.eqb_spec. unfold SFeqb.
  intros H E. rewrite E in H. discriminate H.
Qed.

Lemma SFcompare_not_nan (x y : spec_float) :
  x <> S754_nan -> y <> S754_nan -> is_Some (SFcompare x y).
Proof.
  intros Hx Hy.
  destruct x as [sx| sx| |sx mx ex], y as [sy| sy| |sy my ey];
    simpl; try congruence; eauto.
Qed.

(** Outside NaN the two readings of the decision rule agree:
    [not (p >= t)] is [p < t]. *)
Lemma not_ge_lt (p t : float) :
  is_nan p = false -> is_nan t = false -> negb (ge p t) = lt p t.
Proof.
  intros Hp Ht. unfold ge, lt.
  rewrite FloatAxioms.leb_spec, FloatAxioms.ltb_spec. unfold SFleb, SFltb.
  rewrite (SFcompare_swap (Prim2SF t) (Prim2SF p)).
  destruct (SFcompare_not_nan (Prim2SF t) (Prim2SF p)) as [c Hc];
    auto using is_nan_spec.
  rewrite Hc. destruct c; reflexivity.
Qed.

Lemma SFcompare_refl (x : spec_float) :
  x <> S754_nan -> SFcompare x x = Some Eq.
Proof.
  destruct x as [sx| sx| |sx mx ex]; simpl; try congruence; intros _.
  - by destruct sx.
  - change (IntDef.Z.compare ex ex) with (ex ?= ex)%Z.
    change (PosDef.Pos.compare_cont Eq mx mx) with (mx ?= mx)%positive.
    rewrite Z.compare_refl, Pos.compare_refl. by destruct sx.
Qed.

Lemma is_nan_true_spec (x : float) :
  is_nan x = true -> Prim2SF x = S754_nan.
Proof.
  unfold is_nan. rewrite FloatAxioms.eqb_spec. unfold SFeqb. intros H.
  destruct (Prim2SF x) as [sx| sx| |sx mx ex] eqn:E; [| |reflexivity|];
    rewrite SFcompare_refl in H by discriminate; discriminate H.
Qed.

(** A comparison with NaN on either side is false. *)
Lemma ge_nan (p t : float) :
  is_nan p = true ∨ is_nan t = true -> ge p t = false.
Proof.
  unfold ge. rewrite FloatAxioms.leb_spec. unfold SFleb.
  intros [H|H]; apply is_nan_true_spec in H; rewrite H.
  - rewrite (SFcompare_swap S754_nan (Prim2SF t)). reflexivity.
  - reflexivity.
Qed.

(** Equal floats (in the sense of [==]) compare [>=]. *)
Lemma eq_ge (p t : float) : eq p t = true -> ge p t = true.
Proof.
  unfold eq, ge. rewrite FloatAxioms.eqb_spec, FloatAxioms.leb_spec. unfold SFeqb, SFleb.
  rewrite (SFcompare_swap (Prim2SF p) (Prim2SF t)).
  destruct (SFcompare (Prim2SF p) (Prim2SF t)) as [[]|]; simpl; congruence.
Qed.

End PyFloatFacts.

(** ** Monad laws used below *)

Section MonadFacts.

Context {A B : Type}.

Lemma bind_Ok_inv (m : M A) (f : A -> M B) w b w' :
  (m ≫= f) w = (Ok b, w') ->
  exists a w1, m w = (Ok a, w1) ∧ f a w1 = (Ok b, w').
Proof.
  unfold mbind, M_bind. destruct (m w) as [[a|e] w1]; intros H.
  - eauto.
  - discriminate H.
Qed.

Lemma bind_Raise_inv (m : M A) (f : A -> M B) w e w' :
  (m ≫= f) w = (Raise e, w') ->
  m w = (Raise e, w') ∨ exists a w1, m w = (Ok a, w1) ∧ f a w1 = (Raise e, w').
Proof.
  unfold mbind, M_bind. destruct (m w) as [[a|e0] w1]; intros H.
  - right. eauto.
  - left. injection H as -> ->. reflexivity.
Qed.

Lemma try_wrap_Ok_inv (m : M A) w a w' :
  try_wrap m w = (Ok a, w') -> m w = (Ok a, w').
Proof.
  unfold try_wrap. destruct (m w) as [[a0|e] w1]; intros H.
  - exact H.
  - discriminate H.
Qed.

Lemma try_wrap_Raise_inv (m : M A) w e w' :
  try_wrap m w = (Raise e, w') ->
  exists e0, e = NetworkSecurityException e0 ∧ m w = (Raise e0, w').
Proof.
  unfold try_wrap. destruct (m w) as [[a0|e0] w1]; intros H.
  - discriminate H.
  - injection H as <- <-. eauto.
Qed.

Lemma try_wrap_bind_Ok (m : M A) (f : A -> M B) w a w1 :
  m w = (Ok a, w1) -> try_wrap (m ≫= f) w = try_wrap (f a) w1.
Proof. unfold try_wrap, mbind, M_bind. intros ->. reflexivity. Qed.

Lemma try_wrap_bind_Raise (m : M A) (f : A -> M B) w e w1 :
  m w = (Raise e, w1) ->
  try_wrap (m ≫= f) w = (Raise (NetworkSecurityException e), w1).
Proof. unfold try_wrap, mbind, M_bind. intros ->. reflexivity. Qed.

End MonadFacts.

(** ** Traces *)

Lemma records_records a b w : records b (records a w) = records (a ++ b) w.
Proof. unfold records. simpl. by rewrite app_assoc. Qed.

Lemma record_records ev w : record ev w = records [ev] w.
Proof. reflexivity. Qed.

Lemma records_nil w : records [] w = w.
Proof. destruct w. unfold records. simpl. by rewrite app_nil_r. Qed.

Lemma no_failure_silent ks fault hist evs :
  forallb silent evs = true -> no_failure ks fault hist evs.
Proof.
  revert hist. induction evs as [|ev evs IH]; intros hist; simpl; [done|].
  intros [Hev Hevs]%andb_true_iff. split; [|by apply IH].
  by destruct ev.
Qed.

Lemma no_failure_app ks fault hist a b :
  no_failure ks fault hist (a ++ b) <->
  no_failure ks fault hist a ∧ no_failure ks fault (hist ++ a) b.
Proof.
  revert hist. induction a as [|ev a IH]; intros hist; simpl.
  - rewrite app_nil_r. tauto.
  - rewrite IH, <- app_assoc. simpl. tauto.
Qed.

(** ** What each operation does to the world *)

Section Operations.

Variable ks_2samp : selection -> selection -> result KstestResult.
Variable fault : list event -> event -> option exn.

Lemma extern_run ev w :
  extern fault ev w =
    (match fault (trace w) ev with Some e => Raise e | None => Ok tt end,
     records [ev] w).
Proof. unfold extern. destruct (fault (trace w) ev); reflexivity. Qed.

Lemma read_data_run file_path w :
  read_data fault file_path w =
    (match fault (trace w ++ [EvEnter (CallReadData file_path)])
             (EvReadCsv file_path) with
     | Some e => Raise (NetworkSecurityException e)
     | None =>
         match files w !! file_path with
         | Some (CsvFile df) => Ok df
         | Some (YamlFile _) =>
             Raise (NetworkSecurityException (ParserError file_path))
         | None =>
             Raise (NetworkSecurityException (FileNotFoundError file_path))
         end
     end,
     records [EvEnter (CallReadData file_path); EvReadCsv file_path] w).
Proof.
  unfold read_data, pd_read_csv, try_wrap, mbind, M_bind, emit, modify,
    get_world. rewrite extern_run. simpl.
  rewrite record_records, records_records. simpl.
  destruct (fault _ _); simpl; [reflexivity|].
  destruct (files w !! file_path) as [[df|c]|]; reflexivity.
Qed.

Lemma os_makedirs_run path w :
  os_makedirs fault path w =
    match fault (trace w) (EvMakedirs path) with
    | Some e => (Raise e, records [EvMakedirs path] w)
    | None =>
        if String.eqb path ""
        then (Raise (FileNotFoundError path), records [EvMakedirs path] w)
        else (Ok tt, add_dir path (records [EvMakedirs path] w))
    end.
Proof.
  unfold os_makedirs, mbind, M_bind. rewrite extern_run.
  destruct (fault _ _); [reflexivity|].
  destruct (String.eqb path ""); reflexivity.
Qed.

Lemma to_csv_run df path w :
  to_csv fault df path w =
    match fault (trace w) (EvToCsv path df) with
    | Some e => (Raise e, records [EvToCsv path df] w)
    | None => (Ok tt, put_file path (CsvFile df) (records [EvToCsv path df] w))
    end.
Proof.
  unfold to_csv, mbind, M_bind. rewrite extern_run.
  destruct (fault _ _); reflexivity.
Qed.

Lemma write_yaml_file_run path content w :
  write_yaml_file fault path content w =
    match fault (trace w) (EvWriteYaml path content) with
    | Some e => (Raise e, records [EvWriteYaml path content] w)
    | None =>
        (Ok tt,
         put_file path (YamlFile content)
           (records [EvWriteYaml path content] w))
    end.
Proof.
  unfold write_yaml_file, mbind, M_bind. rewrite extern_run.
  destruct (fault _ _); reflexivity.
Qed.

Lemma validate_number_of_columns_run self df w :
  validate_number_of_columns self df w =
    match _schema_config self !! "columns" with
    | Some cols =>
        (Ok (column_count_matches cols df),
         records [EvEnter (CallValidateNumberOfColumns df);
                  EvLog (LogRequiredColumns (py_len cols));
                  EvLog (LogDataframeColumns (length (columns df)))] w)
    | None =>
        (Raise (NetworkSecurityException (KeyError "columns")),
         records [EvEnter (CallValidateNumberOfColumns df)] w)
    end.
Proof.
  unfold validate_number_of_columns, schema_getitem, try_wrap, mbind,
    M_bind, logging_info, emit, modify, column_count_matches.
  destruct (_schema_config self !! "columns") as [cols|]; simpl;
    [|reflexivity].
  rewrite !record_records, !records_records. simpl.
  destruct (Nat.eqb _ _); reflexivity.
Qed.

Lemma missing_loop_names cols l acc w :
  missing_loop cols (ItemStr <$> l) acc w =
    (Ok (acc ++ List.filter (fun s => negb (bool_decide (s ∈ cols))) l)%list, w).
Proof.
  revert acc. induction l as [|s l IH]; intros acc; simpl.
  - by rewrite app_nil_r.
  - unfold mbind, M_bind. simpl. rewrite IH.
    destruct (bool_decide (s ∈ cols)); simpl; [reflexivity|].
    by rewrite <- app_assoc.
Qed.

Lemma missing_loop_items cols v w :
  missing_loop cols (py_iter v) [] w =
    (match hashable_items v with
     | Some l =>
         Ok (List.filter (fun s => negb (bool_decide (s ∈ cols))) l)
     | None => Raise (TypeError "unhashable type: 'dict'")
     end, w).
Proof.
  destruct v as [[|kv l]|l]; simpl; try reflexivity.
  apply (missing_loop_names cols l []).
Qed.

Lemma missing_columns_nil numerical df :
  missing_columns numerical df = [] <->
  numerical_columns_present numerical df = true.
Proof.
  unfold missing_columns, numerical_columns_present.
  induction numerical as [|s l IH]; simpl; [tauto|].
  destruct (bool_decide (s ∈ columns df)); simpl; [exact IH|].
  split; discriminate.
Qed.

Lemma is_numerical_column_exist_run self df w :
  is_numerical_column_exist self df w =
    match _schema_config self !! "numerical_columns" with
    | None =>
        (Raise (NetworkSecurityException (KeyError "numerical_columns")),
         records [EvEnter (CallIsNumericalColumnExist df)] w)
    | Some v =>
        match hashable_items v with
        | None =>
            (Raise (NetworkSecurityException
                      (TypeError "unhashable type: 'dict'")),
             records [EvEnter (CallIsNumericalColumnExist df)] w)
        | Some numerical =>
            (Ok (numerical_columns_present numerical df),
             records
               (EvEnter (CallIsNumericalColumnExist df) ::
                match missing_columns numerical df with
                | [] => []
                | missing => [EvLog (LogMissingNumerical missing)]
                end) w)
        end
    end.
Proof.
  unfold is_numerical_column_exist, schema_getitem, try_wrap, mbind, M_bind,
    emit, modify.
  destruct (_schema_config self !! "numerical_columns") as [v|]; simpl;
    [|reflexivity].
  rewrite missing_loop_items.
  destruct (hashable_items v) as [numerical|]; [|reflexivity].
  fold (missing_columns numerical df).
  pose proof (missing_columns_nil numerical df) as Hnil.
  destruct (missing_columns numerical df) as [|m ms]; simpl.
  - destruct Hnil as [-> _]; reflexivity.
  - destruct (numerical_columns_present numerical df).
    + destruct Hnil as [_ Hnil]. discriminate Hnil. reflexivity.
    + unfold logging_info, emit, modify.
      by rewrite !record_records, records_records.
Qed.

End Operations.

(** ** The report dictionary *)

Section Dict.

Implicit Types (d : report_dict) (k : string) (v : drift_entry).

Lemma dict_get_update d k v k' :
  dict_get (dict_update d k v) k' =
    if String.eqb k k' then Some v else dict_get d k'.
Proof.
  induction d as [|[k0 v0] d IH]; simpl.
  - reflexivity.
  - destruct (String.eqb k0 k) eqn:E0; simpl.
    + apply String.eqb_eq in E0 as ->.
      destruct (String.eqb k k'); reflexivity.
    + rewrite IH. destruct (String.eqb k0 k') eqn:E1; [|reflexivity].
      apply String.eqb_eq in E1 as ->.
      rewrite String.eqb_sym in E0. by rewrite E0.
Qed.

Lemma dict_update_keys_in d k v :
  k ∈ d.*1 -> (dict_update d k v).*1 = d.*1.
Proof.
  induction d as [|[k0 v0] d IH]; simpl; intros Hin.
  - by apply elem_of_nil in Hin.
  - destruct (String.eqb k0 k) eqn:E0; simpl.
    + apply String.eqb_eq in E0 as ->. reflexivity.
    + apply String.eqb_neq in E0. f_equal. apply IH.
      apply elem_of_cons in Hin as [->|Hin]; [done|exact Hin].
Qed.

Lemma dict_update_keys_notin d k v :
  k ∉ d.*1 -> (dict_update d k v).*1 = (d.*1 ++ [k])%list.
Proof.
  induction d as [|[k0 v0] d IH]; simpl; intros Hin.
  - reflexivity.
  - apply not_elem_of_cons in Hin as [Hne Hin].
    destruct (String.eqb k0 k) eqn:E0; simpl.
    + apply String.eqb_eq in E0. congruence.
    + f_equal. by apply IH.
Qed.

Lemma dict_get_None_key d k : dict_get d k = None <-> k ∉ d.*1.
Proof.
  induction d as [|[k0 v0] d IH]; simpl.
  - split; [intros _; apply not_elem_of_nil|done].
  - rewrite not_elem_of_cons. destruct (String.eqb k0 k) eqn:E0.
    + apply String.eqb_eq in E0 as ->. split; [discriminate|tauto].
    + apply String.eqb_neq in E0. rewrite IH. split; [|tauto].
      intros H. split; [congruence|exact H].
Qed.

End Dict.

(** ** Column selection *)

Lemma filter_label_nil (df : DataFrame) column :
  List.filter (fun c => String.eqb c.1 column) df = [] <-> column ∉ columns df.
Proof.
  unfold columns. induction df as [|[k s] df IH]; simpl.
  - split; [intros _; apply not_elem_of_nil|done].
  - rewrite not_elem_of_cons. destruct (String.eqb k column) eqn:E.
    + apply String.eqb_eq in E as ->. split; [discriminate|tauto].
    + apply String.eqb_neq in E. rewrite IH. split; [|tauto].
      intros H. split; [congruence|exact H].
Qed.

Lemma select_Ok (df : DataFrame) column :
  column ∈ columns df <-> exists s, select df column = Ok s.
Proof.
  pose proof (filter_label_nil df column) as Hnil. unfold select.
  destruct (List.filter _ df) as [|c [|c' l]].
  - split; [intros Hin; by apply Hnil in Hin|intros [s Hs]; discriminate Hs].
  - split; [eauto|]. intros _.
    destruct (decide (column ∈ columns df)) as [Hin|Hin]; [exact Hin|].
    apply Hnil in Hin. discriminate Hin.
  - split; [eauto|]. intros _.
    destruct (decide (column ∈ columns df)) as [Hin|Hin]; [exact Hin|].
    apply Hnil in Hin. discriminate Hin.
Qed.

Lemma select_Raise (df : DataFrame) column e :
  select df column = Raise e -> e = KeyError column ∧ column ∉ columns df.
Proof.
  pose proof (filter_label_nil df column) as Hnil. unfold select.
  destruct (List.filter _ df) as [|c [|c' l]]; intros [= <-].
  split; [reflexivity|]. by apply Hnil.
Qed.

(** ** The drift loop, column by column *)

Section DriftLoopFacts.

Variable ks_2samp : selection -> selection -> result KstestResult.
Variable fault : list event -> event -> option exn.
Variables base_df current_df : DataFrame.
Variable threshold : float.

Lemma getitem_run df column w : getitem df column w = (select df column, w).
Proof.
  unfold getitem, select.
  destruct (List.filter _ df) as [|c [|c' l]]; reflexivity.
Qed.

Lemma drift_loop_run cols drift report w :
  drift_loop ks_2samp base_df current_df threshold cols drift report w =
    (drift_fold ks_2samp base_df current_df threshold cols drift report, records (drift_events ks_2samp base_df current_df cols) w).
Proof.
  revert drift report w. induction cols as [|column rest IH];
    intros drift report w; simpl.
  - by rewrite records_nil.
  - unfold mbind, M_bind, compare_column. rewrite !getitem_run.
    destruct (select base_df column) as [d1|e]; [|by rewrite records_nil].
    destruct (select current_df column) as [d2|e]; [|by rewrite records_nil].
    unfold call_ks_2samp, mbind, M_bind, emit, modify. simpl.
    destruct (ks_2samp d1 d2) as [r|e]; simpl; [|reflexivity].
    destruct (PyFloat.ge (pvalue r) threshold); simpl;
      rewrite IH, record_records, records_records; simpl;
      [by rewrite orb_false_r|by rewrite orb_true_r].
Qed.

Lemma drift_events_ks cols :
  Forall (fun ev => exists d1 d2, ev = EvKs2samp d1 d2) (drift_events ks_2samp base_df current_df cols).
Proof.
  induction cols as [|column rest IH]; simpl; [constructor|].
  destruct (select base_df column) as [d1|]; [|constructor].
  destruct (select current_df column) as [d2|]; [|constructor].
  constructor; [eauto|]. destruct (ks_2samp d1 d2); [exact IH|constructor].
Qed.

(** When the loop completes, no KS call has failed. *)
Lemma drift_events_no_failure cols drift report out hist :
  drift_fold ks_2samp base_df current_df threshold cols drift report = Ok out ->
  no_failure ks_2samp fault hist (drift_events ks_2samp base_df current_df cols).
Proof.
  revert drift report hist. induction cols as [|column rest IH];
    intros drift report hist; simpl; [done|].
  unfold compare_column.
  destruct (select base_df column) as [d1|]; [|discriminate].
  destruct (select current_df column) as [d2|]; [|discriminate].
  destruct (ks_2samp d1 d2) as [r|] eqn:Hks; [|discriminate].
  intros H. simpl. rewrite Hks. split; [reflexivity|]. eapply IH, H.
Qed.

(** The keys of the report: those it had, then the new columns. *)
Lemma drift_fold_keys cols drift report drift' report' c :
  drift_fold ks_2samp base_df current_df threshold cols drift report = Ok (drift', report') ->
  c ∈ report'.*1 <-> c ∈ report.*1 ∨ c ∈ cols.
Proof.
  revert drift report. induction cols as [|column rest IH];
    intros drift report; simpl.
  - intros [= <- <-]. rewrite elem_of_nil. tauto.
  - destruct (compare_column ks_2samp base_df current_df threshold column) as [entry|]; [|discriminate].
    intros H. rewrite (IH _ _ H), elem_of_cons.
    destruct (decide (column ∈ report.*1)) as [Hin|Hin].
    + rewrite (dict_update_keys_in _ _ _ Hin).
      split; [tauto|]. intros [?|[->|?]]; tauto.
    + rewrite (dict_update_keys_notin _ _ _ Hin), elem_of_app,
        list_elem_of_singleton. tauto.
Qed.

Lemma drift_fold_NoDup cols drift report drift' report' :
  drift_fold ks_2samp base_df current_df threshold cols drift report = Ok (drift', report') ->
  NoDup report.*1 -> NoDup report'.*1.
Proof.
  revert drift report. induction cols as [|column rest IH];
    intros drift report; simpl.
  - by intros [= <- <-].
  - destruct (compare_column ks_2samp base_df current_df threshold column) as [entry|]; [|discriminate].
    intros H Hnd. apply (IH _ _ H).
    destruct (decide (column ∈ report.*1)) as [Hin|Hin].
    + by rewrite (dict_update_keys_in _ _ _ Hin).
    + rewrite (dict_update_keys_notin _ _ _ Hin). apply NoDup_app.
      split; [exact Hnd|]. split; [|apply NoDup_singleton].
      intros x Hx. rewrite list_elem_of_singleton. congruence.
Qed.

(** With distinct new column labels the keys are appended in column
    order. *)
Lemma drift_fold_order cols drift report drift' report' :
  drift_fold ks_2samp base_df current_df threshold cols drift report = Ok (drift', report') ->
  NoDup cols -> (forall c, c ∈ cols -> c ∉ report.*1) ->
  report'.*1 = (report.*1 ++ cols)%list.
Proof.
  revert drift report. induction cols as [|column rest IH];
    intros drift report; simpl.
  - intros [= <- <-] _ _. by rewrite app_nil_r.
  - destruct (compare_column ks_2samp base_df current_df threshold column) as [entry|]; [|discriminate].
    intros H Hnd Hfresh. apply NoDup_cons in Hnd as [Hcol Hnd].
    assert (column ∉ report.*1) as Hout by (apply Hfresh; left).
    rewrite (IH _ _ H Hnd).
    + rewrite (dict_update_keys_notin _ _ _ Hout), <- app_assoc.
      reflexivity.
    + intros c Hc. rewrite (dict_update_keys_notin _ _ _ Hout),
        not_elem_of_app, list_elem_of_singleton.
      split; [apply Hfresh; by right|]. intros ->. contradiction.
Qed.

(** Every entry of the report is the comparison of its column. *)
Lemma drift_fold_entries cols drift report drift' report' :
  drift_fold ks_2samp base_df current_df threshold cols drift report = Ok (drift', report') ->
  (forall c e, dict_get report c = Some e -> compare_column ks_2samp base_df current_df threshold c = Ok e) ->
  forall c e, dict_get report' c = Some e -> compare_column ks_2samp base_df current_df threshold c = Ok e.
Proof.
  revert drift report. induction cols as [|column rest IH];
    intros drift report; simpl.
  - by intros [= <- <-].
  - destruct (compare_column ks_2samp base_df current_df threshold column) as [entry|] eqn:Hc; [|discriminate].
    intros H Hinv. apply (IH _ _ H). intros c e.
    rewrite dict_get_update. destruct (String.eqb column c) eqn:E.
    + apply String.eqb_eq in E as <-. intros [= <-]. exact Hc.
    + apply Hinv.
Qed.

(** The flag is the disjunction over the compared columns. *)
Lemma drift_fold_flag cols drift report drift' report' :
  drift_fold ks_2samp base_df current_df threshold cols drift report = Ok (drift', report') ->
  drift' = true <->
  drift = true ∨
  exists c e, c ∈ cols ∧ compare_column ks_2samp base_df current_df threshold c = Ok e ∧ drift_status e = true.
Proof.
  revert drift report. induction cols as [|column rest IH];
    intros drift report; simpl.
  - intros [= <- <-]. split; [tauto|]. intros [?|(c & e & Hc & _)]; [done|].
    by apply elem_of_nil in Hc.
  - destruct (compare_column ks_2samp base_df current_df threshold column) as [entry|] eqn:Hc; [|discriminate].
    intros H. rewrite (IH _ _ H), orb_true_iff. split.
    + intros [[?|Hd]|(c & e & Hin & He & Hs)]; [tauto| |].
      * right. exists column, entry. split; [left|done].
      * right. exists c, e. split; [by right|done].
    + intros [?|(c & e & Hin & He & Hs)]; [tauto|].
      apply elem_of_cons in Hin as [->|Hin].
      * left. right. congruence.
      * right. eauto.
Qed.

End DriftLoopFacts.

(** ** The drift detector, run by run *)

Section RunsFacts.

Variable ks_2samp : selection -> selection -> result KstestResult.
Variable fault : list event -> event -> option exn.
Variable self : DataValidation.

Let cfg := data_validation_config self.

Lemma detect_dataset_drift_Ok base_df current_df threshold w drift w' :
  detect_dataset_drift ks_2samp fault self base_df current_df threshold w
    = (Ok drift, w') ->
  exists report,
    drift_fold ks_2samp base_df current_df threshold (columns base_df) false []
      = Ok (drift, report) ∧
    files w' = <[drift_report_file_path cfg := YamlFile report]> (files w) ∧
    dirs w' = {[PosixPath.dirname (drift_report_file_path cfg)]} ∪ dirs w ∧
    trace w' =
      trace w ++ detect_events ks_2samp self base_df current_df threshold report ∧
    no_failure ks_2samp fault (trace w)
      (detect_events ks_2samp self base_df current_df threshold report).
Proof.
  unfold detect_dataset_drift, detect_events. intros H.
  apply bind_Ok_inv in H as (u1 & w0 & Hemit & H0).
  injection Hemit as _ Hw0; subst w0.
  apply try_wrap_Ok_inv in H0.
  apply bind_Ok_inv in H0 as ([d report] & w1 & Hloop & H1).
  rewrite drift_loop_run in Hloop. injection Hloop as Hfold Hw1; subst w1.
  apply bind_Ok_inv in H1 as (u2 & w2 & Hmk & H2).
  apply bind_Ok_inv in H2 as (u3 & w3 & Hwr & Hret).
  injection Hret as Hd Hw3; subst d w3.
  rewrite os_makedirs_run in Hmk.
  destruct (fault _ _) eqn:Hf1 in Hmk; [discriminate|].
  destruct (String.eqb _ _) in Hmk; [discriminate|].
  injection Hmk as _ Hw2; subst w2.
  rewrite write_yaml_file_run in Hwr.
  destruct (fault _ _) eqn:Hf2 in Hwr; [discriminate|].
  injection Hwr as _ Hw3; subst w'.
  exists report. fold cfg. simpl. split; [exact Hfold|].
  split; [reflexivity|]. split; [reflexivity|]. split.
  - rewrite <- !app_assoc. reflexivity.
  - split; [reflexivity|]. apply no_failure_app. split.
    + eapply drift_events_no_failure, Hfold.
    + simpl in Hf1, Hf2. rewrite <- !app_assoc in Hf1, Hf2. simpl in Hf2.
      rewrite <- ?app_assoc in Hf2. simpl in Hf2.
      simpl. rewrite <- !app_assoc. simpl. fold cfg in Hf1, Hf2. auto.
Qed.

(** A failing detector run leaves the files alone, and what it raises is
    wrapped. *)
Lemma detect_dataset_drift_Raise base_df current_df threshold w e w' :
  detect_dataset_drift ks_2samp fault self base_df current_df threshold w
    = (Raise e, w') ->
  files w' = files w ∧
  (exists e0, e = NetworkSecurityException e0) ∧
  exists evs,
    trace w' =
      trace w ++
      EvEnter (CallDetectDatasetDrift base_df current_df threshold) :: evs ∧
    Forall (fun ev => is_detect_call ev = false ∧ is_check_call ev = false) evs.
Proof.
  unfold detect_dataset_drift. intros H.
  apply bind_Raise_inv in H as [Hemit|(u4 & w0 & Hemit & H0)];
    [discriminate Hemit|].
  injection Hemit as _ Hw0; subst w0.
  apply try_wrap_Raise_inv in H0 as (e0 & -> & H0).
  assert (Forall (fun ev => is_detect_call ev = false ∧ is_check_call ev = false)
            (drift_events ks_2samp base_df current_df (columns base_df)))
    as Hks.
  { eapply Forall_impl; [apply drift_events_ks|].
    intros ev (d1 & d2 & ->). done. }
  apply bind_Raise_inv in H0 as [H0|([d report] & w1 & Hloop & H1)].
  { rewrite drift_loop_run in H0. injection H0 as _ Hw'; subst w'. simpl.
    split; [reflexivity|]. split; [eauto|]. eexists. split.
    - rewrite <- app_assoc. reflexivity.
    - exact Hks. }
  rewrite drift_loop_run in Hloop. injection Hloop as Hfold Hw1; subst w1.
  apply bind_Raise_inv in H1 as [H1|(u5 & w2 & Hmk & H2)].
  { rewrite os_makedirs_run in H1.
    assert (w' = records [EvMakedirs (PosixPath.dirname
               (drift_report_file_path (data_validation_config self)))]
              (records (drift_events ks_2samp base_df current_df
                         (columns base_df))
                 (record (EvEnter (CallDetectDatasetDrift base_df current_df
                                     threshold)) w))) as ->.
    { destruct (fault _ _) in H1; [by injection H1 as _ Hw'|].
      destruct (String.eqb _ _) in H1; [by injection H1 as _ Hw'|discriminate]. }
    simpl. split; [reflexivity|]. split; [eauto|]. eexists. split.
    - rewrite <- !app_assoc. reflexivity.
    - apply Forall_app. split; [exact Hks|]. by repeat constructor. }
  rewrite os_makedirs_run in Hmk.
  destruct (fault _ _) in Hmk; [discriminate|].
  destruct (String.eqb _ _) in Hmk; [discriminate|].
  injection Hmk as _ Hw2; subst w2.
  apply bind_Raise_inv in H2 as [H2|(u6 & w3 & _ & Hret)];
    [|discriminate Hret].
  rewrite write_yaml_file_run in H2.
  destruct (fault _ _) in H2; [|discriminate]. injection H2 as _ Hw'; subst w'.
  simpl. split; [reflexivity|]. split; [eauto|]. eexists. split.
  - rewrite <- !app_assoc. reflexivity.
  - apply Forall_app. split; [exact Hks|]. by repeat constructor.
Qed.

End RunsFacts.

(** ** The orchestrator, run by run *)

Section OrchestratorFacts.

Variable ks_2samp : selection -> selection -> result KstestResult.
Variable fault : list event -> event -> option exn.
Variable self : DataValidation.

Let cfg := data_validation_config self.
Let train_file_path := trained_file_path (data_ingestion_artifact self).
Let test_file_path := test_file_path (data_ingestion_artifact self).

(** The four [if not status: validation_status = False] statements
    compute a conjunction. *)
Lemma accumulated_status (s1 s2 s3 s4 : bool) :
  (if negb s4 then false
   else if negb s3 then false
   else if negb s2 then false
   else if negb s1 then false else true) = s1 && s2 && s3 && s4.
Proof. by destruct s1, s2, s3, s4. Qed.

Lemma initiate_data_validation_Ok w art w' :
  initiate_data_validation ks_2samp fault self w = (Ok art, w') ->
  exists train test cols nv numerical report,
    files w !! train_file_path = Some (CsvFile train) ∧
    files w !! test_file_path = Some (CsvFile test) ∧
    _schema_config self !! "columns" = Some cols ∧
    _schema_config self !! "numerical_columns" = Some nv ∧
    hashable_items nv = Some numerical ∧
    let status := structural_checks cols numerical train test in
    art = artifact_of self status ∧
    (status = true ->
     exists drift,
       drift_fold ks_2samp train test default_threshold (columns train)
         false [] = Ok (drift, report)) ∧
    files w' =
      persist_files self status train test (stage_files self status report (files w)) ∧
    trace w' = trace w ++ run_events ks_2samp self cols numerical train test report ∧
    no_failure ks_2samp fault (trace w)
      (run_events ks_2samp self cols numerical train test report).
Proof.
  unfold initiate_data_validation. intros H.
  apply try_wrap_Ok_inv in H. fold cfg train_file_path test_file_path in H.
  apply bind_Ok_inv in H as (train & w1 & Hr1 & H).
  rewrite read_data_run in Hr1.
  destruct (fault _ _) eqn:Hf1 in Hr1; [discriminate|].
  destruct (files w !! train_file_path) as [[df1|]|] eqn:Hfile1;
    try discriminate.
  injection Hr1 as Hdf1 Hw1; subst df1 w1.
  apply bind_Ok_inv in H as (test & w2 & Hr2 & H).
  rewrite read_data_run in Hr2.
  destruct (fault _ _) eqn:Hf2 in Hr2; [discriminate|].
  change (files (records _ w)) with (files w) in Hr2.
  destruct (files w !! test_file_path) as [[df2|]|] eqn:Hfile2;
    try discriminate.
  injection Hr2 as Hdf2 Hw2; subst df2 w2.
  apply bind_Ok_inv in H as (s1 & w3 & Hc1 & H).
  rewrite validate_number_of_columns_run in Hc1.
  destruct (_schema_config self !! "columns") as [cols|] eqn:Hcols;
    [|discriminate].
  injection Hc1 as Hs1 Hw3; subst s1 w3.
  apply bind_Ok_inv in H as (s2 & w4 & Hc2 & H).
  rewrite validate_number_of_columns_run, Hcols in Hc2.
  injection Hc2 as Hs2 Hw4; subst s2 w4.
  apply bind_Ok_inv in H as (s3 & w5 & Hn1 & H).
  rewrite is_numerical_column_exist_run in Hn1.
  destruct (_schema_config self !! "numerical_columns") as [nv|] eqn:Hnum;
    [|discriminate].
  destruct (hashable_items nv) as [numerical|] eqn:Hitems; [|discriminate].
  injection Hn1 as Hs3 Hw5; subst s3 w5.
  apply bind_Ok_inv in H as (s4 & w6 & Hn2 & H).
  rewrite is_numerical_column_exist_run, Hnum, Hitems in Hn2.
  injection Hn2 as Hs4 Hw6; subst s4 w6.
  rewrite !records_records in H. simpl in H.
  rewrite accumulated_status in H.
  fold (structural_checks cols numerical train test) in H.
  remember (structural_checks cols numerical train test) as status
    eqn:Hstatus.
  set (evs0 := _ :: _) in H.
  assert (evs0 = (load_events self) ++ check_events cols numerical train test)
    as Hevs0 by reflexivity.
  assert (no_failure ks_2samp fault (trace w) evs0) as Hnf0.
  { rewrite Hevs0. apply no_failure_app. split.
    - simpl in Hf2. rewrite <- !app_assoc in Hf2. simpl in Hf2.
      simpl. rewrite <- !app_assoc. simpl. auto.
    - apply no_failure_silent. unfold check_events, numerical_events.
      rewrite !forallb_app. simpl.
      destruct (missing_columns numerical train),
        (missing_columns numerical test); reflexivity. }
  clearbody evs0. clear Hf1 Hf2.
  apply bind_Ok_inv in H as (u1 & w7 & Hd & H).
  assert (exists report,
    (status = true ->
     exists drift,
       drift_fold ks_2samp train test default_threshold (columns train)
         false [] = Ok (drift, report)) ∧
    files w7 = stage_files self status report (files w) ∧
    trace w7 = trace w ++ evs0 ++ stage_events ks_2samp self status train test report ∧
    no_failure ks_2samp fault (trace w ++ evs0)
      (stage_events ks_2samp self status train test report)) as (report & Hrep & Hfs7 & Htr7 & Hnf7).
  { unfold stage_files, stage_events. destruct status.
    - apply bind_Ok_inv in Hd as (drift & w7' & Hd & Hret).
      injection Hret as _ Hw7; subst w7'.
      apply detect_dataset_drift_Ok in Hd
        as (report & Hfold & Hfs & _ & Htr & Hnf).
      exists report. simpl in Hfs, Htr, Hnf.
      split; [eauto|]. split; [exact Hfs|]. split; [|exact Hnf].
      rewrite Htr, <- app_assoc. reflexivity.
    - injection Hd as _ Hw7; subst w7. exists []. simpl.
      split; [discriminate|]. split; [reflexivity|].
      split; [by rewrite app_nil_r|done]. }
  clear Hd.
  assert (art = artifact_of self status ∧
          files w' = persist_files self status train test (files w7) ∧
          trace w' = trace w7 ++ persist_events self status train test ∧
          no_failure ks_2samp fault (trace w7)
            (persist_events self status train test)) as (Hart & Hfs & Htr & Hnf).
  { unfold persist_files, persist_events.
    apply bind_Ok_inv in H as (u2 & w8 & Hmk & H).
    rewrite os_makedirs_run in Hmk.
    destruct (fault _ _) eqn:Hf1 in Hmk; [discriminate|].
    destruct (String.eqb _ _) in Hmk; [discriminate|].
    injection Hmk as _ Hw8; subst w8.
    apply bind_Ok_inv in H as (u3 & w9 & Hcsv & H).
    apply bind_Ok_inv in H as (u4 & w10 & Hlog & Hret).
    injection Hlog as _ Hw10; subst w10.
    injection Hret as Hart Hw'; subst art w'.
    destruct status.
    - apply bind_Ok_inv in Hcsv as (u5 & w11 & Hc1 & Hc2).
      rewrite to_csv_run in Hc1.
      destruct (fault _ _) eqn:Hf2 in Hc1; [discriminate|].
      injection Hc1 as _ Hw11; subst w11.
      rewrite to_csv_run in Hc2.
      destruct (fault _ _) eqn:Hf3 in Hc2; [discriminate|].
      injection Hc2 as _ Hw9; subst w9.
      simpl in Hf2, Hf3. rewrite <- ?app_assoc in Hf3. simpl in Hf3.
      simpl. rewrite <- !app_assoc. simpl. auto 10.
    - apply bind_Ok_inv in Hcsv as (u5 & w11 & Hc1 & Hc2).
      rewrite to_csv_run in Hc1.
      destruct (fault _ _) eqn:Hf2 in Hc1; [discriminate|].
      injection Hc1 as _ Hw11; subst w11.
      rewrite to_csv_run in Hc2.
      destruct (fault _ _) eqn:Hf3 in Hc2; [discriminate|].
      injection Hc2 as _ Hw9; subst w9.
      simpl in Hf2, Hf3. rewrite <- ?app_assoc in Hf3. simpl in Hf3.
      simpl. rewrite <- !app_assoc. simpl. auto 10. }
  exists train, test, cols, nv, numerical, report.
  do 5 (split; [reflexivity || assumption|]).
  unfold run_events. cbv zeta. rewrite <- Hstatus.
  split; [exact Hart|]. split; [exact Hrep|].
  split; [by rewrite Hfs, Hfs7|].
  rewrite (app_assoc (load_events self)), <- Hevs0.
  split.
  - rewrite Htr, Htr7, <- !app_assoc. reflexivity.
  - apply no_failure_app. split; [exact Hnf0|].
    apply no_failure_app. split; [exact Hnf7|].
    rewrite Htr7, app_assoc in Hnf. exact Hnf.
Qed.

End OrchestratorFacts.

(** ** Selecting calls from the trace of a run *)

Section Selecting.

Variable ks_2samp : selection -> selection -> result KstestResult.
Variable self : DataValidation.

Let cfg := data_validation_config self.

Lemma filter_drift_events (f : event -> bool) base_df current_df cols :
  (forall d1 d2, f (EvKs2samp d1 d2) = false) ->
  List.filter f (drift_events ks_2samp base_df current_df cols) = [].
Proof.
  intros Hf.
  pose proof (drift_events_ks ks_2samp base_df current_df cols) as Hks.
  induction Hks as [|ev evs (d1 & d2 & ->) _ IH]; simpl; [reflexivity|].
  by rewrite Hf.
Qed.

Lemma written_paths_drift_events base_df current_df cols :
  written_paths (drift_events ks_2samp base_df current_df cols) = [].
Proof.
  pose proof (drift_events_ks ks_2samp base_df current_df cols) as Hks.
  induction Hks as [|ev evs (d1 & d2 & ->) _ IH]; simpl; [reflexivity|].
  exact IH.
Qed.

Lemma written_paths_app a b :
  written_paths (a ++ b) = written_paths a ++ written_paths b.
Proof. unfold written_paths. apply omap_app. Qed.

Lemma check_calls_run_events cols numerical train test report :
  List.filter is_check_call
    (run_events ks_2samp self cols numerical train test report) =
  [EvEnter (CallValidateNumberOfColumns train);
   EvEnter (CallValidateNumberOfColumns test);
   EvEnter (CallIsNumericalColumnExist train);
   EvEnter (CallIsNumericalColumnExist test)].
Proof.
  unfold run_events, check_events, numerical_events, stage_events,
    detect_events, persist_events.
  rewrite !List.filter_app. simpl.
  assert (forall st,
    List.filter is_check_call
      (if st : bool
       then EvEnter (CallDetectDatasetDrift train test default_threshold) ::
            drift_events ks_2samp train test (columns train) ++
            [EvMakedirs (PosixPath.dirname
               (drift_report_file_path (data_validation_config self)));
             EvWriteYaml
               (drift_report_file_path (data_validation_config self)) report]
       else []) = []) as ->.
  { intros [|]; simpl; [|reflexivity].
    rewrite List.filter_app, filter_drift_events; done. }
  destruct (missing_columns numerical train),
    (missing_columns numerical test),
    (structural_checks cols numerical train test); reflexivity.
Qed.

Lemma to_csv_run_events cols numerical train test report :
  List.filter is_to_csv
    (run_events ks_2samp self cols numerical train test report) =
  if structural_checks cols numerical train test
  then [EvToCsv (valid_train_file_path cfg) train;
        EvToCsv (valid_test_file_path cfg) test]
  else [EvToCsv (invalid_train_file_path cfg) train;
        EvToCsv (invalid_test_file_path cfg) test].
Proof.
  unfold run_events, check_events, numerical_events, stage_events,
    detect_events, persist_events.
  rewrite !List.filter_app. simpl.
  destruct (missing_columns numerical train),
    (missing_columns numerical test),
    (structural_checks cols numerical train test); simpl;
    rewrite ?List.filter_app, ?filter_drift_events; done.
Qed.

Lemma makedirs_run_events cols numerical train test report :
  List.filter is_makedirs
    (run_events ks_2samp self cols numerical train test report) =
  if structural_checks cols numerical train test
  then [EvMakedirs (PosixPath.dirname (drift_report_file_path cfg));
        EvMakedirs (valid_data_dir cfg)]
  else [EvMakedirs (invalid_data_dir cfg)].
Proof.
  unfold run_events, check_events, numerical_events, stage_events,
    detect_events, persist_events.
  rewrite !List.filter_app. simpl.
  destruct (missing_columns numerical train),
    (missing_columns numerical test),
    (structural_checks cols numerical train test); simpl;
    rewrite ?List.filter_app, ?filter_drift_events; done.
Qed.

Lemma detect_calls_run_events cols numerical train test report :
  List.filter is_detect_call
    (run_events ks_2samp self cols numerical train test report) =
  if structural_checks cols numerical train test
  then [EvEnter (CallDetectDatasetDrift train test default_threshold)]
  else [].
Proof.
  unfold run_events, check_events, numerical_events, stage_events,
    detect_events, persist_events.
  rewrite !List.filter_app. simpl.
  destruct (missing_columns numerical train),
    (missing_columns numerical test),
    (structural_checks cols numerical train test); simpl;
    rewrite ?List.filter_app, ?filter_drift_events; done.
Qed.

Lemma write_yaml_run_events cols numerical train test report :
  List.filter is_write_yaml
    (run_events ks_2samp self cols numerical train test report) =
  if structural_checks cols numerical train test
  then [EvWriteYaml (drift_report_file_path cfg) report]
  else [].
Proof.
  unfold run_events, check_events, numerical_events, stage_events,
    detect_events, persist_events.
  rewrite !List.filter_app. simpl.
  destruct (missing_columns numerical train),
    (missing_columns numerical test),
    (structural_checks cols numerical train test); simpl;
    rewrite ?List.filter_app, ?filter_drift_events; done.
Qed.

Lemma drift_calls_run_events cols numerical train test report :
  structural_checks cols numerical train test = false ->
  List.filter is_drift_event
    (run_events ks_2samp self cols numerical train test report) = [].
Proof.
  intros Hst.
  unfold run_events, check_events, numerical_events, stage_events,
    persist_events.
  rewrite Hst, !List.filter_app. simpl.
  destruct (missing_columns numerical train),
    (missing_columns numerical test); reflexivity.
Qed.

Lemma written_paths_run_events cols numerical train test report :
  written_paths (run_events ks_2samp self cols numerical train test report) =
  if structural_checks cols numerical train test
  then [drift_report_file_path cfg; valid_train_file_path cfg;
        valid_test_file_path cfg]
  else [invalid_train_file_path cfg; invalid_test_file_path cfg].
Proof.
  unfold run_events, check_events, numerical_events, stage_events,
    detect_events, persist_events.
  rewrite !written_paths_app. simpl.
  destruct (missing_columns numerical train),
    (missing_columns numerical test),
    (structural_checks cols numerical train test); simpl;
    rewrite ?written_paths_app, ?written_paths_drift_events; done.
Qed.

End Selecting.

(** ** Composing bounds on the calls made *)

Section Appends.

Context {A B : Type} (P : event -> Prop).

Lemma appends_ret (a : A) : appends P (mret a).
Proof.
  intros w r w' [= <- <-]. exists []. split; [by rewrite app_nil_r|constructor].
Qed.

Lemma appends_raise (e : exn) : appends P (raise e : M A).
Proof.
  intros w r w' [= <- <-]. exists []. split; [by rewrite app_nil_r|constructor].
Qed.

Lemma appends_bind (m : M A) (f : A -> M B) :
  appends P m -> (forall a, appends P (f a)) -> appends P (m ≫= f).
Proof.
  intros Hm Hf w r w' H. unfold mbind, M_bind in H.
  destruct (m w) as [[a|e] w1] eqn:Hmw.
  - destruct (Hm _ _ _ Hmw) as (evs1 & Htr1 & HP1).
    destruct (Hf a _ _ _ H) as (evs2 & Htr2 & HP2).
    exists (evs1 ++ evs2). split; [by rewrite Htr2, Htr1, app_assoc|].
    by apply Forall_app.
  - injection H as <- <-. exact (Hm _ _ _ Hmw).
Qed.

Lemma appends_try_wrap (m : M A) : appends P m -> appends P (try_wrap m).
Proof.
  intros Hm w r w' H. unfold try_wrap in H.
  destruct (m w) as [[a|e] w1] eqn:Hmw; injection H as <- <-;
    exact (Hm _ _ _ Hmw).
Qed.

End Appends.

Section AppendsOperations.

Variable fault : list event -> event -> option exn.
Variable P : event -> Prop.

Lemma appends_emit ev : P ev -> appends P (emit ev).
Proof.
  intros HP w r w' [= <- <-]. exists [ev]. split; [reflexivity|].
  by constructor.
Qed.

Lemma appends_extern ev : P ev -> appends P (extern fault ev).
Proof.
  intros HP w r w' H. rewrite extern_run in H. injection H as _ <-.
  exists [ev]. split; [reflexivity|]. by constructor.
Qed.

Lemma appends_modify (f : world -> world) :
  (forall w, trace (f w) = trace w) -> appends P (modify f).
Proof.
  intros Hf w r w' [= <- <-]. exists []. split; [|constructor].
  by rewrite Hf, app_nil_r.
Qed.

Lemma appends_os_makedirs path :
  P (EvMakedirs path) -> appends P (os_makedirs fault path).
Proof.
  intros HP. unfold os_makedirs.
  apply appends_bind; [by apply appends_extern|]. intros _.
  destruct (String.eqb path ""); [apply appends_raise|].
  by apply appends_modify.
Qed.

Lemma appends_to_csv df path :
  P (EvToCsv path df) -> appends P (to_csv fault df path).
Proof.
  intros HP. unfold to_csv.
  apply appends_bind; [by apply appends_extern|]. intros _.
  by apply appends_modify.
Qed.

End AppendsOperations.

(** ** Runs that do not complete *)

Section Stages.

Variable ks_2samp : selection -> selection -> result KstestResult.
Variable fault : list event -> event -> option exn.
Variable self : DataValidation.

Let cfg := data_validation_config self.
Let train_file_path := trained_file_path (data_ingestion_artifact self).
Let test_file_path := test_file_path (data_ingestion_artifact self).

Lemma filter_Forall_false (f : event -> bool) (evs : list event) :
  Forall (fun ev => f ev = false) evs -> List.filter f evs = [].
Proof.
  induction 1 as [|ev evs Hev _ IH]; simpl; [reflexivity|]. by rewrite Hev.
Qed.

(** The trace of a run that stopped in its first statements: explicit, and
    free of the calls [f] selects. *)
Ltac quiet_trace :=
  rewrite ?List.filter_app; simpl;
  repeat match goal with
         | |- context [missing_columns ?a ?b] => destruct (missing_columns a b)
         end;
  reflexivity.

(** One statement of a [try] body: its outcome is named, and the body
    continues or raises accordingly. *)
Tactic Notation "step" hyp(H) "as" ident(a) ident(e) ident(w1) ident(Hm) :=
  match type of H with
  | try_wrap (?m ≫= _) ?w0 = _ =>
      destruct (m w0) as [[a|e] w1] eqn:Hm;
      [rewrite (try_wrap_bind_Ok _ _ _ _ _ Hm) in H
      |rewrite (try_wrap_bind_Raise _ _ _ _ _ Hm) in H; injection H as <- <-];
      cbv beta in *
  end.

(** The stages of a run, whatever its outcome: it stops while loading,
    before any check; or it stops in a check, because the schema lacks a key
    or lists mappings where names are expected; or it enters all four checks
    and then, when they all passed, the detector once, and otherwise makes no
    detector call at all. *)
Lemma initiate_data_validation_stages w r w' :
  initiate_data_validation ks_2samp fault self w = (r, w') ->
  exists evs,
    trace w' = trace w ++ evs ∧
    ((List.filter is_check_call evs = [] ∧
      List.filter is_drift_event evs = []) ∨
     exists train test,
       files w !! train_file_path = Some (CsvFile train) ∧
       files w !! test_file_path = Some (CsvFile test) ∧
       ((~ (exists cols nv numerical,
              _schema_config self !! "columns" = Some cols ∧
              _schema_config self !! "numerical_columns" = Some nv ∧
              hashable_items nv = Some numerical) ∧
         List.filter is_drift_event evs = []) ∨
        exists cols nv numerical,
          _schema_config self !! "columns" = Some cols ∧
          _schema_config self !! "numerical_columns" = Some nv ∧
          hashable_items nv = Some numerical ∧
          List.filter is_check_call evs =
            [EvEnter (CallValidateNumberOfColumns train);
             EvEnter (CallValidateNumberOfColumns test);
             EvEnter (CallIsNumericalColumnExist train);
             EvEnter (CallIsNumericalColumnExist test)] ∧
          if structural_checks cols numerical train test
          then List.filter is_detect_call evs =
                 [EvEnter (CallDetectDatasetDrift train test
                             default_threshold)]
          else List.filter is_drift_event evs = [])).
Proof.
  unfold initiate_data_validation. intros H.
  fold cfg train_file_path test_file_path in H.
  step H as train e w1 Hr1; rewrite read_data_run in Hr1.
  2: { injection Hr1 as _ <-. eexists. split; [reflexivity|]. left.
       split; reflexivity. }
  destruct (fault _ _) in Hr1; [discriminate|].
  destruct (files w !! train_file_path) as [[df1|]|] eqn:Hfile1;
    try discriminate.
  injection Hr1 as Hdf1 Hw1; subst df1 w1.
  step H as test e w2 Hr2; rewrite read_data_run in Hr2.
  2: { injection Hr2 as _ <-. rewrite records_records.
       eexists. split; [reflexivity|]. left. split; reflexivity. }
  destruct (fault _ _) in Hr2; [discriminate|].
  change (files (records _ w)) with (files w) in Hr2.
  destruct (files w !! test_file_path) as [[df2|]|] eqn:Hfile2;
    try discriminate.
  injection Hr2 as Hdf2 Hw2; subst df2 w2.
  step H as s1 e w3 Hc1; rewrite validate_number_of_columns_run in Hc1;
    destruct (_schema_config self !! "columns") as [cols|] eqn:Hcols;
    try discriminate.
  2: { injection Hc1 as _ <-. rewrite !records_records.
       eexists. split; [reflexivity|]. right. exists train, test.
       do 2 (split; [reflexivity|]). left. split; [|reflexivity].
       intros (cols' & nv' & numerical' & Hbad & _). discriminate Hbad. }
  injection Hc1 as Hs1 Hw3; subst s1 w3.
  step H as s2 e w4 Hc2; rewrite validate_number_of_columns_run, Hcols in Hc2;
    [|discriminate].
  injection Hc2 as Hs2 Hw4; subst s2 w4.
  step H as s3 e w5 Hn1; rewrite is_numerical_column_exist_run in Hn1;
    destruct (_schema_config self !! "numerical_columns") as [nv|] eqn:Hnum;
    try discriminate.
  3: { injection Hn1 as _ <-. rewrite !records_records.
       eexists. split; [reflexivity|]. right. exists train, test.
       do 2 (split; [reflexivity|]). left. split; [|reflexivity].
       intros (cols' & nv' & numerical' & _ & Hbad & _). discriminate Hbad. }
  2: { destruct (hashable_items nv) eqn:Hitems; [discriminate|].
       injection Hn1 as _ <-. rewrite !records_records.
       eexists. split; [reflexivity|]. right. exists train, test.
       do 2 (split; [reflexivity|]). left. split; [|reflexivity].
       intros (cols' & nv' & numerical' & _ & Hnv & Hbad). congruence. }
  destruct (hashable_items nv) as [numerical|] eqn:Hitems; [|discriminate].
  injection Hn1 as Hs3 Hw5; subst s3 w5.
  step H as s4 e w6 Hn2;
    rewrite is_numerical_column_exist_run, Hnum, Hitems in Hn2;
    [|discriminate].
  injection Hn2 as Hs4 Hw6; subst s4 w6.
  rewrite !records_records in H. simpl in H.
  rewrite accumulated_status in H.
  fold (structural_checks cols numerical train test) in H.
  set (evs0 := _ :: _) in H.
  assert (List.filter is_drift_event evs0 = []) as Hq0
    by (subst evs0; quiet_trace).
  assert (List.filter is_detect_call evs0 = []) as Hd0
    by (subst evs0; quiet_trace).
  assert (List.filter is_check_call evs0 =
            [EvEnter (CallValidateNumberOfColumns train);
             EvEnter (CallValidateNumberOfColumns test);
             EvEnter (CallIsNumericalColumnExist train);
             EvEnter (CallIsNumericalColumnExist test)]) as Hc0
    by (subst evs0; quiet_trace).
  clearbody evs0.
  (* what follows the detector adds neither a detector call nor a check *)
  assert (forall (st : bool) (art : DataValidationArtifact),
    appends (fun ev => is_drift_event ev = false ∧ is_check_call ev = false)
      (try_wrap
         (os_makedirs fault
            (if st then valid_data_dir cfg else invalid_data_dir cfg)
          ≫= λ _ : unit,
            (if st
             then to_csv fault train (valid_train_file_path cfg) ≫=
                  λ _ : unit, to_csv fault test (valid_test_file_path cfg)
             else to_csv fault train (invalid_train_file_path cfg) ≫=
                  λ _ : unit, to_csv fault test (invalid_test_file_path cfg))
            ≫= λ _ : unit,
              logging_info (LogArtifact art) ≫= λ _ : unit, mret art)))
    as Htail.
  { intros st art. apply appends_try_wrap.
    apply appends_bind; [by apply appends_os_makedirs|]. intros _.
    apply appends_bind.
    - destruct st; (apply appends_bind;
        [by apply appends_to_csv|intros _; by apply appends_to_csv]).
    - intros _. apply appends_bind; [by apply appends_emit|].
      intros _. apply appends_ret. }
  assert (forall evs : list event,
    Forall (fun ev => is_drift_event ev = false ∧ is_check_call ev = false)
      evs ->
    List.filter is_drift_event evs = [] ∧
    List.filter is_detect_call evs = [] ∧
    List.filter is_check_call evs = []) as Hquiet.
  { intros evs Hevs. split; [|split]; apply filter_Forall_false;
      (eapply Forall_impl; [exact Hevs|]).
    - by intros ev [? _].
    - intros [[]| | | | | |]; simpl; intros [? _]; congruence.
    - by intros ev [_ ?]. }
  cut (exists rest,
         trace w' = trace w ++ evs0 ++ rest ∧
         List.filter is_check_call rest = [] ∧
         if structural_checks cols numerical train test
         then List.filter is_detect_call rest =
                [EvEnter (CallDetectDatasetDrift train test
                            default_threshold)]
         else List.filter is_drift_event rest = []).
  { intros (rest & Htr & Hcr & Hdr). exists (evs0 ++ rest).
    split; [exact Htr|]. right. exists train, test.
    do 2 (split; [reflexivity|]). right. exists cols, nv, numerical.
    do 3 (split; [reflexivity || assumption|]).
    rewrite !List.filter_app, Hc0, Hcr, Hd0, Hq0, app_nil_r.
    split; [reflexivity|exact Hdr]. }
  destruct (structural_checks cols numerical train test) eqn:Hst.
  - step H as u e w7 Hd.
    + apply bind_Ok_inv in Hd as (drift & w7' & Hd & Hret).
      injection Hret as _ Hw7; subst w7'.
      apply detect_dataset_drift_Ok in Hd
        as (report & _ & _ & _ & Htr7 & _).
      destruct (Htail true _ _ _ _ H) as (evsT & HtrT & HquietT).
      destruct (Hquiet _ HquietT) as (_ & HdT & HcT).
      exists (detect_events ks_2samp self train test default_threshold report
                ++ evsT).
      split.
      { rewrite HtrT, Htr7.
        change (trace (records evs0 w)) with (trace w ++ evs0).
        by rewrite <- !app_assoc. }
      unfold detect_events. rewrite !List.filter_app, HdT, HcT. simpl.
      rewrite !List.filter_app, !filter_drift_events by done.
      split; reflexivity.
    + apply bind_Raise_inv in Hd as [Hd|(drift & w7' & _ & Hret)];
        [|discriminate Hret].
      apply detect_dataset_drift_Raise in Hd
        as (_ & _ & evsD & Htr7 & HquietD).
      exists (EvEnter (CallDetectDatasetDrift train test default_threshold)
                :: evsD).
      split.
      { rewrite Htr7.
        change (trace (records evs0 w)) with (trace w ++ evs0).
        by rewrite <- app_assoc. }
      simpl. split.
      * apply filter_Forall_false.
        eapply Forall_impl; [exact HquietD|]. by intros ev [_ ?].
      * f_equal. apply filter_Forall_false.
        eapply Forall_impl; [exact HquietD|]. by intros ev [? _].
  - step H as u e w7 Hd; [|discriminate Hd].
    injection Hd as _ <-.
    destruct (Htail false _ _ _ _ H) as (evsT & HtrT & HquietT).
    destruct (Hquiet _ HquietT) as (HqT & _ & HcT).
    exists evsT. split.
    { rewrite HtrT.
      change (trace (records evs0 w)) with (trace w ++ evs0).
      by rewrite <- app_assoc. }
    split; assumption.
Qed.

End Stages.

(** ** The structural checks *)

Lemma numerical_columns_present_spec (numerical : list string) (df : DataFrame) :
  numerical_columns_present numerical df = true <->
  forall c, c ∈ numerical -> c ∈ columns df.
Proof.
  unfold numerical_columns_present. rewrite forallb_forall. split.
  - intros H c Hc. apply list_elem_of_In in Hc. apply H in Hc.
    by apply bool_decide_eq_true in Hc.
  - intros H c Hc. apply list_elem_of_In in Hc. apply H in Hc.
    by apply bool_decide_eq_true.
Qed.

(** C7: the column-count check answers true exactly when the dataset has
    as many columns as the schema lists under [columns]; it answers false
    for any other count, and the answer depends on the number of columns
    only, not on their names. *)
Theorem C7_column_count_check (self : DataValidation) (df : DataFrame)
    (w : world) (cols : schema_value) :
  _schema_config self !! "columns" = Some cols ->
  exists b w',
    validate_number_of_columns self df w = (Ok b, w') ∧
    (b = true <-> length (columns df) = py_len cols) ∧
    (b = false <-> length (columns df) <> py_len cols) ∧
    files w' = files w ∧
    forall df' : DataFrame,
      length (columns df') = length (columns df) ->
      exists w'', validate_number_of_columns self df' w = (Ok b, w'').
Proof.
  intros Hcols. exists (column_count_matches cols df). eexists.
  rewrite validate_number_of_columns_run, Hcols.
  split; [reflexivity|]. unfold column_count_matches.
  split; [apply Nat.eqb_eq|]. split; [apply Nat.eqb_neq|].
  split; [reflexivity|].
  intros df' Hlen. eexists.
  rewrite validate_number_of_columns_run, Hcols.
  unfold column_count_matches. rewrite Hlen. reflexivity.
Qed.

Lemma C7_column_count_check_witness :
  exists b w',
    validate_number_of_columns Sample.self Sample.frame_xy
      (Sample.world_of Sample.frame_xy Sample.frame_abc) = (Ok b, w') ∧
    (b = true <-> length (columns Sample.frame_xy) = 2) ∧
    (b = false <-> length (columns Sample.frame_xy) <> 2) ∧
    files w' = files (Sample.world_of Sample.frame_xy Sample.frame_abc) ∧
    forall df' : DataFrame,
      length (columns df') = length (columns Sample.frame_xy) ->
      exists w'',
        validate_number_of_columns Sample.self df'
          (Sample.world_of Sample.frame_xy Sample.frame_abc) = (Ok b, w'').
Proof.
  apply (C7_column_count_check Sample.self Sample.frame_xy
           (Sample.world_of Sample.frame_xy Sample.frame_abc)
           (YColumns [("a", "int64"); ("b", "int64")])).
  reflexivity.
Defined.

(** C6: the numerical-column check answers true exactly when every name
    listed under [numerical_columns] is a column of the dataset.  When it
    answers false it has logged the missing names, which are exactly the
    listed names that are not columns of the dataset, and it returns
    normally instead of raising. *)
Theorem C6_numerical_column_check (self : DataValidation) (df : DataFrame)
    (w : world) (numerical : list string) :
  _schema_config self !! "numerical_columns" = Some (YNames numerical) ->
  exists b w',
    is_numerical_column_exist self df w = (Ok b, w') ∧
    (b = true <-> forall c, c ∈ numerical -> c ∈ columns df) ∧
    files w' = files w ∧
    (b = true ->
     trace w' = trace w ++ [EvEnter (CallIsNumericalColumnExist df)]) ∧
    (b = false ->
     exists missing,
       trace w' =
         trace w ++ [EvEnter (CallIsNumericalColumnExist df);
                     EvLog (LogMissingNumerical missing)] ∧
       forall c, c ∈ missing <-> c ∈ numerical ∧ c ∉ columns df).
Proof.
  intros Hnum. exists (numerical_columns_present numerical df). eexists.
  rewrite is_numerical_column_exist_run, Hnum. simpl.
  split; [reflexivity|]. split; [apply numerical_columns_present_spec|].
  split; [reflexivity|].
  pose proof (missing_columns_nil numerical df) as Hnil.
  split.
  - intros Hb. apply Hnil in Hb. simpl. by rewrite Hb.
  - intros Hb. exists (missing_columns numerical df). split.
    + simpl. destruct (missing_columns numerical df); [|reflexivity].
      destruct Hnil as [Hnil _]. rewrite Hnil in Hb; done.
    + intros c. unfold missing_columns.
      rewrite list_elem_of_In, List.filter_In, <- list_elem_of_In,
        negb_true_iff, bool_decide_eq_false. tauto.
Qed.

Lemma C6_numerical_column_check_witness :
  exists b w',
    is_numerical_column_exist Sample.self Sample.frame_xy
      (Sample.world_of Sample.frame_xy Sample.frame_ab) = (Ok b, w') ∧
    (b = true <-> forall c, c ∈ ["a"] -> c ∈ columns Sample.frame_xy) ∧
    files w' = files (Sample.world_of Sample.frame_xy Sample.frame_ab) ∧
    (b = true ->
     trace w' =
       trace (Sample.world_of Sample.frame_xy Sample.frame_ab) ++
       [EvEnter (CallIsNumericalColumnExist Sample.frame_xy)]) ∧
    (b = false ->
     exists missing,
       trace w' =
         trace (Sample.world_of Sample.frame_xy Sample.frame_ab) ++
         [EvEnter (CallIsNumericalColumnExist Sample.frame_xy);
          EvLog (LogMissingNumerical missing)] ∧
       forall c, c ∈ missing <-> c ∈ ["a"] ∧ c ∉ columns Sample.frame_xy).
Proof.
  apply (C6_numerical_column_check Sample.self Sample.frame_xy
           (Sample.world_of Sample.frame_xy Sample.frame_ab) ["a"]).
  reflexivity.
Defined.

(** ** The orchestrator *)

Lemma validation_status_artifact_of (self : DataValidation) (status : bool) :
  validation_status (artifact_of self status) = status.
Proof. reflexivity. Qed.

(** C1: in a completed run of [initiate_data_validation] the returned
    [validation_status] is the conjunction of the four structural checks on
    the two datasets read, and it does not depend on the KS test or on the
    environment, so drift findings cannot change it.  All four checks are
    entered, in order, whatever the earlier ones answered: with a well-formed
    schema a run, whatever its outcome, either stops while loading, before
    any check, or enters all four. *)
Theorem C1_validation_status_is_conjunction
    (ks_2samp : selection -> selection -> result KstestResult)
    (fault : list event -> event -> option exn)
    (self : DataValidation) (w : world)
    (r : result DataValidationArtifact) (w' : world) :
  initiate_data_validation ks_2samp fault self w = (r, w') ->
  exists evs,
    trace w' = trace w ++ evs ∧
    (forall cols nv numerical,
       _schema_config self !! "columns" = Some cols ->
       _schema_config self !! "numerical_columns" = Some nv ->
       hashable_items nv = Some numerical ->
       List.filter is_check_call evs = [] ∨
       exists train test,
         files w !! trained_file_path (data_ingestion_artifact self)
           = Some (CsvFile train) ∧
         files w !! test_file_path (data_ingestion_artifact self)
           = Some (CsvFile test) ∧
         List.filter is_check_call evs =
           [EvEnter (CallValidateNumberOfColumns train);
            EvEnter (CallValidateNumberOfColumns test);
            EvEnter (CallIsNumericalColumnExist train);
            EvEnter (CallIsNumericalColumnExist test)]) ∧
    forall art,
      r = Ok art ->
      exists train test cols nv numerical,
        files w !! trained_file_path (data_ingestion_artifact self)
          = Some (CsvFile train) ∧
        files w !! test_file_path (data_ingestion_artifact self)
          = Some (CsvFile test) ∧
        _schema_config self !! "columns" = Some cols ∧
        _schema_config self !! "numerical_columns" = Some nv ∧
        hashable_items nv = Some numerical ∧
        validation_status art =
          column_count_matches cols train && column_count_matches cols test &&
          numerical_columns_present numerical train &&
          numerical_columns_present numerical test ∧
        (validation_status art = true <->
         length (columns train) = py_len cols ∧
         length (columns test) = py_len cols ∧
         (forall c, c ∈ numerical -> c ∈ columns train) ∧
         (forall c, c ∈ numerical -> c ∈ columns test)) ∧
        List.filter is_check_call evs =
          [EvEnter (CallValidateNumberOfColumns train);
           EvEnter (CallValidateNumberOfColumns test);
           EvEnter (CallIsNumericalColumnExist train);
           EvEnter (CallIsNumericalColumnExist test)] ∧
        forall ks_2samp' fault' art' w'',
          initiate_data_validation ks_2samp' fault' self w = (Ok art', w'') ->
          validation_status art' = validation_status art.
Proof.
  intros Hrun.
  destruct (initiate_data_validation_stages _ _ _ _ _ _ Hrun)
    as (evs & Htr & Hstages).
  exists evs. split; [exact Htr|]. split.
  { intros cols nv numerical Hcols Hnum Hitems.
    destruct Hstages
      as [[Hc _]|(train & test & Htrain & Htest &
                  [[Hbad _]|(cols' & nv' & numerical' & _ & _ & _ &
                             Hc & _)])].
    - by left.
    - exfalso. apply Hbad. by exists cols, nv, numerical.
    - right. by exists train, test. }
  intros art ->.
  destruct (initiate_data_validation_Ok _ _ _ _ _ _ Hrun)
    as (train & test & cols & nv & numerical & report & Htrain & Htest &
        Hcols & Hnum & Hitems & Hart & _ & _ & Htr' & _).
  rewrite Htr in Htr'. apply app_inv_head in Htr'. subst evs.
  exists train, test, cols, nv, numerical.
  do 5 (split; [assumption|]).
  split; [by rewrite Hart|]. split.
  { rewrite Hart. simpl. unfold structural_checks, column_count_matches.
    rewrite !andb_true_iff, !Nat.eqb_eq, !numerical_columns_present_spec.
    tauto. }
  split; [apply check_calls_run_events|].
  intros ks' fault' art' w'' Hrun'.
  destruct (initiate_data_validation_Ok _ _ _ _ _ _ Hrun')
    as (train' & test' & cols' & nv' & numerical' & report' & Htrain' &
        Htest' & Hcols' & Hnum' & Hitems' & Hart' & _).
  rewrite Hart, Hart'. simpl. congruence.
Qed.

Lemma C1_validation_status_is_conjunction_witness :
  exists evs,
    trace Sample.rejected_run.2 = trace Sample.rejected_world ++ evs ∧
    (forall cols nv numerical,
       Sample.schema !! "columns" = Some cols ->
       Sample.schema !! "numerical_columns" = Some nv ->
       hashable_items nv = Some numerical ->
       List.filter is_check_call evs = [] ∨
       exists train test,
         files Sample.rejected_world !! "ingested/part1.csv"
           = Some (CsvFile train) ∧
         files Sample.rejected_world !! "ingested/part2.csv"
           = Some (CsvFile test) ∧
         List.filter is_check_call evs =
           [EvEnter (CallValidateNumberOfColumns train);
            EvEnter (CallValidateNumberOfColumns test);
            EvEnter (CallIsNumericalColumnExist train);
            EvEnter (CallIsNumericalColumnExist test)]) ∧
    forall art,
      Ok (artifact_of Sample.self false) = Ok art ->
      exists train test cols nv numerical,
        files Sample.rejected_world !! "ingested/part1.csv"
          = Some (CsvFile train) ∧
        files Sample.rejected_world !! "ingested/part2.csv"
          = Some (CsvFile test) ∧
        Sample.schema !! "columns" = Some cols ∧
        Sample.schema !! "numerical_columns" = Some nv ∧
        hashable_items nv = Some numerical ∧
        validation_status art =
          column_count_matches cols train && column_count_matches cols test &&
          numerical_columns_present numerical train &&
          numerical_columns_present numerical test ∧
        (validation_status art = true <->
         length (columns train) = py_len cols ∧
         length (columns test) = py_len cols ∧
         (forall c, c ∈ numerical -> c ∈ columns train) ∧
         (forall c, c ∈ numerical -> c ∈ columns test)) ∧
        List.filter is_check_call evs =
          [EvEnter (CallValidateNumberOfColumns train);
           EvEnter (CallValidateNumberOfColumns test);
           EvEnter (CallIsNumericalColumnExist train);
           EvEnter (CallIsNumericalColumnExist test)] ∧
        forall ks_2samp' fault' art' w'',
          initiate_data_validation ks_2samp' fault' Sample.self
            Sample.rejected_world = (Ok art', w'') ->
          validation_status art' = validation_status art.
Proof.
  apply (C1_validation_status_is_conjunction (Sample.ks_const 1%float)
           Sample.no_fault Sample.self Sample.rejected_world
           (Ok (artifact_of Sample.self false)) Sample.rejected_run.2).
  vm_compute. reflexivity.
Defined.

(** C4: whatever the outcome of a run, the drift detector is entered only
    after both datasets were read and all four structural checks passed, and
    then once, on the train dataset against the test dataset; KS calls and
    report writes happen only inside it.  In a completed run the detector is
    entered exactly when [validation_status] is true, and then it writes the
    drift report; when [validation_status] is false the run enters no
    detector, makes no KS call and writes no report. *)
Theorem C4_drift_detection_gated
    (ks_2samp : selection -> selection -> result KstestResult)
    (fault : list event -> event -> option exn)
    (self : DataValidation) (w : world)
    (r : result DataValidationArtifact) (w' : world) :
  initiate_data_validation ks_2samp fault self w = (r, w') ->
  exists evs,
    trace w' = trace w ++ evs ∧
    (List.filter is_drift_event evs = [] ∨
     exists train test cols nv numerical,
       files w !! trained_file_path (data_ingestion_artifact self)
         = Some (CsvFile train) ∧
       files w !! test_file_path (data_ingestion_artifact self)
         = Some (CsvFile test) ∧
       _schema_config self !! "columns" = Some cols ∧
       _schema_config self !! "numerical_columns" = Some nv ∧
       hashable_items nv = Some numerical ∧
       structural_checks cols numerical train test = true ∧
       List.filter is_detect_call evs =
         [EvEnter (CallDetectDatasetDrift train test default_threshold)]) ∧
    forall art,
      r = Ok art ->
      exists train test,
        files w !! trained_file_path (data_ingestion_artifact self)
          = Some (CsvFile train) ∧
        files w !! test_file_path (data_ingestion_artifact self)
          = Some (CsvFile test) ∧
        List.filter is_detect_call evs =
          (if validation_status art
           then [EvEnter (CallDetectDatasetDrift train test default_threshold)]
           else []) ∧
        (validation_status art = true <->
         EvEnter (CallDetectDatasetDrift train test default_threshold) ∈ evs) ∧
        (validation_status art = true ->
         exists report,
           List.filter is_write_yaml evs =
             [EvWriteYaml
                (drift_report_file_path (data_validation_config self))
                report]) ∧
        (validation_status art = false ->
         List.filter is_drift_event evs = []).
Proof.
  intros Hrun.
  destruct (initiate_data_validation_stages _ _ _ _ _ _ Hrun)
    as (evs & Htr & Hstages).
  exists evs. split; [exact Htr|]. split.
  { destruct Hstages
      as [[_ Hq]|(train & test & Htrain & Htest &
                  [[_ Hq]|(cols & nv & numerical & Hcols & Hnum & Hitems &
                           _ & Hgate)])]; [by left|by left|].
    destruct (structural_checks cols numerical train test) eqn:Hst;
      [|by left].
    right. exists train, test, cols, nv, numerical. done. }
  intros art ->.
  destruct (initiate_data_validation_Ok _ _ _ _ _ _ Hrun)
    as (train & test & cols & nv & numerical & report & Htrain & Htest &
        Hcols & Hnum & Hitems & Hart & _ & _ & Htr' & _).
  rewrite Htr in Htr'. apply app_inv_head in Htr'. subst evs.
  exists train, test. do 2 (split; [assumption|]).
  rewrite Hart, !validation_status_artifact_of.
  pose proof (detect_calls_run_events ks_2samp self cols numerical train test
                report) as Hcalls.
  split; [exact Hcalls|]. split.
  { rewrite list_elem_of_In. split.
    - intros Hst. rewrite Hst in Hcalls.
      eapply (proj1 (List.filter_In is_detect_call _ _)).
      rewrite Hcalls. by left.
    - intros Hin.
      assert (In (EvEnter (CallDetectDatasetDrift train test default_threshold))
                (List.filter is_detect_call
                   (run_events ks_2samp self cols numerical train test report)))
        as Hin' by (apply List.filter_In; done).
      rewrite Hcalls in Hin'.
      destruct (structural_checks cols numerical train test); done. }
  split.
  - intros Hst. exists report. by rewrite write_yaml_run_events, Hst.
  - apply drift_calls_run_events.
Qed.

Lemma C4_drift_detection_gated_witness :
  exists evs,
    trace Sample.accepted_run.2 = trace Sample.accepted_world ++ evs ∧
    (List.filter is_drift_event evs = [] ∨
     exists train test cols nv numerical,
       files Sample.accepted_world !! "ingested/part1.csv"
         = Some (CsvFile train) ∧
       files Sample.accepted_world !! "ingested/part2.csv"
         = Some (CsvFile test) ∧
       Sample.schema !! "columns" = Some cols ∧
       Sample.schema !! "numerical_columns" = Some nv ∧
       hashable_items nv = Some numerical ∧
       structural_checks cols numerical train test = true ∧
       List.filter is_detect_call evs =
         [EvEnter (CallDetectDatasetDrift train test default_threshold)]) ∧
    forall art,
      Ok (artifact_of Sample.self true) = Ok art ->
      exists train test,
        files Sample.accepted_world !! "ingested/part1.csv"
          = Some (CsvFile train) ∧
        files Sample.accepted_world !! "ingested/part2.csv"
          = Some (CsvFile test) ∧
        List.filter is_detect_call evs =
          (if validation_status art
           then [EvEnter (CallDetectDatasetDrift train test default_threshold)]
           else []) ∧
        (validation_status art = true <->
         EvEnter (CallDetectDatasetDrift train test default_threshold) ∈ evs) ∧
        (validation_status art = true ->
         exists report,
           List.filter is_write_yaml evs =
             [EvWriteYaml "artifacts/drift_report/report.yaml" report]) ∧
        (validation_status art = false ->
         List.filter is_drift_event evs = []).
Proof.
  apply (C4_drift_detection_gated (Sample.ks_const 1%float)
           Sample.no_fault Sample.self Sample.accepted_world
           (Ok (artifact_of Sample.self true)) Sample.accepted_run.2).
  vm_compute. reflexivity.
Defined.

(** C3, as stated, fails: with inputs [ingested/part1.csv] and
    [ingested/part2.csv] the accepted train dataset is written at the
    configured [artifacts/validated/train.csv], whose base name is neither
    [part1.csv] nor [part2.csv]. *)
Lemma C3_input_basenames_counterexample :
  ~ writes_under_input_basenames (Sample.ks_const 1%float) Sample.no_fault
      Sample.self Sample.accepted_world.
Proof.
  intros H.
  destruct (H (artifact_of Sample.self true) Sample.accepted_run.2
              (trace Sample.accepted_run.2)
              ltac:(vm_compute; reflexivity) ltac:(reflexivity)
              "artifacts/validated/train.csv" Sample.frame_ab)
    as [_ [Hb|Hb]].
  - vm_compute. apply list_elem_of_In. simpl. tauto.
  - vm_compute in Hb. discriminate Hb.
  - vm_compute in Hb. discriminate Hb.
Qed.

(** C3, amended: the destination is a function of [validation_status]
    alone.  A completed run creates the valid-data directory and writes the
    train and test datasets, as read, at the configured valid train and test
    paths when the status is true, and creates the invalid-data directory
    and writes them at the configured invalid paths when it is false; it
    makes no other dataset write, so none goes to the other pair of paths. *)
Theorem C3_routing_by_status
    (ks_2samp : selection -> selection -> result KstestResult)
    (fault : list event -> event -> option exn)
    (self : DataValidation) (w : world)
    (art : DataValidationArtifact) (w' : world) :
  initiate_data_validation ks_2samp fault self w = (Ok art, w') ->
  let cfg := data_validation_config self in
  let train_dest :=
    if validation_status art
    then valid_train_file_path cfg else invalid_train_file_path cfg in
  let test_dest :=
    if validation_status art
    then valid_test_file_path cfg else invalid_test_file_path cfg in
  exists train test evs,
    files w !! trained_file_path (data_ingestion_artifact self)
      = Some (CsvFile train) ∧
    files w !! test_file_path (data_ingestion_artifact self)
      = Some (CsvFile test) ∧
    trace w' = trace w ++ evs ∧
    List.filter is_to_csv evs =
      [EvToCsv train_dest train; EvToCsv test_dest test] ∧
    List.filter is_makedirs evs =
      (if validation_status art
       then [EvMakedirs (PosixPath.dirname (drift_report_file_path cfg));
             EvMakedirs (valid_data_dir cfg)]
       else [EvMakedirs (invalid_data_dir cfg)]) ∧
    files w' !! test_dest = Some (CsvFile test) ∧
    (train_dest <> test_dest -> files w' !! train_dest = Some (CsvFile train)).
Proof.
  intros Hrun cfg train_dest test_dest.
  destruct (initiate_data_validation_Ok _ _ _ _ _ _ Hrun)
    as (train & test & cols & nv & numerical & report & Htrain & Htest &
        Hcols & Hnum & Hitems & Hart & _ & Hfs & Htr & _).
  exists train, test,
    (run_events ks_2samp self cols numerical train test report).
  do 3 (split; [assumption|]).
  subst train_dest test_dest cfg.
  rewrite Hart, !validation_status_artifact_of, Hfs.
  rewrite to_csv_run_events, makedirs_run_events. unfold persist_files.
  destruct (structural_checks cols numerical train test).
  - split; [reflexivity|]. split; [reflexivity|].
    split; [apply lookup_insert_eq|].
    intros Hne. rewrite lookup_insert_ne by congruence.
    apply lookup_insert_eq.
  - split; [reflexivity|]. split; [reflexivity|].
    split; [apply lookup_insert_eq|].
    intros Hne. rewrite lookup_insert_ne by congruence.
    apply lookup_insert_eq.
Qed.

Lemma C3_routing_by_status_witness :
  exists train test evs,
    files Sample.rejected_world !! "ingested/part1.csv" = Some (CsvFile train) ∧
    files Sample.rejected_world !! "ingested/part2.csv" = Some (CsvFile test) ∧
    trace Sample.rejected_run.2 = trace Sample.rejected_world ++ evs ∧
    List.filter is_to_csv evs =
      [EvToCsv "artifacts/invalid/train.csv" train;
       EvToCsv "artifacts/invalid/test.csv" test] ∧
    List.filter is_makedirs evs = [EvMakedirs "artifacts/invalid"] ∧
    files Sample.rejected_run.2 !! "artifacts/invalid/test.csv"
      = Some (CsvFile test) ∧
    ("artifacts/invalid/train.csv" <> "artifacts/invalid/test.csv" ->
     files Sample.rejected_run.2 !! "artifacts/invalid/train.csv"
       = Some (CsvFile train)).
Proof.
  apply (C3_routing_by_status (Sample.ks_const 1%float)
           Sample.no_fault Sample.self Sample.rejected_world
           (artifact_of Sample.self false) Sample.rejected_run.2).
  vm_compute. reflexivity.
Defined.

(** C10: the artifact of a completed run carries the five configured paths
    whatever the status.  The files the run writes are the two invalid
    outputs when the status is false, and the drift report and the two valid
    outputs when it is true; so, the configured outputs being different
    files, a false status leaves the valid paths and the drift report path
    unwritten, and a true status leaves the invalid paths unwritten. *)
Theorem C10_artifact_paths_always_populated
    (ks_2samp : selection -> selection -> result KstestResult)
    (fault : list event -> event -> option exn)
    (self : DataValidation) (w : world)
    (art : DataValidationArtifact) (w' : world) :
  let cfg := data_validation_config self in
  (forall p q,
     p ∈ [valid_train_file_path cfg; valid_test_file_path cfg;
          drift_report_file_path cfg] ->
     q ∈ [invalid_train_file_path cfg; invalid_test_file_path cfg] ->
     p <> q) ->
  initiate_data_validation ks_2samp fault self w = (Ok art, w') ->
  art_valid_train_file_path art = valid_train_file_path cfg ∧
  art_valid_test_file_path art = valid_test_file_path cfg ∧
  art_invalid_train_file_path art = invalid_train_file_path cfg ∧
  art_invalid_test_file_path art = invalid_test_file_path cfg ∧
  art_drift_report_file_path art = drift_report_file_path cfg ∧
  exists evs,
    trace w' = trace w ++ evs ∧
    written_paths evs =
      (if validation_status art
       then [drift_report_file_path cfg; valid_train_file_path cfg;
             valid_test_file_path cfg]
       else [invalid_train_file_path cfg; invalid_test_file_path cfg]) ∧
    (validation_status art = false ->
     forall p,
       p ∈ [art_valid_train_file_path art; art_valid_test_file_path art;
            art_drift_report_file_path art] ->
       (p ∉ written_paths evs) ∧ files w' !! p = files w !! p) ∧
    (validation_status art = true ->
     forall q,
       q ∈ [art_invalid_train_file_path art; art_invalid_test_file_path art] ->
       (q ∉ written_paths evs) ∧ files w' !! q = files w !! q).
Proof.
  intros cfg Hdistinct Hrun.
  destruct (initiate_data_validation_Ok _ _ _ _ _ _ Hrun)
    as (train & test & cols & nv & numerical & report & Htrain & Htest &
        Hcols & Hnum & Hitems & Hart & _ & Hfs & Htr & _).
  rewrite Hart. do 5 (split; [reflexivity|]).
  exists (run_events ks_2samp self cols numerical train test report).
  split; [exact Htr|].
  rewrite validation_status_artifact_of, written_paths_run_events, Hfs.
  fold cfg. unfold persist_files, stage_files. fold cfg.
  split; [reflexivity|]. simpl. split.
  - intros ->. intros p Hp.
    assert (p <> invalid_train_file_path cfg) as Hne1.
    { apply Hdistinct; [exact Hp|]. apply list_elem_of_In. simpl. tauto. }
    assert (p <> invalid_test_file_path cfg) as Hne2.
    { apply Hdistinct; [exact Hp|]. apply list_elem_of_In. simpl. tauto. }
    split.
    + rewrite !not_elem_of_cons. auto using not_elem_of_nil.
    + by rewrite !lookup_insert_ne.
  - intros ->. intros q Hq.
    assert (valid_train_file_path cfg <> q) as Hne1.
    { apply Hdistinct; [|exact Hq]. apply list_elem_of_In. simpl. tauto. }
    assert (valid_test_file_path cfg <> q) as Hne2.
    { apply Hdistinct; [|exact Hq]. apply list_elem_of_In. simpl. tauto. }
    assert (drift_report_file_path cfg <> q) as Hne3.
    { apply Hdistinct; [|exact Hq]. apply list_elem_of_In. simpl. tauto. }
    split.
    + rewrite !not_elem_of_cons. auto 6 using not_elem_of_nil.
    + by rewrite !lookup_insert_ne.
Qed.

Lemma C10_artifact_paths_always_populated_witness :
  art_valid_train_file_path (artifact_of Sample.self false)
    = "artifacts/validated/train.csv" ∧
  art_valid_test_file_path (artifact_of Sample.self false)
    = "artifacts/validated/test.csv" ∧
  art_invalid_train_file_path (artifact_of Sample.self false)
    = "artifacts/invalid/train.csv" ∧
  art_invalid_test_file_path (artifact_of Sample.self false)
    = "artifacts/invalid/test.csv" ∧
  art_drift_report_file_path (artifact_of Sample.self false)
    = "artifacts/drift_report/report.yaml" ∧
  exists evs,
    trace Sample.rejected_run.2 = trace Sample.rejected_world ++ evs ∧
    written_paths evs =
      ["artifacts/invalid/train.csv"; "artifacts/invalid/test.csv"] ∧
    (false = false ->
     forall p,
       p ∈ ["artifacts/validated/train.csv"; "artifacts/validated/test.csv";
            "artifacts/drift_report/report.yaml"] ->
       (p ∉ written_paths evs) ∧
       files Sample.rejected_run.2 !! p = files Sample.rejected_world !! p) ∧
    (false = true ->
     forall q,
       q ∈ ["artifacts/invalid/train.csv"; "artifacts/invalid/test.csv"] ->
       (q ∉ written_paths evs) ∧
       files Sample.rejected_run.2 !! q = files Sample.rejected_world !! q).
Proof.
  apply (C10_artifact_paths_always_populated (Sample.ks_const 1%float)
           Sample.no_fault Sample.self Sample.rejected_world
           (artifact_of Sample.self false) Sample.rejected_run.2).
  - intros p q Hp Hq. apply list_elem_of_In in Hp, Hq. simpl in Hp, Hq.
    destruct Hp as [<-|[<-|[<-|[]]]], Hq as [<-|[<-|[]]]; discriminate.
  - vm_compute. reflexivity.
Defined.

(** ** The drift detector *)

Section Detector.

Variable ks_2samp : selection -> selection -> result KstestResult.
Variable fault : list event -> event -> option exn.
Variable self : DataValidation.
Variables base_df current_df : DataFrame.
Variable threshold : float.

(** In the report of a completed loop, the entry of a compared column is its
    comparison. *)
Lemma drift_fold_lookup cols drift report c e :
  drift_fold ks_2samp base_df current_df threshold cols false []
    = Ok (drift, report) ->
  c ∈ cols ->
  compare_column ks_2samp base_df current_df threshold c = Ok e <->
  dict_get report c = Some e.
Proof.
  intros Hfold Hc.
  assert (forall c e, dict_get report c = Some e ->
            compare_column ks_2samp base_df current_df threshold c = Ok e)
    as Hentries.
  { eapply drift_fold_entries; [exact Hfold|]. intros c' e' H.
    discriminate H. }
  split; [|apply Hentries].
  intros Hcmp.
  destruct (dict_get report c) as [e'|] eqn:Hget.
  - apply Hentries in Hget. congruence.
  - apply dict_get_None_key in Hget. exfalso. apply Hget.
    apply (drift_fold_keys _ _ _ _ _ _ _ _ _ c Hfold). by right.
Qed.

(** A loop over columns of the base dataset, one of which the current
    dataset lacks, raises: a [KeyError] for such a column, unless a KS call
    on an earlier column raised first. *)
Lemma drift_fold_missing cols drift report c :
  (forall c', c' ∈ cols -> c' ∈ columns base_df) ->
  c ∈ cols -> c ∉ columns current_df ->
  exists e,
    drift_fold ks_2samp base_df current_df threshold cols drift report
      = Raise e ∧
    ((exists c', c' ∈ cols ∧ (c' ∉ columns current_df) ∧ e = KeyError c') ∨
     (exists d1 d2, ks_2samp d1 d2 = Raise e)).
Proof.
  revert drift report. induction cols as [|column rest IH];
    intros drift report Hbase Hc Hmiss.
  - by apply elem_of_nil in Hc.
  - simpl. unfold compare_column.
    destruct (proj1 (select_Ok base_df column)) as [d1 ->].
    { apply Hbase. left. }
    destruct (select current_df column) as [d2|e] eqn:Hsel.
    + destruct (ks_2samp d1 d2) as [r|e] eqn:Hks.
      * apply elem_of_cons in Hc as [->|Hc].
        { exfalso. apply Hmiss. apply select_Ok. eauto. }
        destruct (IH (drift ||
                      negb (PyFloat.ge (pvalue r) threshold))
                    (dict_update report column
                       {| p_value := pvalue r;
                          drift_status :=
                            negb (PyFloat.ge (pvalue r) threshold) |}))
          as (e & He & Hcause); [|exact Hc|exact Hmiss|].
        { intros c' Hc'. apply Hbase. by right. }
        exists e. split; [exact He|].
        destruct Hcause as [(c' & Hc' & Hm & ->)|Hcause]; [left|by right].
        exists c'. split; [by right|done].
      * exists e. split; [reflexivity|]. right. eauto.
    + apply select_Raise in Hsel as [-> Hsel].
      exists (KeyError column). split; [reflexivity|]. left.
      exists column. split; [left|done].
Qed.

Lemma detect_dataset_drift_loop_Raise w e :
  drift_fold ks_2samp base_df current_df threshold (columns base_df) false []
    = Raise e ->
  detect_dataset_drift ks_2samp fault self base_df current_df threshold w =
    (Raise (NetworkSecurityException e),
     records
       (EvEnter (CallDetectDatasetDrift base_df current_df threshold) ::
        drift_events ks_2samp base_df current_df (columns base_df)) w).
Proof.
  intros Hfold.
  unfold detect_dataset_drift, try_wrap, mbind, M_bind, emit, modify.
  rewrite drift_loop_run, Hfold, record_records, records_records.
  reflexivity.
Qed.

End Detector.

(** C2, as stated, fails: for a column holding a missing value the KS test
    answers NaN, the test [pvalue >= threshold] is false, the entry gets
    [drift_status = True], and [nan < 0.05] is false. *)
Lemma C2_nan_p_value_counterexample :
  ~ drift_status_is_less_than (Sample.ks_propagate 1%float) Sample.no_fault
      Sample.self Sample.frame_missing_value Sample.frame_missing_value
      default_threshold Sample.accepted_world.
Proof.
  intros H.
  specialize (H true Sample.nan_drift_run.2
                [("a", {| p_value := nan; drift_status := true |});
                 ("b", {| p_value := 1; drift_status := false |})]
                ltac:(vm_compute; reflexivity) ltac:(vm_compute; reflexivity)
                "a" {| p_value := nan; drift_status := true |}
                ltac:(reflexivity)).
  vm_compute in H. discriminate H.
Qed.

(** C2, amended: every entry of the report of a completed detector run has
    [drift_status = not (p_value >= threshold)]; this is
    [p_value < threshold] whenever neither number is NaN, so a p-value equal
    to the threshold gives false, while a NaN p-value or threshold gives
    true.  The returned flag is the disjunction over the compared columns:
    it is true exactly when some column of the base dataset has an entry
    with [drift_status] true. *)
Theorem C2_drift_decision_rule
    (ks_2samp : selection -> selection -> result KstestResult)
    (fault : list event -> event -> option exn)
    (self : DataValidation) (base_df current_df : DataFrame)
    (threshold : float) (w : world) (drift : bool) (w' : world) :
  detect_dataset_drift ks_2samp fault self base_df current_df threshold w
    = (Ok drift, w') ->
  exists report,
    files w' !! drift_report_file_path (data_validation_config self)
      = Some (YamlFile report) ∧
    (forall c e,
       dict_get report c = Some e ->
       drift_status e = negb (PyFloat.ge (p_value e) threshold) ∧
       (is_nan (p_value e) = false -> is_nan threshold = false ->
        drift_status e = PyFloat.lt (p_value e) threshold) ∧
       (PyFloat.eq (p_value e) threshold = true -> drift_status e = false) ∧
       (is_nan (p_value e) = true ∨ is_nan threshold = true ->
        drift_status e = true)) ∧
    (drift = true <->
     exists c e,
       c ∈ columns base_df ∧ dict_get report c = Some e ∧
       drift_status e = true).
Proof.
  intros Hrun.
  apply detect_dataset_drift_Ok in Hrun
    as (report & Hfold & Hfs & _ & _ & _).
  exists report. split; [rewrite Hfs; apply lookup_insert_eq|].
  assert (forall c e, dict_get report c = Some e ->
            drift_status e = negb (PyFloat.ge (p_value e) threshold))
    as Hrule.
  { intros c e Hget.
    assert (compare_column ks_2samp base_df current_df threshold c = Ok e)
      as Hcmp.
    { eapply drift_fold_entries; [exact Hfold| |exact Hget].
      intros c' e' H'. discriminate H'. }
    unfold compare_column in Hcmp.
    destruct (select base_df c) as [d1|]; [|discriminate].
    destruct (select current_df c) as [d2|]; [|discriminate].
    destruct (ks_2samp d1 d2) as [r|]; [|discriminate].
    injection Hcmp as <-. reflexivity. }
  split.
  - intros c e Hget. rewrite (Hrule c e Hget).
    split; [reflexivity|]. split.
    + intros Hp Ht. by apply PyFloatFacts.not_ge_lt.
    + split.
      * intros Heq. by rewrite (PyFloatFacts.eq_ge _ _ Heq).
      * intros Hnan. by rewrite (PyFloatFacts.ge_nan _ _ Hnan).
  - rewrite (drift_fold_flag _ _ _ _ _ _ _ _ _ Hfold). split.
    + intros [Hf|(c & e & Hc & Hcmp & Hst)]; [discriminate Hf|].
      exists c, e. split; [exact Hc|]. split; [|exact Hst].
      by apply (drift_fold_lookup _ _ _ _ _ _ _ _ _ Hfold Hc).
    + intros (c & e & Hc & Hget & Hst). right.
      exists c, e. split; [exact Hc|]. split; [|exact Hst].
      by apply (drift_fold_lookup _ _ _ _ _ _ _ _ _ Hfold Hc).
Qed.

Lemma C2_drift_decision_rule_witness :
  exists report,
    files Sample.boundary_drift_run.2 !! "artifacts/drift_report/report.yaml"
      = Some (YamlFile report) ∧
    (forall c e,
       dict_get report c = Some e ->
       drift_status e = negb (PyFloat.ge (p_value e) default_threshold) ∧
       (is_nan (p_value e) = false -> is_nan default_threshold = false ->
        drift_status e = PyFloat.lt (p_value e) default_threshold) ∧
       (PyFloat.eq (p_value e) default_threshold = true ->
        drift_status e = false) ∧
       (is_nan (p_value e) = true ∨ is_nan default_threshold = true ->
        drift_status e = true)) ∧
    (false = true <->
     exists c e,
       c ∈ columns Sample.frame_ab ∧ dict_get report c = Some e ∧
       drift_status e = true).
Proof.
  apply (C2_drift_decision_rule (Sample.ks_const default_threshold)
           Sample.no_fault Sample.self Sample.frame_ab Sample.frame_ab
           default_threshold Sample.accepted_world false
           Sample.boundary_drift_run.2).
  vm_compute. reflexivity.
Defined.

(** C5: the report of a completed detector run has one entry per column
    label of the base dataset and no other entry, in the base dataset's
    column order; each entry records the very p-value the KS test returned
    for that column of the two datasets; a column that only the current
    dataset has gets no entry. *)
Theorem C5_report_covers_base_columns
    (ks_2samp : selection -> selection -> result KstestResult)
    (fault : list event -> event -> option exn)
    (self : DataValidation) (base_df current_df : DataFrame)
    (threshold : float) (w : world) (drift : bool) (w' : world) :
  detect_dataset_drift ks_2samp fault self base_df current_df threshold w
    = (Ok drift, w') ->
  exists report,
    files w' !! drift_report_file_path (data_validation_config self)
      = Some (YamlFile report) ∧
    (forall c, c ∈ report.*1 <-> c ∈ columns base_df) ∧
    NoDup report.*1 ∧
    (NoDup (columns base_df) -> report.*1 = columns base_df) ∧
    (forall c e,
       dict_get report c = Some e ->
       exists d1 d2 r,
         select base_df c = Ok d1 ∧ select current_df c = Ok d2 ∧
         ks_2samp d1 d2 = Ok r ∧ p_value e = pvalue r) ∧
    (forall c,
       c ∈ columns current_df -> c ∉ columns base_df ->
       dict_get report c = None).
Proof.
  intros Hrun.
  apply detect_dataset_drift_Ok in Hrun
    as (report & Hfold & Hfs & _ & _ & _).
  exists report. split; [rewrite Hfs; apply lookup_insert_eq|].
  assert (forall c, c ∈ report.*1 <-> c ∈ columns base_df) as Hkeys.
  { intros c. rewrite (drift_fold_keys _ _ _ _ _ _ _ _ _ c Hfold).
    simpl. rewrite elem_of_nil. tauto. }
  split; [exact Hkeys|]. split.
  { eapply drift_fold_NoDup; [exact Hfold|]. constructor. }
  split.
  { intros Hnd.
    rewrite (drift_fold_order _ _ _ _ _ _ _ _ _ Hfold Hnd); [reflexivity|].
    intros c _. apply not_elem_of_nil. }
  split.
  - intros c e Hget.
    assert (compare_column ks_2samp base_df current_df threshold c = Ok e)
      as Hcmp.
    { eapply drift_fold_entries; [exact Hfold| |exact Hget].
      intros c' e' H'. discriminate H'. }
    unfold compare_column in Hcmp.
    destruct (select base_df c) as [d1|]; [|discriminate].
    destruct (select current_df c) as [d2|]; [|discriminate].
    destruct (ks_2samp d1 d2) as [r|] eqn:Hks; [|discriminate].
    injection Hcmp as <-. exists d1, d2, r. done.
  - intros c _ Hout. apply dict_get_None_key. by rewrite Hkeys.
Qed.

Lemma C5_report_covers_base_columns_witness :
  exists report,
    files Sample.extra_column_drift_run.2
      !! "artifacts/drift_report/report.yaml" = Some (YamlFile report) ∧
    (forall c, c ∈ report.*1 <-> c ∈ columns Sample.frame_ab) ∧
    NoDup report.*1 ∧
    (NoDup (columns Sample.frame_ab) -> report.*1 = columns Sample.frame_ab) ∧
    (forall c e,
       dict_get report c = Some e ->
       exists d1 d2 r,
         select Sample.frame_ab c = Ok d1 ∧
         select Sample.frame_ab_extra c = Ok d2 ∧
         Sample.ks_const 1%float d1 d2 = Ok r ∧ p_value e = pvalue r) ∧
    (forall c,
       c ∈ columns Sample.frame_ab_extra -> c ∉ columns Sample.frame_ab ->
       dict_get report c = None).
Proof.
  apply (C5_report_covers_base_columns (Sample.ks_const 1%float)
           Sample.no_fault Sample.self Sample.frame_ab Sample.frame_ab_extra
           default_threshold Sample.accepted_world false
           Sample.extra_column_drift_run.2).
  vm_compute. reflexivity.
Defined.

(** C9: when some column of the base dataset is absent from the current
    dataset, the detector does not skip it: the run raises the wrapped
    domain exception (around the [KeyError] of such a column, unless a KS
    call raised before reaching it), writes no report, and therefore never
    completes. *)
Theorem C9_column_missing_from_current_raises
    (ks_2samp : selection -> selection -> result KstestResult)
    (fault : list event -> event -> option exn)
    (self : DataValidation) (base_df current_df : DataFrame)
    (threshold : float) (w : world) (c : string) :
  c ∈ columns base_df -> c ∉ columns current_df ->
  exists e w',
    detect_dataset_drift ks_2samp fault self base_df current_df threshold w
      = (Raise (NetworkSecurityException e), w') ∧
    ((exists c', c' ∈ columns base_df ∧ (c' ∉ columns current_df) ∧
                 e = KeyError c') ∨
     (exists d1 d2, ks_2samp d1 d2 = Raise e)) ∧
    files w' = files w ∧
    (exists evs,
       trace w' = trace w ++ evs ∧ List.filter is_write_yaml evs = []) ∧
    forall drift w'',
      detect_dataset_drift ks_2samp fault self base_df current_df threshold w
        <> (Ok drift, w'').
Proof.
  intros Hc Hmiss.
  destruct (drift_fold_missing ks_2samp base_df current_df threshold
              (columns base_df) false [] c) as (e & Hfold & Hcause);
    [auto|exact Hc|exact Hmiss|].
  exists e. eexists.
  rewrite (detect_dataset_drift_loop_Raise _ _ _ _ _ _ _ _ Hfold).
  split; [reflexivity|]. split; [exact Hcause|]. split; [reflexivity|].
  split; [|discriminate].
  eexists. split; [reflexivity|]. simpl.
  apply filter_drift_events. reflexivity.
Qed.

Lemma C9_column_missing_from_current_raises_witness :
  exists e w',
    detect_dataset_drift (Sample.ks_const 1%float) Sample.no_fault Sample.self
      Sample.frame_ab_extra Sample.frame_ab default_threshold
      Sample.accepted_world
      = (Raise (NetworkSecurityException e), w') ∧
    ((exists c', c' ∈ columns Sample.frame_ab_extra ∧
                 (c' ∉ columns Sample.frame_ab) ∧ e = KeyError c') ∨
     (exists d1 d2, Sample.ks_const 1%float d1 d2 = Raise e)) ∧
    files w' = files Sample.accepted_world ∧
    (exists evs,
       trace w' = trace Sample.accepted_world ++ evs ∧
       List.filter is_write_yaml evs = []) ∧
    forall drift w'',
      detect_dataset_drift (Sample.ks_const 1%float) Sample.no_fault
        Sample.self Sample.frame_ab_extra Sample.frame_ab default_threshold
        Sample.accepted_world
        <> (Ok drift, w'').
Proof.
  apply (C9_column_missing_from_current_raises (Sample.ks_const 1%float)
           Sample.no_fault Sample.self Sample.frame_ab_extra Sample.frame_ab
           default_threshold Sample.accepted_world "z").
  - apply list_elem_of_In. simpl. tauto.
  - rewrite list_elem_of_In. simpl. intros [H|[H|[]]]; discriminate H.
Defined.

(** ** Failures *)

(** C8: a run of the orchestrator either returns an artifact with every
    field set, and then both datasets were read and none of its calls (reads,
    directory creations, writes, KS tests) failed, or raises a
    [NetworkSecurityException]; the same holds of the drift detector.  So an
    error in any call is never swallowed and always reaches the caller
    wrapped in the domain exception. *)
Theorem C8_errors_are_wrapped_and_raised
    (ks_2samp : selection -> selection -> result KstestResult)
    (fault : list event -> event -> option exn)
    (self : DataValidation) (w : world) :
  match initiate_data_validation ks_2samp fault self w with
  | (Ok art, w') =>
      art = artifact_of self (validation_status art) ∧
      (exists train test,
         files w !! trained_file_path (data_ingestion_artifact self)
           = Some (CsvFile train) ∧
         files w !! test_file_path (data_ingestion_artifact self)
           = Some (CsvFile test)) ∧
      exists evs,
        trace w' = trace w ++ evs ∧ no_failure ks_2samp fault (trace w) evs
  | (Raise e, _) => exists e0, e = NetworkSecurityException e0
  end ∧
  forall (base_df current_df : DataFrame) (threshold : float),
    match
      detect_dataset_drift ks_2samp fault self base_df current_df threshold w
    with
    | (Ok _, w') =>
        exists evs,
          trace w' = trace w ++ evs ∧ no_failure ks_2samp fault (trace w) evs
    | (Raise e, _) => exists e0, e = NetworkSecurityException e0
    end.
Proof.
  split.
  - destruct (initiate_data_validation ks_2samp fault self w)
      as [[art|e] w'] eqn:Hrun.
    + destruct (initiate_data_validation_Ok _ _ _ _ _ _ Hrun)
        as (train & test & cols & nv & numerical & report & Htrain & Htest &
            _ & _ & _ & Hart & _ & _ & Htr & Hnf).
      split; [by rewrite Hart at 1; rewrite Hart|]. split; [eauto|]. eauto.
    + unfold initiate_data_validation in Hrun.
      apply try_wrap_Raise_inv in Hrun as (e0 & -> & _). eauto.
  - intros base_df current_df threshold.
    destruct (detect_dataset_drift ks_2samp fault self base_df current_df
                threshold w) as [[drift|e] w'] eqn:Hrun.
    + apply detect_dataset_drift_Ok in Hrun
        as (report & _ & _ & _ & Htr & Hnf). eauto.
    + apply detect_dataset_drift_Raise in Hrun as (_ & He & _). exact He.
Qed.

(** ** Scenarios *)

(** Identical conforming datasets: accepted, both columns compared with
    [p_value = 1.0] and no drift, outputs under the valid paths. *)
Example scenario_identical_datasets :
  Sample.accepted_run.1 = Ok (artifact_of Sample.self true) ∧
  files Sample.accepted_run.2 !! "artifacts/drift_report/report.yaml" =
    Some (YamlFile [("a", {| p_value := 1; drift_status := false |});
                    ("b", {| p_value := 1; drift_status := false |})]) ∧
  written_paths (trace Sample.accepted_run.2) =
    ["artifacts/drift_report/report.yaml"; "artifacts/validated/train.csv";
     "artifacts/validated/test.csv"].
Proof. vm_compute. done. Qed.

(** One extra column in the train dataset: rejected, outputs under the
    invalid paths, no report. *)
Example scenario_extra_column :
  Sample.rejected_run.1 = Ok (artifact_of Sample.self false) ∧
  files Sample.rejected_run.2 !! "artifacts/drift_report/report.yaml" = None ∧
  written_paths (trace Sample.rejected_run.2) =
    ["artifacts/invalid/train.csv"; "artifacts/invalid/test.csv"].
Proof. vm_compute. done. Qed.

(** A numerical column of the schema absent from the dataset: the check
    answers false and logs the missing name. *)
Example scenario_missing_numerical_column :
  let out :=
    is_numerical_column_exist Sample.self Sample.frame_xy
      Sample.accepted_world in
  out.1 = Ok false ∧
  trace out.2 =
    [EvEnter (CallIsNumericalColumnExist Sample.frame_xy);
     EvLog (LogMissingNumerical ["a"])].
Proof. vm_compute. done. Qed.

(** A NaN threshold makes every column drifted, whatever its p-value. *)
Example scenario_nan_threshold :
  let out :=
    detect_dataset_drift (Sample.ks_const 1%float) Sample.no_fault
      Sample.self Sample.frame_ab Sample.frame_ab nan Sample.accepted_world in
  out.1 = Ok true ∧
  files out.2 !! "artifacts/drift_report/report.yaml" =
    Some (YamlFile [("a", {| p_value := 1; drift_status := true |});
                    ("b", {| p_value := 1; drift_status := true |})]) ∧
  PyFloat.lt 1 nan = false.
Proof. vm_compute. done. Qed.

(** A missing input file: the error of the read is wrapped by [read_data]
    and again by the orchestrator. *)
Example scenario_missing_input :
  (initiate_data_validation (Sample.ks_const 1%float) Sample.no_fault
     Sample.self (World ∅ ∅ [])).1 =
  Raise (NetworkSecurityException
           (NetworkSecurityException
              (FileNotFoundError "ingested/part1.csv"))).
Proof. vm_compute. reflexivity. Qed.

(** Conforming datasets whose non-numerical columns differ: the checks pass,
    the detector raises on the column the test dataset lacks, and the run
    raises without writing anything. *)
Example scenario_detector_raises :
  let out :=
    initiate_data_validation (Sample.ks_const 1%float) Sample.no_fault
      Sample.self (Sample.world_of Sample.frame_ab Sample.frame_aq) in
  out.1 =
    Raise (NetworkSecurityException
             (NetworkSecurityException (KeyError "b"))) ∧
  written_paths (trace out.2) = [] ∧
  List.filter is_detect_call (trace out.2) =
    [EvEnter (CallDetectDatasetDrift Sample.frame_ab Sample.frame_aq
                default_threshold)].
Proof. vm_compute. done. Qed.

(** A failing dataset write reaches the caller wrapped once. *)
Example scenario_write_fails :
  (initiate_data_validation (Sample.ks_const 1%float) Sample.disk_full
     Sample.self Sample.rejected_world).1 =
  Raise (NetworkSecurityException (OSError "No space left on device")).
Proof. vm_compute. reflexivity. Qed.

(** A report path without a directory part: [os.makedirs('')] is refused
    and the detector raises. *)
Example scenario_report_without_directory :
  PosixPath.dirname "report.yaml" = "" ∧
  (detect_dataset_drift (Sample.ks_const 1%float) Sample.no_fault
     Sample.self_flat_report Sample.frame_ab Sample.frame_ab
     default_threshold Sample.accepted_world).1 =
  Raise (NetworkSecurityException (FileNotFoundError "")).
Proof. vm_compute. done. Qed.


(** ** What a run leaves alone *)

Section Keeps.

Context {A B : Type}.
Variable R : world -> world -> Prop.
Hypothesis R_records : forall w evs, R w (records evs w).
Hypothesis R_trans : forall w1 w2 w3, R w1 w2 -> R w2 w3 -> R w1 w3.

Lemma R_refl w : R w w.
Proof. rewrite <- (records_nil w) at 2. apply R_records. Qed.

Lemma keeps_ret (a : A) : keeps R (mret a).
Proof. intros w r w' [= <- <-]. apply R_refl. Qed.

Lemma keeps_raise (e : exn) : keeps R (raise e : M A).
Proof. intros w r w' [= <- <-]. apply R_refl. Qed.

Lemma keeps_bind (m : M A) (f : A -> M B) :
  keeps R m -> (forall a, keeps R (f a)) -> keeps R (m ≫= f).
Proof.
  intros Hm Hf w r w' H. unfold mbind, M_bind in H.
  destruct (m w) as [[a|e] w1] eqn:Hmw.
  - eapply R_trans; [exact (Hm _ _ _ Hmw)|exact (Hf a _ _ _ H)].
  - injection H as <- <-. exact (Hm _ _ _ Hmw).
Qed.

Lemma keeps_try_wrap (m : M A) : keeps R m -> keeps R (try_wrap m).
Proof.
  intros Hm w r w' H. unfold try_wrap in H.
  destruct (m w) as [[a|e] w1] eqn:Hmw; injection H as <- <-;
    exact (Hm _ _ _ Hmw).
Qed.

End Keeps.

Section KeepsOperations.

Variable ks_2samp : selection -> selection -> result KstestResult.
Variable fault : list event -> event -> option exn.
Variable R : world -> world -> Prop.
Hypothesis R_records : forall w evs, R w (records evs w).
Hypothesis R_trans : forall w1 w2 w3, R w1 w2 -> R w2 w3 -> R w1 w3.

Lemma keeps_emit ev : keeps R (emit ev).
Proof. intros w r w' [= <- <-]. apply (R_records w [ev]). Qed.

Lemma keeps_extern ev : keeps R (extern fault ev).
Proof.
  intros w r w' H. rewrite extern_run in H. injection H as _ <-.
  apply R_records.
Qed.

Lemma keeps_os_makedirs path :
  (forall w, R w (add_dir path w)) -> keeps R (os_makedirs fault path).
Proof.
  intros Hadd. unfold os_makedirs.
  apply keeps_bind; [exact R_trans|apply keeps_extern|]. intros _.
  destruct (String.eqb path ""); [by apply keeps_raise|].
  intros w r w' [= <- <-]. apply Hadd.
Qed.

Lemma keeps_to_csv df path :
  (forall w c, R w (put_file path c w)) -> keeps R (to_csv fault df path).
Proof.
  intros Hput. unfold to_csv.
  apply keeps_bind; [exact R_trans|apply keeps_extern|]. intros _.
  intros w r w' [= <- <-]. apply Hput.
Qed.

Lemma keeps_write_yaml_file path content :
  (forall w c, R w (put_file path c w)) ->
  keeps R (write_yaml_file fault path content).
Proof.
  intros Hput. unfold write_yaml_file.
  apply keeps_bind; [exact R_trans|apply keeps_extern|]. intros _.
  intros w r w' [= <- <-]. apply Hput.
Qed.

Lemma keeps_read_data path : keeps R (read_data fault path).
Proof.
  intros w r w' H. rewrite read_data_run in H. injection H as _ <-.
  apply R_records.
Qed.

Lemma keeps_validate_number_of_columns self df :
  keeps R (validate_number_of_columns self df).
Proof.
  intros w r w' H. rewrite validate_number_of_columns_run in H.
  destruct (_schema_config self !! "columns"); injection H as _ <-;
    apply R_records.
Qed.

Lemma keeps_is_numerical_column_exist self df :
  keeps R (is_numerical_column_exist self df).
Proof.
  intros w r w' H. rewrite is_numerical_column_exist_run in H.
  destruct (_schema_config self !! "numerical_columns") as [nv|];
    [destruct (hashable_items nv)|]; injection H as _ <-; apply R_records.
Qed.

Lemma keeps_detect_dataset_drift self base_df current_df threshold :
  (forall w,
     R w (add_dir (PosixPath.dirname
                     (drift_report_file_path (data_validation_config self)))
            w)) ->
  (forall w c,
     R w (put_file (drift_report_file_path (data_validation_config self))
            c w)) ->
  keeps R
    (detect_dataset_drift ks_2samp fault self base_df current_df threshold).
Proof.
  intros Hadd Hput. unfold detect_dataset_drift.
  apply keeps_bind; [exact R_trans|apply keeps_emit|]. intros _.
  apply keeps_try_wrap.
  apply keeps_bind; [exact R_trans| |].
  - intros w r w' H. rewrite drift_loop_run in H. injection H as _ <-.
    apply R_records.
  - intros [drift report].
    apply keeps_bind; [exact R_trans|by apply keeps_os_makedirs|]. intros _.
    apply keeps_bind; [exact R_trans|by apply keeps_write_yaml_file|].
    intros _. by apply keeps_ret.
Qed.

Lemma keeps_initiate_data_validation self :
  (forall w d,
     d ∈ output_dirs (data_validation_config self) -> R w (add_dir d w)) ->
  (forall w p c,
     p ∈ output_paths (data_validation_config self) ->
     R w (put_file p c w)) ->
  keeps R (initiate_data_validation ks_2samp fault self).
Proof.
  intros Hadd Hput. unfold initiate_data_validation.
  assert (forall p, p ∈ output_paths (data_validation_config self) ->
            forall w c, R w (put_file p c w)) as Hput' by auto.
  assert (forall d, d ∈ output_dirs (data_validation_config self) ->
            forall w, R w (add_dir d w)) as Hadd' by auto.
  unfold output_paths in Hput'. unfold output_dirs in Hadd'.
  apply keeps_try_wrap.
  apply keeps_bind; [exact R_trans|apply keeps_read_data|]. intros train.
  apply keeps_bind; [exact R_trans|apply keeps_read_data|]. intros test.
  apply keeps_bind;
    [exact R_trans|apply keeps_validate_number_of_columns|]. intros s1.
  apply keeps_bind;
    [exact R_trans|apply keeps_validate_number_of_columns|]. intros s2.
  apply keeps_bind;
    [exact R_trans|apply keeps_is_numerical_column_exist|]. intros s3.
  apply keeps_bind;
    [exact R_trans|apply keeps_is_numerical_column_exist|]. intros s4.
  cbv zeta.
  set (status := if negb s4 then false else _).
  apply keeps_bind; [exact R_trans| |].
  { destruct status; [|by apply keeps_ret].
    apply keeps_bind; [exact R_trans| |intros _; by apply keeps_ret].
    apply keeps_detect_dataset_drift.
    - apply Hadd'. rewrite !elem_of_cons. tauto.
    - apply Hput'. rewrite !elem_of_cons. tauto. }
  intros _.
  apply keeps_bind; [exact R_trans| |].
  { apply keeps_os_makedirs. destruct status; apply Hadd';
      rewrite !elem_of_cons; tauto. }
  intros _.
  apply keeps_bind; [exact R_trans| |].
  { destruct status;
      (apply keeps_bind; [exact R_trans| |intros _]);
      apply keeps_to_csv; apply Hput'; rewrite !elem_of_cons; tauto. }
  intros _.
  apply keeps_bind; [exact R_trans|apply keeps_emit|]. intros _.
  by apply keeps_ret.
Qed.

End KeepsOperations.

Section Within.

Variables (paths folders : list string).

Lemma within_records w evs : within paths folders w (records evs w).
Proof.
  split; split; simpl; auto.
Qed.

Lemma within_trans w1 w2 w3 : within paths folders w1 w2 -> within paths folders w2 w3 -> within paths folders w1 w3.
Proof.
  intros [[Hf1 He1] [Hd1 Hn1]] [[Hf2 He2] [Hd2 Hn2]].
  split; split.
  - intros p Hp. by rewrite Hf2, Hf1.
  - auto.
  - by transitivity (dirs w2).
  - intros d Hd. destruct (Hn2 d Hd) as [Hd'|Hd']; [|by right].
    by apply Hn1.
Qed.

Lemma within_put_file w p c : p ∈ paths -> within paths folders w (put_file p c w).
Proof.
  intros Hp. split; split; simpl.
  - intros q Hq. apply lookup_insert_ne. congruence.
  - intros q Hq. destruct (decide (p = q)) as [->|Hne].
    + rewrite lookup_insert_eq. eauto.
    + by rewrite lookup_insert_ne.
  - reflexivity.
  - auto.
Qed.

Lemma within_add_dir w d : d ∈ folders -> within paths folders w (add_dir d w).
Proof.
  intros Hd. split; split; simpl; auto.
  - apply union_subseteq_r.
  - intros d' [->%elem_of_singleton|Hd']%elem_of_union; auto.
Qed.

End Within.

(** ** Runs that complete *)

Section Completion.

Variable ks_2samp : selection -> selection -> result KstestResult.
Variable fault : list event -> event -> option exn.
Variable self : DataValidation.

(** No call into the environment fails, and the KS test answers on every
    pair of samples. *)
Hypothesis no_fault : forall hist ev, fault hist ev = None.
Hypothesis ks_total : forall d1 d2, exists r, ks_2samp d1 d2 = Ok r.

Lemma drift_fold_total base_df current_df threshold cols drift report :
  (forall c, c ∈ cols -> c ∈ columns base_df ∧ c ∈ columns current_df) ->
  exists out,
    drift_fold ks_2samp base_df current_df threshold cols drift report
      = Ok out.
Proof.
  revert drift report. induction cols as [|column rest IH];
    intros drift report Hcols; simpl; [eauto|].
  unfold compare_column.
  destruct (Hcols column) as [Hb Hc]; [left|].
  apply select_Ok in Hb as [d1 ->]. apply select_Ok in Hc as [d2 ->].
  destruct (ks_total d1 d2) as [r ->].
  apply IH. intros c Hc. apply Hcols. by right.
Qed.

Lemma detect_dataset_drift_completes base_df current_df threshold w :
  (forall c, c ∈ columns base_df -> c ∈ columns current_df) ->
  PosixPath.dirname (drift_report_file_path (data_validation_config self))
    <> "" ->
  exists drift w',
    detect_dataset_drift ks_2samp fault self base_df current_df threshold w
      = (Ok drift, w').
Proof.
  intros Hsub Hdir.
  destruct (drift_fold_total base_df current_df threshold (columns base_df)
              false []) as [[drift report] Hfold]; [by auto|].
  exists drift. unfold detect_dataset_drift, try_wrap, mbind, M_bind, emit,
    modify.
  rewrite drift_loop_run, Hfold, os_makedirs_run, no_fault.
  apply String.eqb_neq in Hdir. rewrite Hdir.
  rewrite write_yaml_file_run, no_fault. eauto.
Qed.

(** A loop that completes has found each of its columns in the current
    dataset. *)
Lemma drift_fold_found base_df current_df threshold cols drift report out :
  drift_fold ks_2samp base_df current_df threshold cols drift report = Ok out ->
  forall c, c ∈ cols -> c ∈ columns current_df.
Proof.
  revert drift report. induction cols as [|column rest IH];
    intros drift report; simpl.
  - intros _ c Hc. by apply elem_of_nil in Hc.
  - unfold compare_column.
    destruct (select base_df column) as [d1|]; [|discriminate].
    destruct (select current_df column) as [d2|] eqn:Hsel; [|discriminate].
    destruct (ks_2samp d1 d2) as [r|]; [|discriminate].
    intros H c [->|Hc]%elem_of_cons.
    + apply select_Ok. eauto.
    + eapply IH; eauto.
Qed.

(** An accepted pair of datasets: the run completed with a true status, so
    the detector completed, and every train label is a test label. *)
Lemma accepted_columns_found w art w' :
  initiate_data_validation ks_2samp fault self w = (Ok art, w') ->
  validation_status art = true ->
  exists train test cols,
    files w !! trained_file_path (data_ingestion_artifact self)
      = Some (CsvFile train) ∧
    files w !! test_file_path (data_ingestion_artifact self)
      = Some (CsvFile test) ∧
    _schema_config self !! "columns" = Some cols ∧
    length (columns train) = py_len cols ∧
    length (columns test) = py_len cols ∧
    forall c, c ∈ columns train -> c ∈ columns test.
Proof.
  intros Hrun Hst.
  destruct (initiate_data_validation_Ok _ _ _ _ _ _ Hrun)
    as (train & test & cols & nv & numerical & report & Htrain & Htest &
        Hcols & Hnum & Hitems & Hart & Hrep & _).
  rewrite Hart, validation_status_artifact_of in Hst.
  destruct (Hrep Hst) as [drift Hfold].
  exists train, test, cols. do 3 (split; [assumption|]).
  unfold structural_checks, column_count_matches in Hst.
  rewrite !andb_true_iff, !Nat.eqb_eq in Hst.
  destruct Hst as [[[Hl1 Hl2] _] _].
  split; [exact Hl1|]. split; [exact Hl2|].
  eapply drift_fold_found, Hfold.
Qed.

Lemma validation_run_completes w train test cols nv numerical :
  files w !! trained_file_path (data_ingestion_artifact self)
    = Some (CsvFile train) ->
  files w !! test_file_path (data_ingestion_artifact self)
    = Some (CsvFile test) ->
  _schema_config self !! "columns" = Some cols ->
  _schema_config self !! "numerical_columns" = Some nv ->
  hashable_items nv = Some numerical ->
  PosixPath.dirname (drift_report_file_path (data_validation_config self))
    <> "" ->
  valid_data_dir (data_validation_config self) <> "" ->
  invalid_data_dir (data_validation_config self) <> "" ->
  (structural_checks cols numerical train test = true ->
   forall c, c ∈ columns train -> c ∈ columns test) ->
  exists w',
    initiate_data_validation ks_2samp fault self w =
      (Ok (artifact_of self (structural_checks cols numerical train test)),
       w').
Proof.
  intros Htrain Htest Hcols Hnum Hitems Hrdir Hvdir Hidir Hsub.
  unfold initiate_data_validation.
  erewrite try_wrap_bind_Ok;
    [|rewrite read_data_run, no_fault, Htrain; reflexivity].
  erewrite try_wrap_bind_Ok;
    [|rewrite read_data_run, no_fault; simpl; rewrite Htest; reflexivity].
  erewrite try_wrap_bind_Ok;
    [|rewrite validate_number_of_columns_run, Hcols; reflexivity].
  erewrite try_wrap_bind_Ok;
    [|rewrite validate_number_of_columns_run, Hcols; reflexivity].
  erewrite try_wrap_bind_Ok;
    [|rewrite is_numerical_column_exist_run, Hnum, Hitems; reflexivity].
  erewrite try_wrap_bind_Ok;
    [|rewrite is_numerical_column_exist_run, Hnum, Hitems; reflexivity].
  cbv zeta. rewrite accumulated_status.
  fold (structural_checks cols numerical train test).
  apply String.eqb_neq in Hvdir, Hidir.
  destruct (structural_checks cols numerical train test) eqn:Hst.
  - match goal with
    | |- exists w', try_wrap (?m ≫= _) ?w0 = _ =>
        destruct (detect_dataset_drift_completes train test
                    default_threshold w0 (Hsub eq_refl) Hrdir)
          as (drift & w7 & Hd)
    end.
    erewrite try_wrap_bind_Ok;
      [|unfold mbind at 1, M_bind at 1; rewrite Hd; reflexivity].
    erewrite try_wrap_bind_Ok;
      [|rewrite os_makedirs_run, no_fault, Hvdir; reflexivity].
    erewrite try_wrap_bind_Ok.
    2: { unfold mbind, M_bind. rewrite to_csv_run, no_fault.
         rewrite to_csv_run, no_fault. reflexivity. }
    unfold try_wrap, mbind, M_bind, logging_info, emit, modify. eauto.
  - erewrite try_wrap_bind_Ok; [|reflexivity].
    erewrite try_wrap_bind_Ok;
      [|rewrite os_makedirs_run, no_fault, Hidir; reflexivity].
    erewrite try_wrap_bind_Ok.
    2: { unfold mbind, M_bind. rewrite to_csv_run, no_fault.
         rewrite to_csv_run, no_fault. reflexivity. }
    unfold try_wrap, mbind, M_bind, logging_info, emit, modify. eauto.
Qed.


(** X2: when the environment never fails and the KS test always answers, a
    validation run on two readable inputs, with a well-formed schema and
    non-empty output directories, completes exactly when the datasets fail a
    structural check or every column label of the train dataset is one of
    the test dataset; its status is then the conjunction of the checks.
    Datasets that pass the checks but differ in a column label make the run
    raise instead of returning. *)
Theorem validation_completes_iff w train test cols nv numerical :
  files w !! trained_file_path (data_ingestion_artifact self)
    = Some (CsvFile train) ->
  files w !! test_file_path (data_ingestion_artifact self)
    = Some (CsvFile test) ->
  _schema_config self !! "columns" = Some cols ->
  _schema_config self !! "numerical_columns" = Some nv ->
  hashable_items nv = Some numerical ->
  PosixPath.dirname (drift_report_file_path (data_validation_config self))
    <> "" ->
  valid_data_dir (data_validation_config self) <> "" ->
  invalid_data_dir (data_validation_config self) <> "" ->
  ((exists art w',
      initiate_data_validation ks_2samp fault self w = (Ok art, w')) <->
   (structural_checks cols numerical train test = true ->
    forall c, c ∈ columns train -> c ∈ columns test)) ∧
  forall art w',
    initiate_data_validation ks_2samp fault self w = (Ok art, w') ->
    art = artifact_of self (structural_checks cols numerical train test).
Proof.
  intros Htrain Htest Hcols Hnum Hitems Hrdir Hvdir Hidir.
  assert (forall art w',
    initiate_data_validation ks_2samp fault self w = (Ok art, w') ->
    art = artifact_of self (structural_checks cols numerical train test))
    as Hart.
  { intros art w' Hrun.
    destruct (initiate_data_validation_Ok _ _ _ _ _ _ Hrun)
      as (train' & test' & cols' & nv' & numerical' & report & Htrain' &
          Htest' & Hcols' & Hnum' & Hitems' & Hart & _).
    rewrite Hart. repeat f_equal; congruence. }
  split; [|exact Hart]. split.
  - intros (art & w' & Hrun) Hst c Hc.
    destruct (accepted_columns_found _ _ _ Hrun)
      as (train' & test' & cols' & Htrain' & Htest' & _ & _ & _ & Hsub).
    { rewrite (Hart _ _ Hrun). exact Hst. }
    assert (train' = train) as -> by congruence.
    assert (test' = test) as -> by congruence.
    by apply Hsub.
  - intros Hsub.
    destruct (validation_run_completes w train test cols nv numerical)
      as [w' Hrun]; auto.
    eauto.
Qed.

End Completion.


Lemma validation_completes_iff_witness :
  ((exists art w',
      initiate_data_validation (Sample.ks_const 1%float) Sample.no_fault
        Sample.self Sample.accepted_world = (Ok art, w')) <->
   (structural_checks (YColumns [("a", "int64"); ("b", "int64")]) ["a"]
      Sample.frame_ab Sample.frame_ab = true ->
    forall c, c ∈ columns Sample.frame_ab -> c ∈ columns Sample.frame_ab)) ∧
  forall art w',
    initiate_data_validation (Sample.ks_const 1%float) Sample.no_fault
      Sample.self Sample.accepted_world = (Ok art, w') ->
    art =
      artifact_of Sample.self
        (structural_checks (YColumns [("a", "int64"); ("b", "int64")]) ["a"]
           Sample.frame_ab Sample.frame_ab).
Proof.
  apply (validation_completes_iff (Sample.ks_const 1%float) Sample.no_fault
           Sample.self (fun _ _ => eq_refl)
           (fun _ _ => ex_intro _ _ eq_refl)
           Sample.accepted_world Sample.frame_ab Sample.frame_ab
           (YColumns [("a", "int64"); ("b", "int64")]) (YNames ["a"]) ["a"]);
    vm_compute; (reflexivity || discriminate).
Defined.

(** ** Further properties of the validation component *)





(** X5: a run that returns a true status has compared every train column with
    a test column of the same label: the two datasets then have the same
    number of columns and every train label is a test label, so, when
    neither dataset repeats a label, they have the same labels up to
    order. *)
Theorem accepted_datasets_share_labels
    (ks_2samp : selection -> selection -> result KstestResult)
    (fault : list event -> event -> option exn)
    (self : DataValidation) (w : world)
    (art : DataValidationArtifact) (w' : world) :
  initiate_data_validation ks_2samp fault self w = (Ok art, w') ->
  validation_status art = true ->
  exists train test,
    files w !! trained_file_path (data_ingestion_artifact self)
      = Some (CsvFile train) ∧
    files w !! test_file_path (data_ingestion_artifact self)
      = Some (CsvFile test) ∧
    length (columns train) = length (columns test) ∧
    (forall c, c ∈ columns train -> c ∈ columns test) ∧
    (NoDup (columns train) -> columns train ≡ₚ columns test).
Proof.
  intros Hrun Hst.
  destruct (accepted_columns_found _ _ _ _ _ _ Hrun Hst)
    as (train & test & cols & Htrain & Htest & _ & Hl1 & Hl2 & Hsub).
  exists train, test. do 2 (split; [assumption|]).
  split; [congruence|]. split; [exact Hsub|].
  intros Hnd. apply submseteq_length_Permutation.
  - by apply NoDup_submseteq.
  - rewrite Hl1, Hl2. reflexivity.
Qed.

Lemma accepted_datasets_share_labels_witness :
  exists train test,
    files Sample.accepted_world !! "ingested/part1.csv"
      = Some (CsvFile train) ∧
    files Sample.accepted_world !! "ingested/part2.csv"
      = Some (CsvFile test) ∧
    length (columns train) = length (columns test) ∧
    (forall c, c ∈ columns train -> c ∈ columns test) ∧
    (NoDup (columns train) -> columns train ≡ₚ columns test).
Proof.
  apply (accepted_datasets_share_labels (Sample.ks_const 1%float)
           Sample.no_fault Sample.self Sample.accepted_world
           (artifact_of Sample.self true) Sample.accepted_run.2).
  - vm_compute. reflexivity.
  - reflexivity.
Defined.

Section MissingKey.

Variable ks_2samp : selection -> selection -> result KstestResult.
Variable fault : list event -> event -> option exn.
Variable self : DataValidation.

Tactic Notation "advance" hyp(H) "as" ident(a) ident(e) ident(w1) ident(Hm) :=
  match type of H with
  | try_wrap (?m ≫= _) ?w0 = _ =>
      destruct (m w0) as [[a|e] w1] eqn:Hm;
      [rewrite (try_wrap_bind_Ok _ _ _ _ _ Hm) in H
      |rewrite (try_wrap_bind_Raise _ _ _ _ _ Hm) in H; injection H as <- <-];
      cbv beta in *
  end.

(** X6: with a schema that lacks the [columns] or the [numerical_columns] key,
    no validation run completes: every run raises a doubly wrapped
    exception before the detector and before any write, leaving files and
    directories as they were.  When both inputs are read, the exception is
    the [KeyError] of the first missing key. *)
Theorem schema_key_missing_raises w r w' :
  _schema_config self !! "columns" = None ∨
  _schema_config self !! "numerical_columns" = None ->
  initiate_data_validation ks_2samp fault self w = (r, w') ->
  (exists e,
     r = Raise (NetworkSecurityException (NetworkSecurityException e)) ∧
     ((exists train test,
         files w !! trained_file_path (data_ingestion_artifact self)
           = Some (CsvFile train) ∧
         files w !! test_file_path (data_ingestion_artifact self)
           = Some (CsvFile test)) ->
      (forall hist ev, fault hist ev = None) ->
      e = KeyError match _schema_config self !! "columns" with
                   | Some _ => "numerical_columns"
                   | None => "columns"
                   end)) ∧
  files w' = files w ∧ dirs w' = dirs w ∧
  List.filter is_drift_event (trace w') = List.filter is_drift_event (trace w).
Proof.
  intros Hkey H. unfold initiate_data_validation in H.
  assert (forall evs,
    Forall (fun ev => is_drift_event ev = false) evs ->
    List.filter is_drift_event (trace (records evs w))
      = List.filter is_drift_event (trace w)) as Hquiet.
  { intros evs Hevs. simpl.
    by rewrite List.filter_app, (filter_Forall_false _ _ Hevs), app_nil_r. }
  advance H as train e w1 Hr1; rewrite read_data_run in Hr1.
  2: { split; [|injection Hr1 as _ <-; split; [done|split; [done|]];
                apply Hquiet; by repeat constructor].
       destruct (fault _ _) as [e0|] eqn:Hf in Hr1.
       - injection Hr1 as <- _. eexists. split; [reflexivity|].
         intros _ Hnf. rewrite Hnf in Hf. discriminate Hf.
       - destruct (files w !! _) as [[df|c]|] eqn:Hfile in Hr1;
           [discriminate Hr1| |]; injection Hr1 as <- _;
           (eexists; split; [reflexivity|]);
           intros (tr & te & Htr & _) _; congruence. }
  destruct (fault _ _) in Hr1; [discriminate|].
  destruct (files w !! trained_file_path _) as [[df1|]|] eqn:Hfile1;
    try discriminate.
  injection Hr1 as Hdf1 Hw1; subst df1 w1.
  advance H as test e w2 Hr2; rewrite read_data_run in Hr2;
    change (files (records _ w)) with (files w) in Hr2.
  2: { split; [|injection Hr2 as _ <-; rewrite records_records;
                split; [done|split; [done|]];
                apply Hquiet; by repeat constructor].
       destruct (fault _ _) as [e0|] eqn:Hf in Hr2.
       - injection Hr2 as <- _. eexists. split; [reflexivity|].
         intros _ Hnf. rewrite Hnf in Hf. discriminate Hf.
       - destruct (files w !! test_file_path _) as [[df|c]|] eqn:Hfile in Hr2;
           [discriminate Hr2| |]; injection Hr2 as <- _;
           (eexists; split; [reflexivity|]);
           intros (tr & te & _ & Hte) _; congruence. }
  destruct (fault _ _) in Hr2; [discriminate|].
  destruct (files w !! test_file_path _) as [[df2|]|] eqn:Hfile2;
    try discriminate.
  injection Hr2 as Hdf2 Hw2; subst df2 w2.
  advance H as s1 e w3 Hc1; rewrite validate_number_of_columns_run in Hc1;
    destruct (_schema_config self !! "columns") as [cols|] eqn:Hcols;
    try discriminate.
  2: { injection Hc1 as <- <-. rewrite !records_records.
       split; [eauto|]. split; [done|]. split; [done|].
       apply Hquiet. by repeat constructor. }
  destruct Hkey as [Hkey|Hkey]; [discriminate Hkey|].
  injection Hc1 as Hs1 Hw3; subst s1 w3.
  advance H as s2 e w4 Hc2;
    rewrite validate_number_of_columns_run, Hcols in Hc2; [|discriminate].
  injection Hc2 as Hs2 Hw4; subst s2 w4.
  advance H as s3 e w5 Hn1;
    rewrite is_numerical_column_exist_run, Hkey in Hn1; [discriminate|].
  injection Hn1 as <- <-. rewrite !records_records.
  split; [eauto|]. split; [done|]. split; [done|].
  apply Hquiet. by repeat constructor.
Qed.

End MissingKey.

Lemma schema_key_missing_raises_witness :
  (exists e,
     Raise (NetworkSecurityException
              (NetworkSecurityException (KeyError "numerical_columns")))
       = Raise (A := DataValidationArtifact)
           (NetworkSecurityException (NetworkSecurityException e)) ∧
     ((exists train test,
         files Sample.accepted_world !! "ingested/part1.csv"
           = Some (CsvFile train) ∧
         files Sample.accepted_world !! "ingested/part2.csv"
           = Some (CsvFile test)) ->
      (forall hist ev, Sample.no_fault hist ev = None) ->
      e = KeyError "numerical_columns")) ∧
  files
    (initiate_data_validation (Sample.ks_const 1%float) Sample.no_fault
       Cases.self_no_numerical Sample.accepted_world).2
    = files Sample.accepted_world ∧
  dirs
    (initiate_data_validation (Sample.ks_const 1%float) Sample.no_fault
       Cases.self_no_numerical Sample.accepted_world).2
    = dirs Sample.accepted_world ∧
  List.filter is_drift_event
    (trace
       (initiate_data_validation (Sample.ks_const 1%float) Sample.no_fault
          Cases.self_no_numerical Sample.accepted_world).2)
    = List.filter is_drift_event (trace Sample.accepted_world).
Proof.
  apply (schema_key_missing_raises (Sample.ks_const 1%float) Sample.no_fault
           Cases.self_no_numerical Sample.accepted_world
           (Raise (NetworkSecurityException
                     (NetworkSecurityException
                        (KeyError "numerical_columns"))))).
  - right. vm_compute. reflexivity.
  - vm_compute. reflexivity.
Defined.

Section DetectorCalls.

Variable ks_2samp : selection -> selection -> result KstestResult.
Variables base_df current_df : DataFrame.

(** The KS call made for a column: on its values in the base dataset and
    its values in the current dataset. *)
Lemma drift_events_per_column threshold cols drift report out :
  drift_fold ks_2samp base_df current_df threshold cols drift report = Ok out ->
  Forall2
    (fun c ev =>
       exists d1 d2,
         select base_df c = Ok d1 ∧ select current_df c = Ok d2 ∧
         ev = EvKs2samp d1 d2)
    cols (drift_events ks_2samp base_df current_df cols).
Proof.
  revert drift report. induction cols as [|column rest IH];
    intros drift report; simpl; [constructor|].
  unfold compare_column.
  destruct (select base_df column) as [d1|] eqn:Hd1; [|discriminate].
  destruct (select current_df column) as [d2|] eqn:Hd2; [|discriminate].
  destruct (ks_2samp d1 d2) as [r|]; [|discriminate].
  intros H. constructor; [by exists d1, d2|]. eapply IH, H.
Qed.

Lemma filter_ks_drift_events cols :
  List.filter is_ks_call (drift_events ks_2samp base_df current_df cols)
    = drift_events ks_2samp base_df current_df cols.
Proof.
  pose proof (drift_events_ks ks_2samp base_df current_df cols) as Hks.
  induction Hks as [|ev evs (d1 & d2 & ->) _ IH]; simpl; [reflexivity|].
  by rewrite IH.
Qed.

End DetectorCalls.

Lemma filter_filter_implied {X} (f g : X -> bool) (l : list X) :
  (forall x, f x = true -> g x = true) ->
  List.filter f (List.filter g l) = List.filter f l.
Proof.
  intros Himp. induction l as [|x l IH]; simpl; [reflexivity|].
  destruct (g x) eqn:Hg; simpl.
  - destruct (f x); by rewrite IH.
  - destruct (f x) eqn:Hf; [|exact IH].
    apply Himp in Hf. congruence.
Qed.

Lemma select_restricted_to labels (df : DataFrame) c :
  c ∈ labels -> select (restricted_to labels df) c = select df c.
Proof.
  intros Hc. unfold select, restricted_to.
  rewrite filter_filter_implied; [reflexivity|].
  intros [k s] Hk. simpl in *. apply String.eqb_eq in Hk as ->.
  by apply bool_decide_eq_true.
Qed.

Lemma drift_fold_ext ks_2samp base_df current_df current_df' threshold
    cols drift report :
  (forall c, c ∈ cols -> select current_df c = select current_df' c) ->
  drift_fold ks_2samp base_df current_df threshold cols drift report =
  drift_fold ks_2samp base_df current_df' threshold cols drift report.
Proof.
  revert drift report. induction cols as [|column rest IH];
    intros drift report Hsel; simpl; [reflexivity|].
  unfold compare_column. rewrite (Hsel column) by left.
  destruct (select base_df column) as [d1|]; [|reflexivity].
  destruct (select current_df' column) as [d2|]; [|reflexivity].
  destruct (ks_2samp d1 d2) as [r|]; [|reflexivity].
  apply IH. intros c Hc. apply Hsel. by right.
Qed.

(** X7: a completed detector run has made exactly one KS call per column of the
    base dataset, in column order, each on that column's values in the base
    dataset and in the current dataset. *)
Theorem detector_calls_ks_once_per_column
    (ks_2samp : selection -> selection -> result KstestResult)
    (fault : list event -> event -> option exn)
    (self : DataValidation) (base_df current_df : DataFrame)
    (threshold : float) (w : world) (drift : bool) (w' : world) :
  detect_dataset_drift ks_2samp fault self base_df current_df threshold w
    = (Ok drift, w') ->
  exists evs,
    trace w' = trace w ++ evs ∧
    length (List.filter is_ks_call evs) = length (columns base_df) ∧
    Forall2
      (fun c ev =>
         exists d1 d2,
           select base_df c = Ok d1 ∧ select current_df c = Ok d2 ∧
           ev = EvKs2samp d1 d2)
      (columns base_df) (List.filter is_ks_call evs).
Proof.
  intros Hrun.
  apply detect_dataset_drift_Ok in Hrun
    as (report & Hfold & _ & _ & Htr & _).
  eexists. split; [exact Htr|].
  unfold detect_events. simpl.
  rewrite List.filter_app, filter_ks_drift_events. simpl.
  rewrite app_nil_r.
  pose proof (drift_events_per_column _ _ _ _ _ _ _ _ Hfold) as Hall.
  split; [symmetry; exact (Forall2_length _ _ _ Hall)|exact Hall].
Qed.

Lemma detector_calls_ks_once_per_column_witness :
  exists evs,
    trace Sample.extra_column_drift_run.2
      = trace Sample.accepted_world ++ evs ∧
    length (List.filter is_ks_call evs) = length (columns Sample.frame_ab) ∧
    Forall2
      (fun c ev =>
         exists d1 d2,
           select Sample.frame_ab c = Ok d1 ∧
           select Sample.frame_ab_extra c = Ok d2 ∧
           ev = EvKs2samp d1 d2)
      (columns Sample.frame_ab) (List.filter is_ks_call evs).
Proof.
  apply (detector_calls_ks_once_per_column (Sample.ks_const 1%float)
           Sample.no_fault Sample.self Sample.frame_ab Sample.frame_ab_extra
           default_threshold Sample.accepted_world false
           Sample.extra_column_drift_run.2).
  vm_compute. reflexivity.
Defined.

(** X8: the detector looks at the current dataset only through the columns
    whose label is a label of the base dataset: two current datasets that
    agree on those columns give, in completed runs, the same drift flag and
    the same report, whatever other columns they hold and wherever. *)
Theorem detector_ignores_other_columns
    (ks_2samp : selection -> selection -> result KstestResult)
    (fault1 fault2 : list event -> event -> option exn)
    (self : DataValidation) (base_df current1 current2 : DataFrame)
    (threshold : float) (w1 w2 : world) (drift1 drift2 : bool)
    (w1' w2' : world) :
  restricted_to (columns base_df) current1 =
    restricted_to (columns base_df) current2 ->
  detect_dataset_drift ks_2samp fault1 self base_df current1 threshold w1
    = (Ok drift1, w1') ->
  detect_dataset_drift ks_2samp fault2 self base_df current2 threshold w2
    = (Ok drift2, w2') ->
  drift1 = drift2 ∧
  files w1' !! drift_report_file_path (data_validation_config self) =
    files w2' !! drift_report_file_path (data_validation_config self).
Proof.
  intros Hres Hrun1 Hrun2.
  apply detect_dataset_drift_Ok in Hrun1 as (report1 & Hfold1 & Hfs1 & _).
  apply detect_dataset_drift_Ok in Hrun2 as (report2 & Hfold2 & Hfs2 & _).
  rewrite (drift_fold_ext _ _ current1 current2) in Hfold1.
  - rewrite Hfold1 in Hfold2. injection Hfold2 as -> ->.
    split; [reflexivity|]. by rewrite Hfs1, Hfs2, !lookup_insert_eq.
  - intros c Hc.
    rewrite <- (select_restricted_to (columns base_df) current1 c Hc).
    rewrite <- (select_restricted_to (columns base_df) current2 c Hc).
    by rewrite Hres.
Qed.

Lemma detector_ignores_other_columns_witness :
  false = false ∧
  files
    (detect_dataset_drift (Sample.ks_const 1%float) Sample.no_fault
       Sample.self Sample.frame_ab Sample.frame_ab default_threshold
       Sample.accepted_world).2
    !! "artifacts/drift_report/report.yaml" =
  files
    (detect_dataset_drift (Sample.ks_const 1%float) Sample.disk_full
       Sample.self Sample.frame_ab Sample.frame_abc default_threshold
       Sample.rejected_world).2
    !! "artifacts/drift_report/report.yaml".
Proof.
  apply (detector_ignores_other_columns (Sample.ks_const 1%float)
           Sample.no_fault Sample.disk_full Sample.self Sample.frame_ab
           Sample.frame_ab Sample.frame_abc default_threshold
           Sample.accepted_world Sample.rejected_world false false);
    vm_compute; reflexivity.
Defined.

(** ** The ingestion component *)

Section IngestionFacts.

Variable mongo_connect : result unit.
Variable mongo_find : string -> string -> result DataFrame.
Variable train_test_split :
  DataFrame -> float -> result (DataFrame * DataFrame).
Variable fault : list event -> event -> option exn.
Variable self : DataIngestion.

Lemma export_collection_as_dataframe_run iw :
  export_collection_as_dataframe mongo_connect mongo_find self iw =
    match mongo_connect with
    | Raise e =>
        (Raise (NetworkSecurityException e),
         IngestionWorld (disk iw) (journal iw ++ [LogExportingCollection]))
    | Ok _ =>
        match mongo_find (database_name (data_ingestion_config self))
                (collection_name (data_ingestion_config self)) with
        | Raise e =>
            (Raise (NetworkSecurityException e),
             IngestionWorld (disk iw)
               (journal iw ++
                  [LogExportingCollection;
                   LogConnected (database_name (data_ingestion_config self))
                     (collection_name (data_ingestion_config self))]))
        | Ok raw =>
            (Ok (cleaned raw),
             IngestionWorld (disk iw)
               (journal iw ++
                  [LogExportingCollection;
                   LogConnected (database_name (data_ingestion_config self))
                     (collection_name (data_ingestion_config self));
                   LogExported (cleaned raw)]))
        end
    end.
Proof.
  unfold export_collection_as_dataframe, cleaned, try_wrap_i, mbind, MI_bind,
    outcome, ingestion_info, mret, MI_ret. simpl.
  destruct mongo_connect as [u|e]; simpl; [|reflexivity].
  destruct (mongo_find _ _) as [raw|e]; simpl; rewrite <- !app_assoc;
    reflexivity.
Qed.

Lemma export_data_into_feature_store_run dataframe iw :
  export_data_into_feature_store fault self dataframe iw =
    match os_makedirs fault
            (PosixPath.dirname
               (feature_store_file_path (data_ingestion_config self)))
            (disk iw) with
    | (Raise e, w1) =>
        (Raise (NetworkSecurityException e),
         IngestionWorld w1 (journal iw ++ [LogExportingFeatureStore]))
    | (Ok _, w1) =>
        match to_csv fault dataframe
                (feature_store_file_path (data_ingestion_config self))
                w1 with
        | (Raise e, w2) =>
            (Raise (NetworkSecurityException e),
             IngestionWorld w2 (journal iw ++ [LogExportingFeatureStore]))
        | (Ok _, w2) =>
            (Ok dataframe,
             IngestionWorld w2
               (journal iw ++
                  [LogExportingFeatureStore;
                   LogFeatureStoreSaved
                     (feature_store_file_path (data_ingestion_config self))]))
        end
    end.
Proof.
  unfold export_data_into_feature_store, try_wrap_i, mbind, MI_bind, on_disk,
    ingestion_info, mret, MI_ret. simpl.
  destruct (os_makedirs _ _ _) as [[u1|e1] w1]; simpl; [|reflexivity].
  destruct (to_csv _ _ _ _) as [[u2|e2] w2]; simpl; [|reflexivity].
  rewrite <- app_assoc. reflexivity.
Qed.

Lemma split_data_as_train_test_run dataframe iw :
  split_data_as_train_test train_test_split fault self dataframe iw =
    match train_test_split dataframe
            (train_test_split_ratio (data_ingestion_config self)) with
    | Raise e =>
        (Raise (NetworkSecurityException e),
         IngestionWorld (disk iw) (journal iw ++ [LogSplitting]))
    | Ok (train_set, test_set) =>
        let started :=
          journal iw ++ [LogSplitting; LogSplitShapes train_set test_set] in
        match os_makedirs fault
                (PosixPath.dirname
                   (training_file_path (data_ingestion_config self)))
                (disk iw) with
        | (Raise e, w1) =>
            (Raise (NetworkSecurityException e), IngestionWorld w1 started)
        | (Ok _, w1) =>
            match to_csv fault train_set
                    (training_file_path (data_ingestion_config self))
                    w1 with
            | (Raise e, w2) =>
                (Raise (NetworkSecurityException e),
                 IngestionWorld w2 started)
            | (Ok _, w2) =>
                match to_csv fault test_set
                        (testing_file_path (data_ingestion_config self))
                        w2 with
                | (Raise e, w3) =>
                    (Raise (NetworkSecurityException e),
                     IngestionWorld w3 started)
                | (Ok _, w3) =>
                    (Ok tt,
                     IngestionWorld w3
                       (started ++
                          [LogTrainSaved
                             (training_file_path
                                (data_ingestion_config self));
                           LogTestSaved
                             (testing_file_path
                                (data_ingestion_config self))]))
                end
            end
        end
    end.
Proof.
  unfold split_data_as_train_test, try_wrap_i, mbind, MI_bind, on_disk,
    outcome, ingestion_info, mret, MI_ret. simpl.
  destruct (train_test_split _ _) as [[train_set test_set]|e]; simpl;
    [|reflexivity].
  rewrite <- !app_assoc. simpl.
  destruct (os_makedirs _ _ _) as [[u1|e1] w1]; simpl; [|reflexivity].
  destruct (to_csv _ _ _ _) as [[u2|e2] w2]; simpl; [|reflexivity].
  destruct (to_csv _ _ _ _) as [[u3|e3] w3]; simpl; [|reflexivity].
  rewrite <- !app_assoc. reflexivity.
Qed.

Lemma initiate_data_ingestion_run iw :
  initiate_data_ingestion mongo_connect mongo_find train_test_split fault
    self iw =
    let iw0 :=
      IngestionWorld (disk iw)
        (journal iw ++ [LogRule; LogIngestionStarting; LogRule]) in
    match export_collection_as_dataframe mongo_connect mongo_find self
            iw0 with
    | (Raise e, iw1) => (Raise (NetworkSecurityException e), iw1)
    | (Ok df, iw1) =>
        match export_data_into_feature_store fault self df iw1 with
        | (Raise e, iw2) => (Raise (NetworkSecurityException e), iw2)
        | (Ok df', iw2) =>
            match split_data_as_train_test train_test_split fault self df'
                    iw2 with
            | (Raise e, iw3) => (Raise (NetworkSecurityException e), iw3)
            | (Ok _, iw3) =>
                let art :=
                  {| trained_file_path :=
                       training_file_path (data_ingestion_config self);
                     test_file_path :=
                       testing_file_path (data_ingestion_config self) |} in
                (Ok art,
                 IngestionWorld (disk iw3)
                   (journal iw3 ++
                      [LogIngestionCompleted; LogRule;
                       LogIngestionArtifact art]))
            end
        end
    end.
Proof.
  unfold initiate_data_ingestion, try_wrap_i, mbind, MI_bind,
    ingestion_info, mret, MI_ret. simpl.
  rewrite <- !app_assoc. simpl.
  destruct (export_collection_as_dataframe _ _ _ _) as [[df|e] iw1]; simpl;
    [|reflexivity].
  destruct (export_data_into_feature_store _ _ _ _) as [[df'|e] iw2]; simpl;
    [|reflexivity].
  destruct (split_data_as_train_test _ _ _ _ _) as [[u|e] iw3]; simpl;
    [|reflexivity].
  rewrite <- !app_assoc. reflexivity.
Qed.

End IngestionFacts.

Lemma os_makedirs_inv fault path w (r : result unit) w' :
  os_makedirs fault path w = (r, w') ->
  (r = Ok tt ∧ path <> "" ∧
   fault (trace w) (EvMakedirs path) = None ∧
   w' = add_dir path (records [EvMakedirs path] w)) ∨
  (exists e, r = Raise e ∧ w' = records [EvMakedirs path] w ∧
             (fault (trace w) (EvMakedirs path) = None -> path = "")).
Proof.
  rewrite os_makedirs_run. destruct (fault _ _) as [e|].
  - intros [= <- <-]. right. exists e. by repeat split.
  - destruct (String.eqb path "") eqn:Hp; intros [= <- <-].
    + right. eexists. repeat split. intros _. by apply String.eqb_eq.
    + left. repeat split. by apply String.eqb_neq.
Qed.

Lemma to_csv_inv fault df path w (r : result unit) w' :
  to_csv fault df path w = (r, w') ->
  (r = Ok tt ∧ fault (trace w) (EvToCsv path df) = None ∧
   w' = put_file path (CsvFile df) (records [EvToCsv path df] w)) ∨
  (exists e, r = Raise e ∧ fault (trace w) (EvToCsv path df) = Some e ∧
             w' = records [EvToCsv path df] w).
Proof.
  rewrite to_csv_run. destruct (fault _ _) as [e|]; intros [= <- <-].
  - right. by exists e.
  - by left.
Qed.

(** *** What the export makes of the documents *)

Lemma drop_columns_absent labels (df : DataFrame) :
  (forall l, l ∈ labels -> l ∉ columns df) -> drop_columns labels df = df.
Proof.
  intros Habs. unfold drop_columns.
  induction df as [|[k s] df IH]; simpl; [reflexivity|].
  rewrite bool_decide_eq_false_2; simpl.
  - f_equal. apply IH. intros l Hl Hin. apply (Habs l Hl).
    unfold columns. simpl. by right.
  - intros Hk. apply (Habs k Hk). unfold columns. simpl. by left.
Qed.

Lemma cleaned_drop raw : cleaned raw = replace_na (drop_columns ["_id"] raw).
Proof.
  unfold cleaned. case_bool_decide as Hid; [reflexivity|].
  rewrite drop_columns_absent; [reflexivity|].
  by intros l ->%list_elem_of_singleton.
Qed.

Lemma columns_replace_na df : columns (replace_na df) = columns df.
Proof.
  unfold columns, replace_na. induction df as [|[k s] df IH]; simpl;
    [reflexivity|]. f_equal. exact IH.
Qed.

Lemma columns_drop_columns labels df :
  columns (drop_columns labels df) =
    List.filter (fun c => negb (bool_decide (c ∈ labels))) (columns df).
Proof.
  unfold columns, drop_columns. induction df as [|[k s] df IH]; simpl;
    [reflexivity|].
  destruct (bool_decide (k ∈ labels)); simpl; [exact IH|].
  f_equal. exact IH.
Qed.

Lemma replace_na_cell_not_na c : replace_na_cell c <> CStr "na".
Proof.
  destruct c as [z|f|s]; simpl; try discriminate.
  destruct (String.eqb s "na") eqn:Hs; [discriminate|].
  intros [= ->]. by rewrite String.eqb_refl in Hs.
Qed.

Lemma replace_na_cell_cases c :
  replace_na_cell c = c ∨ (c = CStr "na" ∧ replace_na_cell c = CFloat nan).
Proof.
  destruct c as [z|f|s]; simpl; auto.
  destruct (String.eqb s "na") eqn:Hs; auto.
  apply String.eqb_eq in Hs as ->. auto.
Qed.

Lemma cells_replace_na df :
  cells (replace_na df) = List.map replace_na_cell (cells df).
Proof.
  unfold cells, replace_na. induction df as [|[k s] df IH]; simpl;
    [reflexivity|].
  rewrite List.map_app. f_equal. exact IH.
Qed.

Lemma cells_drop_columns labels df x :
  x ∈ cells (drop_columns labels df) -> x ∈ cells df.
Proof.
  unfold cells, drop_columns. induction df as [|[k s] df IH]; simpl;
    [done|].
  destruct (bool_decide (k ∈ labels)); simpl.
  - intros Hx. apply elem_of_app. right. by apply IH.
  - intros [Hx|Hx]%elem_of_app; apply elem_of_app; [by left|right].
    by apply IH.
Qed.



Section IngestionRuns.

Variable mongo_connect : result unit.
Variable mongo_find : string -> string -> result DataFrame.
Variable train_test_split :
  DataFrame -> float -> result (DataFrame * DataFrame).
Variable fault : list event -> event -> option exn.
Variable self : DataIngestion.

Lemma export_data_into_feature_store_inv dataframe iw r iw' :
  export_data_into_feature_store fault self dataframe iw = (r, iw') ->
  (r = Ok dataframe ∧
   PosixPath.dirname (feature_store_file_path (data_ingestion_config self))
     <> "" ∧
   disk iw' =
     put_file (feature_store_file_path (data_ingestion_config self))
       (CsvFile dataframe)
       (add_dir
          (PosixPath.dirname
             (feature_store_file_path (data_ingestion_config self)))
          (records
             [EvMakedirs
                (PosixPath.dirname
                   (feature_store_file_path (data_ingestion_config self)));
              EvToCsv (feature_store_file_path (data_ingestion_config self))
                dataframe]
             (disk iw))) ∧
   journal iw' =
     journal iw ++
       [LogExportingFeatureStore;
        LogFeatureStoreSaved
          (feature_store_file_path (data_ingestion_config self))]) ∨
  (exists e,
     r = Raise (NetworkSecurityException e) ∧
     files (disk iw') = files (disk iw) ∧
     journal iw' = journal iw ++ [LogExportingFeatureStore]).
Proof.
  rewrite export_data_into_feature_store_run.
  destruct (os_makedirs _ _ _) as [r1 w1] eqn:H1.
  apply os_makedirs_inv in H1
    as [(-> & Hne & _ & ->)|(e1 & -> & -> & _)].
  2: { intros [= <- <-]. right. by exists e1. }
  destruct (to_csv _ _ _ _) as [r2 w2] eqn:H2.
  apply to_csv_inv in H2 as [(-> & _ & ->)|(e2 & -> & _ & ->)].
  2: { intros [= <- <-]. right. by exists e2. }
  intros [= <- <-]. left. repeat split; [exact Hne|]. simpl.
  unfold put_file, add_dir, records. simpl. by rewrite <- app_assoc.
Qed.

Lemma split_data_as_train_test_inv dataframe iw r iw' :
  split_data_as_train_test train_test_split fault self dataframe iw
    = (r, iw') ->
  (exists train_set test_set,
     train_test_split dataframe
       (train_test_split_ratio (data_ingestion_config self))
       = Ok (train_set, test_set) ∧
     r = Ok tt ∧
     PosixPath.dirname (training_file_path (data_ingestion_config self))
       <> "" ∧
     disk iw' =
       put_file (testing_file_path (data_ingestion_config self))
         (CsvFile test_set)
         (put_file (training_file_path (data_ingestion_config self))
            (CsvFile train_set)
            (add_dir
               (PosixPath.dirname
                  (training_file_path (data_ingestion_config self)))
               (records
                  [EvMakedirs
                     (PosixPath.dirname
                        (training_file_path (data_ingestion_config self)));
                   EvToCsv (training_file_path (data_ingestion_config self))
                     train_set;
                   EvToCsv (testing_file_path (data_ingestion_config self))
                     test_set]
                  (disk iw)))) ∧
     journal iw' =
       journal iw ++
         [LogSplitting; LogSplitShapes train_set test_set;
          LogTrainSaved (training_file_path (data_ingestion_config self));
          LogTestSaved (testing_file_path (data_ingestion_config self))]) ∨
  (exists e,
     r = Raise (NetworkSecurityException e) ∧
     (files (disk iw') = files (disk iw) ∨
      exists train_set test_set e',
        train_test_split dataframe
          (train_test_split_ratio (data_ingestion_config self))
          = Ok (train_set, test_set) ∧
        e = e' ∧
        fault
          (trace (disk iw) ++
             [EvMakedirs
                (PosixPath.dirname
                   (training_file_path (data_ingestion_config self)));
              EvToCsv (training_file_path (data_ingestion_config self))
                train_set])
          (EvToCsv (testing_file_path (data_ingestion_config self)) test_set)
          = Some e' ∧
        files (disk iw') =
          <[training_file_path (data_ingestion_config self)
              := CsvFile train_set]> (files (disk iw)))).
Proof.
  rewrite split_data_as_train_test_run.
  destruct (train_test_split _ _) as [[train_set test_set]|e0].
  2: { intros [= <- <-]. right. exists e0. split; [reflexivity|]. by left. }
  cbv zeta.
  destruct (os_makedirs _ _ _) as [r1 w1] eqn:H1.
  apply os_makedirs_inv in H1
    as [(-> & Hne & _ & ->)|(e1 & -> & -> & _)].
  2: { intros [= <- <-]. right. exists e1. split; [reflexivity|]. by left. }
  destruct (to_csv _ _ _ _) as [r2 w2] eqn:H2.
  apply to_csv_inv in H2 as [(-> & _ & ->)|(e2 & -> & _ & ->)].
  2: { intros [= <- <-]. right. exists e2. split; [reflexivity|]. by left. }
  destruct (to_csv _ _ _ _) as [r3 w3] eqn:H3.
  apply to_csv_inv in H3 as [(-> & _ & ->)|(e3 & -> & Hf3 & ->)].
  - intros [= <- <-]. left. exists train_set, test_set.
    repeat split; [exact Hne| |]; simpl.
    + unfold put_file, add_dir, records. simpl. by rewrite <- !app_assoc.
    + by rewrite <- app_assoc.
  - intros [= <- <-]. right. exists e3. split; [reflexivity|]. right.
    exists train_set, test_set, e3. repeat split.
    simpl in Hf3. rewrite <- app_assoc in Hf3. exact Hf3.
Qed.

End IngestionRuns.

Section IngestionOutcome.

Variable mongo_connect : result unit.
Variable mongo_find : string -> string -> result DataFrame.
Variable train_test_split :
  DataFrame -> float -> result (DataFrame * DataFrame).
Variable fault : list event -> event -> option exn.
Variable self : DataIngestion.

Lemma initiate_data_ingestion_Ok iw art iw' :
  initiate_data_ingestion mongo_connect mongo_find train_test_split fault
    self iw = (Ok art, iw') ->
  exists u raw train_set test_set,
    mongo_connect = Ok u ∧
    mongo_find (database_name (data_ingestion_config self))
      (collection_name (data_ingestion_config self)) = Ok raw ∧
    train_test_split (cleaned raw)
      (train_test_split_ratio (data_ingestion_config self))
      = Ok (train_set, test_set) ∧
    PosixPath.dirname (feature_store_file_path (data_ingestion_config self))
      <> "" ∧
    PosixPath.dirname (training_file_path (data_ingestion_config self))
      <> "" ∧
    art =
      {| trained_file_path := training_file_path (data_ingestion_config self);
         test_file_path := testing_file_path (data_ingestion_config self) |} ∧
    files (disk iw') =
      <[testing_file_path (data_ingestion_config self) := CsvFile test_set]>
        (<[training_file_path (data_ingestion_config self)
             := CsvFile train_set]>
           (<[feature_store_file_path (data_ingestion_config self)
                := CsvFile (cleaned raw)]> (files (disk iw)))) ∧
    dirs (disk iw') =
      {[PosixPath.dirname (training_file_path (data_ingestion_config self))]}
        ∪ ({[PosixPath.dirname
               (feature_store_file_path (data_ingestion_config self))]}
             ∪ dirs (disk iw)) ∧
    trace (disk iw') =
      trace (disk iw) ++
        [EvMakedirs
           (PosixPath.dirname
              (feature_store_file_path (data_ingestion_config self)));
         EvToCsv (feature_store_file_path (data_ingestion_config self))
           (cleaned raw);
         EvMakedirs
           (PosixPath.dirname
              (training_file_path (data_ingestion_config self)));
         EvToCsv (training_file_path (data_ingestion_config self)) train_set;
         EvToCsv (testing_file_path (data_ingestion_config self)) test_set].
Proof.
  rewrite initiate_data_ingestion_run. cbv zeta.
  rewrite export_collection_as_dataframe_run.
  destruct mongo_connect as [u|e]; [|discriminate].
  destruct (mongo_find _ _) as [raw|e]; [|discriminate].
  destruct (export_data_into_feature_store _ _ _ _) as [r2 iw2] eqn:H2.
  apply export_data_into_feature_store_inv in H2
    as [(-> & Hfdir & Hd2 & _)|(e & -> & _)]; [|discriminate].
  destruct (split_data_as_train_test _ _ _ _ _) as [r3 iw3] eqn:H3.
  apply split_data_as_train_test_inv in H3
    as [(train_set & test_set & Hsplit & -> & Htdir & Hd3 & _)
       |(e & -> & _)]; [|discriminate].
  intros [= <- <-]. exists u, raw, train_set, test_set.
  do 6 (split; [done|]). simpl. rewrite Hd3, Hd2. simpl.
  split; [done|]. split; [done|]. by rewrite <- app_assoc.
Qed.

Lemma initiate_data_ingestion_Raise iw e iw' :
  initiate_data_ingestion mongo_connect mongo_find train_test_split fault
    self iw = (Raise e, iw') ->
  (exists e0, e = NetworkSecurityException (NetworkSecurityException e0)) ∧
  (files (disk iw') = files (disk iw) ∨
   (exists raw,
      files (disk iw') =
        <[feature_store_file_path (data_ingestion_config self)
            := CsvFile (cleaned raw)]> (files (disk iw))) ∨
   (exists raw train_set,
      files (disk iw') =
        <[training_file_path (data_ingestion_config self)
            := CsvFile train_set]>
          (<[feature_store_file_path (data_ingestion_config self)
               := CsvFile (cleaned raw)]> (files (disk iw))))).
Proof.
  rewrite initiate_data_ingestion_run. cbv zeta.
  rewrite export_collection_as_dataframe_run.
  destruct mongo_connect as [u|e1].
  2: { intros [= <- <-]. split; [eauto|]. by left. }
  destruct (mongo_find _ _) as [raw|e1].
  2: { intros [= <- <-]. split; [eauto|]. by left. }
  destruct (export_data_into_feature_store _ _ _ _) as [r2 iw2] eqn:H2.
  apply export_data_into_feature_store_inv in H2
    as [(-> & Hfdir & Hd2 & _)|(e2 & -> & Hf2 & _)].
  2: { intros [= <- <-]. split; [eauto|]. by left. }
  destruct (split_data_as_train_test _ _ _ _ _) as [r3 iw3] eqn:H3.
  apply split_data_as_train_test_inv in H3
    as [(train_set & test_set & Hsplit & -> & _)
       |(e3 & -> & Hf3)]; [discriminate|].
  intros [= <- <-]. split; [eauto|]. right.
  destruct Hf3 as [Hf3|(train_set & test_set & e' & _ & _ & _ & Hf3)];
    rewrite Hf3, Hd2; simpl; eauto.
Qed.

End IngestionOutcome.









Section IngestionKeeps.

Variable mongo_connect : result unit.
Variable mongo_find : string -> string -> result DataFrame.
Variable train_test_split :
  DataFrame -> float -> result (DataFrame * DataFrame).
Variable fault : list event -> event -> option exn.
Variable self : DataIngestion.
Variable R : world -> world -> Prop.
Hypothesis R_records : forall w evs, R w (records evs w).
Hypothesis R_trans : forall w1 w2 w3, R w1 w2 -> R w2 w3 -> R w1 w3.
Hypothesis R_add_dir :
  forall w d, d ∈ ingestion_dirs (data_ingestion_config self) ->
              R w (add_dir d w).
Hypothesis R_put_file :
  forall w p c, p ∈ ingestion_paths (data_ingestion_config self) ->
                R w (put_file p c w).

Lemma keeps_export_data_into_feature_store dataframe iw r iw' :
  export_data_into_feature_store fault self dataframe iw = (r, iw') ->
  R (disk iw) (disk iw').
Proof.
  rewrite export_data_into_feature_store_run.
  destruct (os_makedirs _ _ _) as [r1 w1] eqn:H1.
  apply (keeps_os_makedirs fault R R_records R_trans) in H1.
  2: { intros w. apply R_add_dir. unfold ingestion_dirs. by left. }
  destruct r1 as [u1|e1]; [|by intros [= <- <-]].
  destruct (to_csv _ _ _ _) as [r2 w2] eqn:H2.
  apply (keeps_to_csv fault R R_records R_trans) in H2.
  2: { intros w c. apply R_put_file. unfold ingestion_paths. by left. }
  destruct r2 as [u2|e2]; intros [= <- <-]; simpl; eauto.
Qed.

Lemma keeps_split_data_as_train_test dataframe iw r iw' :
  split_data_as_train_test train_test_split fault self dataframe iw
    = (r, iw') ->
  R (disk iw) (disk iw').
Proof.
  rewrite split_data_as_train_test_run.
  destruct (train_test_split _ _) as [[train_set test_set]|e0].
  2: { intros [= <- <-]. simpl. apply (R_refl R R_records). }
  cbv zeta.
  destruct (os_makedirs _ _ _) as [r1 w1] eqn:H1.
  apply (keeps_os_makedirs fault R R_records R_trans) in H1.
  2: { intros w. apply R_add_dir. unfold ingestion_dirs. right. by left. }
  destruct r1 as [u1|e1]; [|by intros [= <- <-]].
  destruct (to_csv _ _ _ _) as [r2 w2] eqn:H2.
  apply (keeps_to_csv fault R R_records R_trans) in H2.
  2: { intros w c. apply R_put_file. unfold ingestion_paths.
       right. by left. }
  destruct r2 as [u2|e2]; [|intros [= <- <-]; simpl; eauto].
  destruct (to_csv _ _ _ _) as [r3 w3] eqn:H3.
  apply (keeps_to_csv fault R R_records R_trans) in H3.
  2: { intros w c. apply R_put_file. unfold ingestion_paths.
       right. right. by left. }
  destruct r3 as [u3|e3]; intros [= <- <-]; simpl; eauto.
Qed.

Lemma keeps_initiate_data_ingestion iw r iw' :
  initiate_data_ingestion mongo_connect mongo_find train_test_split fault
    self iw = (r, iw') ->
  R (disk iw) (disk iw').
Proof.
  rewrite initiate_data_ingestion_run. cbv zeta.
  rewrite export_collection_as_dataframe_run.
  destruct mongo_connect as [u|e1].
  2: { intros [= <- <-]. apply (R_refl R R_records). }
  destruct (mongo_find _ _) as [raw|e1].
  2: { intros [= <- <-]. apply (R_refl R R_records). }
  destruct (export_data_into_feature_store _ _ _ _) as [r2 iw2] eqn:H2.
  apply keeps_export_data_into_feature_store in H2. simpl in H2.
  destruct r2 as [df'|e2]; [|by intros [= <- <-]].
  destruct (split_data_as_train_test _ _ _ _ _) as [r3 iw3] eqn:H3.
  apply keeps_split_data_as_train_test in H3.
  destruct r3 as [u3|e3]; intros [= <- <-]; simpl; eauto.
Qed.

End IngestionKeeps.



Section IngestionCompletion.

Variable mongo_connect : result unit.
Variable mongo_find : string -> string -> result DataFrame.
Variable train_test_split :
  DataFrame -> float -> result (DataFrame * DataFrame).
Variable fault : list event -> event -> option exn.
Variable self : DataIngestion.

Hypothesis no_fault : forall hist ev, fault hist ev = None.

Lemma initiate_data_ingestion_completes iw u raw parts :
  mongo_connect = Ok u ->
  mongo_find (database_name (data_ingestion_config self))
    (collection_name (data_ingestion_config self)) = Ok raw ->
  train_test_split (cleaned raw)
    (train_test_split_ratio (data_ingestion_config self)) = Ok parts ->
  PosixPath.dirname (feature_store_file_path (data_ingestion_config self))
    <> "" ->
  PosixPath.dirname (training_file_path (data_ingestion_config self))
    <> "" ->
  exists iw',
    initiate_data_ingestion mongo_connect mongo_find train_test_split fault
      self iw =
      (Ok {| trained_file_path :=
               training_file_path (data_ingestion_config self);
             test_file_path :=
               testing_file_path (data_ingestion_config self) |}, iw').
Proof.
  intros Hup Hfind Hsplit Hfdir Htdir.
  apply String.eqb_neq in Hfdir, Htdir.
  rewrite initiate_data_ingestion_run. cbv zeta.
  rewrite export_collection_as_dataframe_run, Hup, Hfind.
  rewrite export_data_into_feature_store_run.
  rewrite os_makedirs_run, no_fault, Hfdir.
  rewrite to_csv_run, no_fault.
  rewrite split_data_as_train_test_run, Hsplit.
  destruct parts as [train_set test_set]. cbv zeta.
  rewrite os_makedirs_run, no_fault, Htdir.
  rewrite to_csv_run, no_fault. rewrite to_csv_run, no_fault.
  eauto.
Qed.


End IngestionCompletion.


(** ** Ingestion followed by validation *)



(** ** The files a validation run reads *)

Section Reads.

Variable ks_2samp : selection -> selection -> result KstestResult.
Variable fault : list event -> event -> option exn.
Variable self : DataValidation.
Variable P : event -> Prop.
Hypothesis P_other : forall ev, is_read_csv ev = false -> P ev.

Lemma appends_recorded {A} (m : M A) :
  (forall w, exists evs, (m w).2 = records evs w ∧ Forall P evs) ->
  appends P m.
Proof.
  intros Hm w r w' H. destruct (Hm w) as (evs & Hw & HP).
  rewrite H in Hw. simpl in Hw. subst w'. by exists evs.
Qed.

Lemma appends_read_data path :
  P (EvReadCsv path) -> appends P (read_data fault path).
Proof.
  intros HP. apply appends_recorded. intros w. rewrite read_data_run.
  eexists. split; [reflexivity|]. repeat constructor; auto.
Qed.

Lemma appends_validate_number_of_columns df :
  appends P (validate_number_of_columns self df).
Proof.
  apply appends_recorded. intros w. rewrite validate_number_of_columns_run.
  destruct (_schema_config self !! "columns"); eexists;
    (split; [reflexivity|]); repeat constructor; auto.
Qed.

Lemma appends_is_numerical_column_exist df :
  appends P (is_numerical_column_exist self df).
Proof.
  apply appends_recorded. intros w. rewrite is_numerical_column_exist_run.
  destruct (_schema_config self !! "numerical_columns") as [nv|];
    [destruct (hashable_items nv) as [numerical|];
       [destruct (missing_columns numerical df)|]|];
    eexists; (split; [reflexivity|]); repeat constructor; auto.
Qed.

Lemma appends_detect_dataset_drift base_df current_df threshold :
  appends P
    (detect_dataset_drift ks_2samp fault self base_df current_df threshold).
Proof.
  unfold detect_dataset_drift.
  apply appends_bind; [by apply appends_emit, P_other|]. intros _.
  apply appends_try_wrap. apply appends_bind.
  - apply appends_recorded. intros w. rewrite drift_loop_run.
    eexists. split; [reflexivity|].
    eapply Forall_impl; [apply drift_events_ks|].
    intros ev (d1 & d2 & ->). by apply P_other.
  - intros [drift report].
    apply appends_bind; [by apply appends_os_makedirs, P_other|]. intros _.
    apply appends_bind; [|intros _; apply appends_ret].
    unfold write_yaml_file.
    apply appends_bind; [by apply appends_extern, P_other|]. intros _.
    by apply appends_modify.
Qed.

Lemma appends_initiate_data_validation :
  P (EvReadCsv (trained_file_path (data_ingestion_artifact self))) ->
  P (EvReadCsv (test_file_path (data_ingestion_artifact self))) ->
  appends P (initiate_data_validation ks_2samp fault self).
Proof.
  intros Htrain Htest. unfold initiate_data_validation.
  apply appends_try_wrap.
  apply appends_bind; [by apply appends_read_data|]. intros train.
  apply appends_bind; [by apply appends_read_data|]. intros test.
  apply appends_bind; [apply appends_validate_number_of_columns|]. intros s1.
  apply appends_bind; [apply appends_validate_number_of_columns|]. intros s2.
  apply appends_bind; [apply appends_is_numerical_column_exist|]. intros s3.
  apply appends_bind; [apply appends_is_numerical_column_exist|]. intros s4.
  cbv zeta.
  set (status := if negb s4 then false else _).
  apply appends_bind.
  { destruct status; [|apply appends_ret].
    apply appends_bind; [apply appends_detect_dataset_drift|].
    intros _. apply appends_ret. }
  intros _.
  apply appends_bind; [by apply appends_os_makedirs, P_other|]. intros _.
  apply appends_bind.
  { destruct status;
      (apply appends_bind;
         [by apply appends_to_csv, P_other
         |intros _; by apply appends_to_csv, P_other]). }
  intros _. apply appends_bind; [by apply appends_emit, P_other|].
  intros _. apply appends_ret.
Qed.

End Reads.

Lemma filter_read_run_events ks_2samp self cols numerical train test report :
  List.filter is_read_csv
    (run_events ks_2samp self cols numerical train test report) =
    [EvReadCsv (trained_file_path (data_ingestion_artifact self));
     EvReadCsv (test_file_path (data_ingestion_artifact self))].
Proof.
  unfold run_events, load_events, check_events, count_events,
    numerical_events, stage_events, detect_events, persist_events.
  rewrite !List.filter_app. simpl.
  destruct (missing_columns numerical train),
    (missing_columns numerical test),
    (structural_checks cols numerical train test); simpl;
    rewrite ?List.filter_app, ?filter_drift_events; done.
Qed.

(** X9: whatever its outcome, the only files a validation run reads are the two
    named by the ingestion artifact: it never reads back a file it wrote, nor
    any other.  A run that completes has read each of the two once, the train
    file first. *)
Theorem validation_reads_only_its_inputs
    (ks_2samp : selection -> selection -> result KstestResult)
    (fault : list event -> event -> option exn)
    (self : DataValidation) (w : world)
    (r : result DataValidationArtifact) (w' : world) :
  initiate_data_validation ks_2samp fault self w = (r, w') ->
  exists evs,
    trace w' = trace w ++ evs ∧
    (forall p,
       EvReadCsv p ∈ evs ->
       p = trained_file_path (data_ingestion_artifact self) ∨
       p = test_file_path (data_ingestion_artifact self)) ∧
    (forall art,
       r = Ok art ->
       List.filter is_read_csv evs =
         [EvReadCsv (trained_file_path (data_ingestion_artifact self));
          EvReadCsv (test_file_path (data_ingestion_artifact self))]).
Proof.
  intros Hrun.
  assert (appends
            (fun ev =>
               forall p, ev = EvReadCsv p ->
                 p = trained_file_path (data_ingestion_artifact self) ∨
                 p = test_file_path (data_ingestion_artifact self))
            (initiate_data_validation ks_2samp fault self)) as Happ.
  { apply appends_initiate_data_validation.
    - intros ev Hev p ->. discriminate Hev.
    - intros p [= <-]. by left.
    - intros p [= <-]. by right. }
  destruct (Happ _ _ _ Hrun) as (evs & Htr & Hall).
  exists evs. split; [exact Htr|]. split.
  - intros p Hp. rewrite Forall_forall in Hall. by apply (Hall _ Hp).
  - intros art ->.
    destruct (initiate_data_validation_Ok _ _ _ _ _ _ Hrun)
      as (train & test & cols & nv & numerical & report & _ & _ & _ & _ &
          _ & _ & _ & _ & Htr' & _).
    rewrite Htr in Htr'. apply app_inv_head in Htr'. subst evs.
    apply filter_read_run_events.
Qed.

Lemma validation_reads_only_its_inputs_witness :
  exists evs,
    trace Sample.rejected_run.2 = trace Sample.rejected_world ++ evs ∧
    (forall p,
       EvReadCsv p ∈ evs ->
       p = "ingested/part1.csv" ∨ p = "ingested/part2.csv") ∧
    (forall art,
       Sample.rejected_run.1 = Ok art ->
       List.filter is_read_csv evs =
         [EvReadCsv "ingested/part1.csv"; EvReadCsv "ingested/part2.csv"]).
Proof.
  apply (validation_reads_only_its_inputs (Sample.ks_const 1%float)
           Sample.no_fault Sample.self Sample.rejected_world
           Sample.rejected_run.1 Sample.rejected_run.2).
  reflexivity.
Defined.
